(** * ChatBot backend: session store, sanitizer, rate limiter, chat service

  A shallow embedding of the JavaScript sources

    - [src/models/chatModel.js]      (module [ChatModel])
    - [src/utils/sanitize.js]        (module [Sanitize])
    - [src/utils/rateLimiter.js]     (module [RateLimiter])
    - [src/services/chatService.js]  (module [ChatService])

  together with the properties stated about them.  JavaScript strings are
  sequences of UTF-16 code units, numbers are rationals extended with NaN
  and the two infinities, [Map]s are finite maps, [Date]s are millisecond
  counts.  Readings of the environment (clock, random identifiers, the
  upstream language-model call) are explicit inputs. *)

From Stdlib Require Import ZArith NArith QArith List Bool Lia String Ascii.
From stdpp Require Import gmap list strings.
Import ListNotations.

Local Open Scope Z_scope.

(** ** JavaScript values *)

Module JS.

(** A string is its sequence of UTF-16 code units. *)
Definition jsstring := list N.

(** An ASCII literal as a JavaScript string. *)
Definition lit (s : string) : jsstring :=
  List.map N_of_ascii (list_ascii_of_string s).

(** Numbers: NaN, the infinities, and the finite values. *)
Inductive jsnum :=
| NaN
| PInf
| NInf
| Num (q : Q).

Definition isNaN (n : jsnum) : bool :=
  match n with NaN => true | _ => false end.

(** [a >= b] and [a <= b] on numbers; every comparison with NaN is false. *)
Definition num_le (a b : jsnum) : bool :=
  match a, b with
  | NaN, _ | _, NaN => false
  | NInf, _ => true
  | _, PInf => true
  | PInf, _ => false
  | _, NInf => false
  | Num x, Num y => Qle_bool x y
  end.

Definition num_lt (a b : jsnum) : bool :=
  match a, b with
  | NaN, _ | _, NaN => false
  | PInf, _ => false
  | _, NInf => false
  | NInf, _ => true
  | _, PInf => true
  | Num x, Num y => Qle_bool x y && negb (Qeq_bool x y)
  end.

Definition num_of_Z (z : Z) : jsnum := Num (inject_Z z).

(** Values that reach the code modelled here.  An object is represented by
    the string [ToString] gives for it, which is all [parseFloat] and
    [parseInt] look at.  An object for which [ToString] throws is not among
    them: [Request.value] adds it where the values are those of a
    request. *)
Inductive jsval :=
| VUndef
| VNull
| VBool (b : bool)
| VNum (n : jsnum)
| VStr (s : jsstring)
| VObj (rendering : jsstring).

(** [ToBoolean]. *)
Definition truthy (v : jsval) : bool :=
  match v with
  | VUndef | VNull => false
  | VBool b => b
  | VNum NaN => false
  | VNum (Num q) => negb (Qeq_bool q 0)
  | VNum _ => true
  | VStr s => match s with [] => false | _ => true end
  | VObj _ => true
  end.

(** [a || b]. *)
Definition or_else (a b : jsval) : jsval :=
  if truthy a then a else b.

Definition is_undefined (v : jsval) : bool :=
  match v with VUndef => true | _ => false end.

Definition is_string (v : jsval) : bool :=
  match v with VStr _ => true | _ => false end.

(** *** [String.prototype.trim] *)

(** WhiteSpace and LineTerminator code units of ECMAScript. *)
Definition isWhiteSpace (c : N) : bool :=
  ((9 <=? c) && (c <=? 13) || (c =? 32) || (c =? 160) || (c =? 5760)
   || (8192 <=? c) && (c <=? 8202) || (c =? 8232) || (c =? 8233)
   || (c =? 8239) || (c =? 8287) || (c =? 12288) || (c =? 65279))%N.

Fixpoint trimStart (s : jsstring) : jsstring :=
  match s with
  | [] => []
  | c :: rest => if isWhiteSpace c then trimStart rest else s
  end.

Definition trimEnd (s : jsstring) : jsstring :=
  rev (trimStart (rev s)).

Definition trim (s : jsstring) : jsstring :=
  trimEnd (trimStart s).

(** [s.replace(/c/g, by)] for a single code unit [c]. *)
Definition replaceAll (c : N) (by_ : jsstring) (s : jsstring) : jsstring :=
  List.flat_map (fun x => if (x =? c)%N then by_ else [x]) s.

End JS.
Import JS.

(** The options object of a chat request: the three properties the code
  reads, [VUndef] when a property is absent. *)
Module Options.

Record t := mk {
  model : jsval;
  temperature : jsval;
  maxTokens : jsval
}.

(** [{}]. *)
Definition empty : t := mk VUndef VUndef VUndef.

End Options.

(** ** src/utils/sanitize.js *)

Module Sanitize.

(** The class [[\x00-\x1F\x7F]]. *)
Definition isControl (c : N) : bool := ((c <=? 31) || (c =? 127))%N.

Definition stripControl (s : jsstring) : jsstring :=
  List.filter (fun c => negb (isControl c)) s.

Definition amp : N := 38.
Definition lt_ : N := 60.
Definition gt_ : N := 62.
Definition quot : N := 34.
Definition apos : N := 39.
Definition slash : N := 47.

(** The six replacements, in the order of the source. *)
Definition escapeHtml (s : jsstring) : jsstring :=
  replaceAll slash (lit "&#x2F;")
    (replaceAll apos (lit "&#x27;")
      (replaceAll quot (lit "&quot;")
        (replaceAll gt_ (lit "&gt;")
          (replaceAll lt_ (lit "&lt;")
            (replaceAll amp (lit "&amp;") s))))).

Definition sanitizeString (input : jsval) : jsstring :=
  match input with
  | VStr s => escapeHtml (stripControl (trim s))
  | _ => []
  end.

(** Ampersand, less-than, greater-than, double quote, apostrophe, slash. *)
Definition isHtmlSpecial (c : N) : bool :=
  ((c =? amp) || (c =? lt_) || (c =? gt_) || (c =? quot) || (c =? apos)
   || (c =? slash))%N.

Definition noHtmlSpecial (s : jsstring) : bool :=
  forallb (fun c => negb (isHtmlSpecial c)) s.

(** Every control character of [s] is one that [trim] treats as white
    space (TAB, LF, VT, FF, CR). *)
Definition controlsAreWhiteSpace (s : jsstring) : bool :=
  forallb (fun c => implb (isControl c) (isWhiteSpace c)) s.

(** [s] does not begin with white space. *)
Definition startsClean (s : jsstring) : bool :=
  match s with [] => true | c :: _ => negb (isWhiteSpace c) end.

Definition endsClean (s : jsstring) : bool := startsClean (rev s).

(** *** [validateOptions] *)

(** The numeric parsers of the language, given by their action on strings:
    [parseFloat] and [parseInt] first convert their argument to a string. *)
Record parsers := mkParsers {
  parseFloatStr : jsstring -> jsnum;
  parseIntStr : jsstring -> jsnum;
  numToString : jsnum -> jsstring
}.

(** [parseFloat(v)]; on a number it gives the number back. *)
Definition parseFloat (p : parsers) (v : jsval) : jsnum :=
  match v with
  | VNum n => n
  | VStr s | VObj s => parseFloatStr p s
  | VUndef | VNull | VBool _ => NaN
  end.

(** [parseInt(v)]. *)
Definition parseInt (p : parsers) (v : jsval) : jsnum :=
  match v with
  | VNum n => parseIntStr p (numToString p n)
  | VStr s | VObj s => parseIntStr p s
  | VUndef | VNull | VBool _ => NaN
  end.

Definition allowedModels : list jsstring :=
  [lit "gpt-4o-mini"; lit "gpt-4o"; lit "gpt-3.5-turbo"].

Definition validModel (v : jsval) : jsval :=
  match v with
  | VStr s =>
      if truthy v && bool_decide (s ∈ allowedModels) then VStr s else VUndef
  | _ => VUndef
  end.

Definition validTemperature (p : parsers) (v : jsval) : jsval :=
  if is_undefined v then VUndef
  else
    let temp := parseFloat p v in
    if negb (isNaN temp) && num_le (num_of_Z 0) temp
       && num_le temp (num_of_Z 2)
    then VNum temp else VUndef.

Definition validMaxTokens (p : parsers) (v : jsval) : jsval :=
  if is_undefined v then VUndef
  else
    let tokens := parseInt p v in
    if negb (isNaN tokens) && num_lt (num_of_Z 0) tokens
       && num_le tokens (num_of_Z 4000)
    then VNum tokens else VUndef.

(** [options] is [None] when the request value is falsy or not an
    object.  The properties are values of [jsval], which all convert to a
    string; [Validation.validateOptions] is the function on the values of
    a request, where a conversion can throw. *)
Definition validateOptions (p : parsers) (options : option Options.t)
    : Options.t :=
  match options with
  | None => Options.empty
  | Some o =>
      Options.mk (validModel (Options.model o))
        (validTemperature p (Options.temperature o))
        (validMaxTokens p (Options.maxTokens o))
  end.

End Sanitize.

(** ** src/models/chatModel.js *)

Module Message.

Inductive role := user | assistant | system.

Record t := mk {
  id : jsstring;
  sessionId : jsstring;
  role_ : role;
  content : jsstring;
  timestamp : Z;
  metadata : gmap string jsval
}.

End Message.

Module Session.

Record t := mk {
  sessionId : jsstring;
  createdAt : Z;
  lastActivity : Z;
  messages : list Message.t;
  context : gmap string jsval
}.

End Session.

Module ChatModel.

(** The two [Map]s of the class.  A session object is reachable only
    through its key, so the in-place updates of the source are updates of
    the map entry. *)
Record t := mk {
  sessions : gmap jsstring Session.t;
  messages : gmap jsstring Message.t
}.

(** [constructor()]. *)
Definition new : t := mk ∅ ∅.

(** What one call of [createMessage] reads from its environment:
    [Date.now()] and [Math.random().toString(36).substr(2)] inside
    [generateId], [new Date()] for the timestamp, and [new Date()] again in
    [addMessageToSession]. *)
Record readings := mkReadings {
  idNow : Z;
  idRandom : jsstring;
  stamp : Z;
  activity : Z
}.

Definition digit36 (d : N) : N :=
  (if d <? 10 then 48 + d else 87 + d)%N.

Fixpoint toString36_aux (fuel : nat) (n : N) (acc : jsstring) : jsstring :=
  match fuel with
  | O => acc
  | S fuel' =>
      let acc' := digit36 (n mod 36) :: acc in
      if (n / 36 =? 0)%N then acc' else toString36_aux fuel' (n / 36) acc'
  end.

(** [n.toString(36)] for an integer [n]. *)
Definition toString36 (n : Z) : jsstring :=
  let digits := toString36_aux (S (N.to_nat (N.log2 (Z.abs_N n)))) (Z.abs_N n) [] in
  if n <? 0 then 45%N :: digits else digits.

Definition generateId (now : Z) (random : jsstring) : jsstring :=
  toString36 now ++ random.

Definition addMessageToSession (now : Z) (sessionId : jsstring)
    (message : Message.t) (st : t) : t :=
  match sessions st !! sessionId with
  | Some session =>
      let session' :=
        Session.mk (Session.sessionId session) (Session.createdAt session)
          now (Session.messages session ++ [message])
          (Session.context session) in
      mk (<[sessionId := session']> (sessions st)) (messages st)
  | None => st
  end.

Definition createMessage (r : readings) (sessionId : jsstring)
    (role : Message.role) (content : jsstring)
    (metadata : gmap string jsval) (st : t) : Message.t * t :=
  let messageId := generateId (idNow r) (idRandom r) in
  let message :=
    Message.mk messageId sessionId role content (stamp r) metadata in
  let st1 := mk (sessions st) (<[messageId := message]> (messages st)) in
  (message, addMessageToSession (activity r) sessionId message st1).

(** [array.slice(start)]. *)
Definition slice_from {A} (start : Z) (l : list A) : list A :=
  let len := Z.of_nat (length l) in
  let k := if start <? 0 then Z.max (len + start) 0 else Z.min start len in
  drop (Z.to_nat k) l.

(** [limit] is [null] ([None]) or an integer. *)
Definition getSessionMessages (sessionId : jsstring) (limit : option Z)
    (st : t) : list Message.t :=
  match sessions st !! sessionId with
  | None => []
  | Some session =>
      let messages := Session.messages session in
      match limit with
      | Some l => if l =? 0 then messages else slice_from (- l) messages
      | None => messages
      end
  end.

Definition createOrUpdateSession (now : Z) (sessionId : jsstring)
    (context : gmap string jsval) (st : t) : Session.t * t :=
  match sessions st !! sessionId with
  | Some existingSession =>
      let session' :=
        Session.mk (Session.sessionId existingSession)
          (Session.createdAt existingSession) now
          (Session.messages existingSession)
          (Session.context existingSession) in
      (session', mk (<[sessionId := session']> (sessions st)) (messages st))
  | None =>
      let session := Session.mk sessionId now now [] context in
      (session, mk (<[sessionId := session]> (sessions st)) (messages st))
  end.

Definition getSession (sessionId : jsstring) (st : t) : option Session.t :=
  sessions st !! sessionId.

Definition deleteSession (sessionId : jsstring) (st : t) : bool * t :=
  match sessions st !! sessionId with
  | None => (false, st)
  | Some session =>
      let messages' :=
        fold_left (fun acc message => delete (Message.id message) acc)
          (Session.messages session) (messages st) in
      (true, mk (delete sessionId (sessions st)) messages')
  end.

(** [getStats()] without the process memory figures. *)
Definition getStats (st : t) : nat * nat :=
  (size (sessions st), size (messages st)).

(** The stores the class can be in: built from [new] by its three mutating
    methods. *)
Inductive reachable : t -> Prop :=
| reach_new : reachable new
| reach_createOrUpdateSession now sessionId context st :
    reachable st ->
    reachable (snd (createOrUpdateSession now sessionId context st))
| reach_createMessage r sessionId role content metadata st :
    reachable st ->
    reachable (snd (createMessage r sessionId role content metadata st))
| reach_deleteSession sessionId st :
    reachable st ->
    reachable (snd (deleteSession sessionId st)).

(** Appending a batch of messages to one session, one [createMessage] per
    element. *)
Record draft := mkDraft {
  d_readings : readings;
  d_role : Message.role;
  d_content : jsstring;
  d_metadata : gmap string jsval
}.

(** The message object [createMessage] builds. *)
Definition created (r : readings) (sessionId : jsstring)
    (role : Message.role) (content : jsstring)
    (metadata : gmap string jsval) : Message.t :=
  Message.mk (generateId (idNow r) (idRandom r)) sessionId role content
    (stamp r) metadata.

Definition draftMessage (sessionId : jsstring) (d : draft) : Message.t :=
  created (d_readings d) sessionId (d_role d) (d_content d) (d_metadata d).

Definition appendAll (sessionId : jsstring) (ds : list draft) (st : t) : t :=
  fold_left
    (fun acc d =>
       snd (createMessage (d_readings d) sessionId (d_role d) (d_content d)
              (d_metadata d) acc))
    ds st.

(** Every message of a session's sequence names that session. *)
Definition sequencesNameTheirSession (st : t) : Prop :=
  forall sessionId session m,
    sessions st !! sessionId = Some session ->
    m ∈ Session.messages session ->
    Message.sessionId m = sessionId.

(** Every message of the message collection is in the sequence of the
    session it names. *)
Definition everyMessageInItsSession (st : t) : Prop :=
  forall messageId m,
    messages st !! messageId = Some m ->
    exists session,
      sessions st !! Message.sessionId m = Some session
      /\ m ∈ Session.messages session.

End ChatModel.

(** ** src/utils/rateLimiter.js: [createSessionLimiter] *)

Module RateLimiter.

Record entry := mkEntry {
  count : Z;
  resetTime : Z
}.

(** The two places a request can carry its session identifier, each absent
    or a string. *)
Record request := mkRequest {
  bodySessionId : option jsstring;
  querySessionId : option jsstring
}.

(** [next()], or the 429 response with the number that precedes the word
    segundos in its [retryAfter] text. *)
Inductive decision :=
| Next
| TooManyRequests (error : jsstring) (retryAfter : Z).

Definition property (o : option jsstring) : jsval :=
  match o with Some s => VStr s | None => VUndef end.

(** [Math.ceil(x / 1000)]. *)
Definition ceilSeconds (x : Z) : Z := - ((- x) / 1000).

Definition rejectionText : jsstring :=
  lit "Demasiados mensajes para esta sesi" ++ [243%N]
    ++ lit "n, espera un momento".

(** One call of the middleware returned by
    [createSessionLimiter(windowMs, max)], at clock reading [now], on the
    closure's map [sessions]. *)
Definition createSessionLimiter (windowMs max : Z) (now : Z) (req : request)
    (sessions : gmap jsstring entry) : decision * gmap jsstring entry :=
  match or_else (property (bodySessionId req)) (property (querySessionId req)) with
  | VStr sessionId =>
      if negb (truthy (VStr sessionId)) then (Next, sessions)
      else
        match sessions !! sessionId with
        | None =>
            (Next, <[sessionId := mkEntry 1 (now + windowMs)]> sessions)
        | Some sessionData =>
            if resetTime sessionData <? now then
              (Next, <[sessionId := mkEntry 1 (now + windowMs)]> sessions)
            else if max <=? count sessionData then
              (TooManyRequests rejectionText
                 (ceilSeconds (resetTime sessionData - now)),
               sessions)
            else
              (Next,
               <[sessionId := mkEntry (count sessionData + 1)
                                (resetTime sessionData)]> sessions)
        end
  | _ => (Next, sessions)
  end.

Definition rejected (d : decision) : bool :=
  match d with Next => false | TooManyRequests _ _ => true end.

(** A request carrying [key] in its body. *)
Definition requestFor (key : jsstring) : request := mkRequest (Some key) None.

End RateLimiter.

(** ** src/services/chatService.js *)

Module ChatService.

(** A thrown [Error], by its [message]. *)
Record jsError := Error { message : jsstring }.

(** An entry of the array sent upstream. *)
Record chatMessage := mkChatMessage {
  role : Message.role;
  content : jsstring
}.

(** The argument of [client.chat.completions.create]. *)
Record completionRequest := mkCompletionRequest {
  model : jsval;
  messages : list chatMessage;
  temperature : jsval;
  max_tokens : jsval;
  stream : bool
}.

(** What the upstream call and the reading of
    [response.choices[0]?.message?.content] come to: a fault, or the value
    read. *)
Inductive completion :=
| Rejected (e : jsError)
| Resolved (content : jsval).

(** [openaiClient.getClient()]: a client, [null], or a fault raised by the
    initialisation. *)
Inductive clientState :=
| ClientReady
| ClientNull
| ClientInitFails (e : jsError).

Inductive level := info | error.

(** A logger call: level, text, and the values interpolated or passed
    after it. *)
Record logEntry := mkLog {
  logLevel : level;
  logText : jsstring;
  logArgs : list jsval
}.

(** The mutable state the service works on, with the number of clock
    readings and random draws made so far. *)
Record world := mkWorld {
  chatModel : ChatModel.t;
  logged : list logEntry;
  clockReads : nat;
  randomDraws : nat
}.

(** The environment of a request: successive clock readings and random
    suffixes, the upstream client, what other requests do to the state
    while this one awaits the upstream call, and the configured system
    prompt. *)
Record env := mkEnv {
  clock : nat -> Z;
  random : nat -> jsstring;
  client : clientState;
  completions : completionRequest -> completion;
  concurrent : world -> world;
  SYSTEM_PROMPT : jsval
}.

(** *** Computations that read the environment, change the state and may
    throw.  A throw keeps the state changes made before it. *)

Inductive outcome (A : Type) :=
| Returns (a : A)
| Throws (e : jsError).
Arguments Returns {A} a.
Arguments Throws {A} e.

Definition M (A : Type) : Type := env -> world -> outcome A * world.

Definition ret {A} (a : A) : M A := fun _ w => (Returns a, w).

Definition bind {A B} (c : M A) (k : A -> M B) : M B :=
  fun e w =>
    match c e w with
    | (Returns a, w') => k a e w'
    | (Throws err, w') => (Throws err, w')
    end.

Definition throw {A} (err : jsError) : M A := fun _ w => (Throws err, w).

Definition tryCatch {A} (body : M A) (handler : jsError -> M A) : M A :=
  fun e w =>
    match body e w with
    | (Returns a, w') => (Returns a, w')
    | (Throws err, w') => handler err e w'
    end.

Notation "'let*' x ':=' c 'in' k" := (bind c (fun x => k))
  (at level 10, x name, c at level 100, k at level 200).

Definition ask : M env := fun e w => (Returns e, w).

Definition log (l : level) (text : jsstring) (args : list jsval) : M unit :=
  fun _ w =>
    (Returns tt,
     mkWorld (chatModel w) (logged w ++ [mkLog l text args]) (clockReads w)
       (randomDraws w)).

(** The [await] of the upstream call: other requests run meanwhile. *)
Definition await (req : completionRequest) : M completion :=
  fun e w => (Returns (completions e req), concurrent e w).

(** An [async] function that throws before its own [await] hands its
    caller a rejected promise: the caller's [await] of it still suspends,
    and other requests run before the [catch] block does. *)
Definition rejectedPromise {A} (err : jsError) : M A :=
  fun e w => (Throws err, concurrent e w).

(** The store's methods, fed from the environment.  [createMessage] takes
    one random draw and reads the clock for the id, for the timestamp
    and, when the session exists, for its last activity. *)
Definition createOrUpdateSession (sessionId : jsstring) : M Session.t :=
  fun e w =>
    let r :=
      ChatModel.createOrUpdateSession (clock e (clockReads w)) sessionId ∅
        (chatModel w) in
    (Returns (fst r),
     mkWorld (snd r) (logged w) (S (clockReads w)) (randomDraws w)).

Definition nextReadings (e : env) (w : world) : ChatModel.readings :=
  ChatModel.mkReadings (clock e (clockReads w)) (random e (randomDraws w))
    (clock e (S (clockReads w))) (clock e (S (S (clockReads w)))).

Definition createMessage (sessionId : jsstring) (role : Message.role)
    (content : jsstring) (metadata : gmap string jsval) : M Message.t :=
  fun e w =>
    let r :=
      ChatModel.createMessage (nextReadings e w) sessionId role content
        metadata (chatModel w) in
    (Returns (fst r),
     mkWorld (snd r) (logged w)
       match ChatModel.sessions (chatModel w) !! sessionId with
       | Some _ => S (S (S (clockReads w)))
       | None => S (S (clockReads w))
       end
       (S (randomDraws w))).

Definition getSessionMessages (sessionId : jsstring) (limit : option Z)
    : M (list Message.t) :=
  fun _ w =>
    (Returns (ChatModel.getSessionMessages sessionId limit (chatModel w)), w).

(** *** The class *)

Record t := mk {
  defaultModel : jsval;
  maxTokens : jsval;
  temperature_ : jsval
}.

(** [constructor()], from the three environment variables. *)
Definition new (p : Sanitize.parsers)
    (OPENAI_MODEL OPENAI_MAX_TOKENS OPENAI_TEMPERATURE : jsval) : t :=
  mk (or_else OPENAI_MODEL (VStr (lit "gpt-4o-mini")))
     (or_else (VNum (Sanitize.parseInt p OPENAI_MAX_TOKENS))
        (VNum (num_of_Z 1000)))
     (or_else (VNum (Sanitize.parseFloat p OPENAI_TEMPERATURE))
        (VNum (Num (7 # 10)))).

Definition defaultSystemPrompt : jsstring :=
  lit "Eres un asistente " ++ [250%N]
    ++ lit "til y amigable. Responde de manera clara y concisa.".

Definition systemMessage (e : env) : chatMessage :=
  mkChatMessage Message.system
    match or_else (SYSTEM_PROMPT e) (VStr defaultSystemPrompt) with
    | VStr s => s
    | _ => defaultSystemPrompt
    end.

Definition prepareMessagesForOpenAI (e : env)
    (sessionMessages : list Message.t) : list chatMessage :=
  fold_left
    (fun messages msg =>
       messages ++ [mkChatMessage (Message.role_ msg) (Message.content msg)])
    sessionMessages [systemMessage e].

(** The object passed to [client.chat.completions.create]. *)
Definition completionRequestOf (svc : t) (messages : list chatMessage)
    (options : Options.t) : completionRequest :=
  let model := or_else (Options.model options) (defaultModel svc) in
  let temperature := or_else (Options.temperature options) (temperature_ svc) in
  let maxTokens := or_else (Options.maxTokens options) (maxTokens svc) in
  mkCompletionRequest model messages temperature maxTokens false.

Definition noClient : jsError := Error (lit "Cliente OpenAI no disponible").

Definition noContent : jsError :=
  Error (lit "No se recibi" ++ [243%N] ++ lit " respuesta de OpenAI").

Definition notAString : jsError :=
  Error (lit "content.trim is not a function").

Definition callOpenAI (svc : t) (messages : list chatMessage)
    (options : Options.t) : M jsstring :=
  let* e := ask in
  match client e with
  | ClientInitFails err => rejectedPromise err
  | ClientNull => rejectedPromise noClient
  | ClientReady =>
      let req := completionRequestOf svc messages options in
      let* _ := log info (lit "Llamando a OpenAI con modelo: ") [model req] in
      let* response := await req in
      match response with
      | Rejected err => throw err
      | Resolved content =>
          if negb (truthy content) then throw noContent
          else
            match content with
            | VStr s =>
                let* _ :=
                  log info (lit "Respuesta de OpenAI recibida exitosamente") [] in
                ret (trim s)
            | _ => throw notAString
            end
      end
  end.

Definition apology : jsstring :=
  lit "Lo siento, ocurri" ++ [243%N]
    ++ lit " un error al procesar tu mensaje. Por favor, int" ++ [233%N]
    ++ lit "ntalo de nuevo.".

Definition missingArguments : jsError :=
  Error (lit "sessionId y userMessage son requeridos").

(** The object [processMessage] resolves to; [error] is present on the
    failure path only. *)
Record result := mkResult {
  success : bool;
  r_message : jsstring;
  sessionId : jsstring;
  messageId : jsstring;
  timestamp : Z;
  r_error : option jsstring
}.

Definition errorMetadata (err : jsError) : gmap string jsval :=
  <["error" := VBool true]> (<["originalError" := VStr (message err)]> ∅).

(** The [catch] block of [processMessage]. *)
Definition recover (sessionId : jsstring) (err : jsError) : M result :=
  let* _ :=
    log error (lit "Error en ChatService.processMessage:")
      [VStr (message err)] in
  let* errorMsg :=
    createMessage sessionId Message.assistant apology (errorMetadata err) in
  ret (mkResult false apology sessionId (Message.id errorMsg)
         (Message.timestamp errorMsg) (Some (message err))).

Definition processMessage (svc : t) (sessionId userMessage : jsstring)
    (options : Options.t) : M result :=
  tryCatch
    (if negb (truthy (VStr sessionId)) || negb (truthy (VStr userMessage))
     then throw missingArguments
     else
       let* _ := createOrUpdateSession sessionId in
       let* userMsg := createMessage sessionId Message.user userMessage ∅ in
       let* _ :=
         log info (lit "Mensaje del usuario guardado: ") [VStr sessionId] in
       let* sessionMessages := getSessionMessages sessionId (Some 10) in
       let* e := ask in
       let messages := prepareMessagesForOpenAI e sessionMessages in
       let* botResponse := callOpenAI svc messages options in
       let* botMsg :=
         createMessage sessionId Message.assistant botResponse ∅ in
       let* _ :=
         log info (lit "Respuesta del bot guardada: ") [VStr sessionId] in
       ret (mkResult true botResponse sessionId (Message.id botMsg)
              (Message.timestamp botMsg) None))
    (recover sessionId).

(** The state in which [processMessage] calls upstream, and the array it
    sends from there. *)
Definition beforeCall (sessionId userMessage : jsstring) (e : env)
    (w : world) : world :=
  let w1 := snd (createOrUpdateSession sessionId e w) in
  let w2 := snd (createMessage sessionId Message.user userMessage ∅ e w1) in
  snd (log info (lit "Mensaje del usuario guardado: ") [VStr sessionId] e w2).

Definition sentFrom (sessionId : jsstring) (e : env) (w : world)
    : list chatMessage :=
  prepareMessagesForOpenAI e
    (ChatModel.getSessionMessages sessionId (Some 10) (chatModel w)).

(** The message the [catch] block stores when it runs in state [w]. *)
Definition errorMessageAt (sessionId : jsstring) (err : jsError) (e : env)
    (w : world) : Message.t :=
  ChatModel.created
    (nextReadings e
       (snd (log error (lit "Error en ChatService.processMessage:")
               [VStr (message err)] e w)))
    sessionId Message.assistant apology (errorMetadata err).

End ChatService.

(** ** Sample data used to exercise the statements below *)

Module Samples.

Definition s1 : jsstring := lit "s1".

Definition readingsAt (now : Z) (random : string) : ChatModel.readings :=
  ChatModel.mkReadings now (lit random) now now.

Definition draftAt (now : Z) (random text : string) : ChatModel.draft :=
  ChatModel.mkDraft (readingsAt now random) Message.user (lit text) ∅.

(** A store with session [s1] and nothing else. *)
Definition oneSession : ChatModel.t :=
  snd (ChatModel.createOrUpdateSession 1000 s1 ∅ ChatModel.new).

Definition threeDrafts : list ChatModel.draft :=
  [draftAt 1001 "a" "one"; draftAt 1002 "b" "two"; draftAt 1003 "c" "three"].

(** Session [s1] holding three messages. *)
Definition threeMessages : ChatModel.t :=
  ChatModel.appendAll s1 threeDrafts oneSession.

(** An environment whose upstream call fails with the text boom, and one
    whose upstream call answers. *)
Definition boom : ChatService.jsError := ChatService.Error (lit "boom").

Definition envWith (c : ChatService.completion) : ChatService.env :=
  ChatService.mkEnv (fun n => 1000 + Z.of_nat n) (fun _ => lit "x")
    ChatService.ClientReady (fun _ => c) (fun w => w) VUndef.

Definition failingEnv : ChatService.env := envWith (ChatService.Rejected boom).

(** An upstream that answers with the temperature it was asked to use. *)
Definition reportTemperature (req : ChatService.completionRequest)
    : ChatService.completion :=
  match ChatService.temperature req with
  | VNum (Num q) =>
      if Qeq_bool q 0 then ChatService.Resolved (VStr (lit "temperature 0"))
      else if Qeq_bool q (7 # 10)
           then ChatService.Resolved (VStr (lit "temperature 0.7"))
           else ChatService.Resolved (VStr (lit "another temperature"))
  | _ => ChatService.Resolved (VStr (lit "no temperature"))
  end.

Definition reportingEnv : ChatService.env :=
  ChatService.mkEnv (fun n => 1000 + Z.of_nat n) (fun _ => lit "x")
    ChatService.ClientReady reportTemperature (fun w => w) VUndef.

Definition emptyWorld : ChatService.world :=
  ChatService.mkWorld ChatModel.new [] 0 0.

Definition noParsing : Sanitize.parsers :=
  Sanitize.mkParsers (fun _ => NaN) (fun _ => NaN) (fun _ => []).

(** The service as constructed with no environment variable set. *)
Definition service : ChatService.t :=
  ChatService.new noParsing VUndef VUndef VUndef.

End Samples.

(** ** Values received in a request *)

Module Request.

(** A value of a parsed JSON body or query string.  Most convert to a
    string, as [jsval] has it.  An object with an own property [toString]
    that is not a function, such as the one the query string
    limit[toString]=1 is parsed to, does not, nor does an array that holds
    such an object: converting it throws a TypeError.  Such a value is
    truthy and its [typeof] is object. *)
Inductive value :=
| Printable (v : jsval)
| Unprintable.

(** The value as seen by code that tests it, takes its [typeof] or
    compares it, and never converts it to a string: an object. *)
Definition seen (x : value) : jsval :=
  match x with
  | Printable v => v
  | Unprintable => VObj []
  end.

(** The TypeError of a conversion that fails. *)
Definition conversionFault : ChatService.jsError :=
  ChatService.Error (lit "Cannot convert object to primitive value").

(** The [options] object of a request body: the three properties the code
    reads, [Printable VUndef] when a property is absent. *)
Record options := mkOptions {
  model : value;
  temperature : value;
  maxTokens : value
}.

Definition printable (o : Options.t) : options :=
  mkOptions (Printable (Options.model o)) (Printable (Options.temperature o))
    (Printable (Options.maxTokens o)).

End Request.

(** ** src/utils/sanitize.js: the validators *)

Module SessionIdValidation.

Record t := mk {
  isValid : bool;
  sanitizedSessionId : jsstring;
  errors : list jsstring
}.

End SessionIdValidation.

Module MessageValidation.

Record t := mk {
  isValid : bool;
  sanitizedMessage : jsstring;
  errors : list jsstring
}.

End MessageValidation.

Module Validation.
Import Sanitize.

(** One character of the class [[a-zA-Z0-9_-]]. *)
Definition isIdChar (c : N) : bool :=
  ((97 <=? c) && (c <=? 122) || (65 <=? c) && (c <=? 90)
   || (48 <=? c) && (c <=? 57) || (c =? 95) || (c =? 45))%N.

(** [/^[a-zA-Z0-9_-]+$/.test(s)]. *)
Definition sessionIdRegex (s : jsstring) : bool :=
  match s with
  | [] => false
  | _ => forallb isIdChar s
  end.

Definition sessionIdRequired : jsstring := lit "El sessionId es requerido".

Definition sessionIdNotString : jsstring :=
  lit "El sessionId debe ser una cadena de texto".

Definition sessionIdLength : jsstring :=
  lit "El sessionId debe tener entre 1 y 100 caracteres".

Definition sessionIdFormat : jsstring :=
  lit "El sessionId solo puede contener letras, n" ++ [250%N]
    ++ lit "meros, guiones y guiones bajos".

Definition validateSessionId (sessionId : jsval) : SessionIdValidation.t :=
  if negb (truthy sessionId) then
    SessionIdValidation.mk false [] [sessionIdRequired]
  else
    match sessionId with
    | VStr s =>
        if (length s <? 1)%nat || (100 <? length s)%nat then
          SessionIdValidation.mk false [] [sessionIdLength]
        else if negb (sessionIdRegex s) then
          SessionIdValidation.mk false [] [sessionIdFormat]
        else SessionIdValidation.mk true s []
    | _ => SessionIdValidation.mk false [] [sessionIdNotString]
    end.

Definition messageEmpty : jsstring :=
  lit "El mensaje no puede estar vac" ++ [237%N] ++ lit "o".

Definition messageNotString : jsstring :=
  lit "El mensaje debe ser una cadena de texto".

Definition messageOnlyInvalid : jsstring :=
  lit "El mensaje contiene solo caracteres no v" ++ [225%N] ++ lit "lidos".

(** [parseInt(process.env.MAX_MESSAGE_LENGTH) || 4000]. *)
Definition maxLength (p : parsers) (MAX_MESSAGE_LENGTH : jsval) : jsnum :=
  match or_else (VNum (parseInt p MAX_MESSAGE_LENGTH)) (VNum (num_of_Z 4000)) with
  | VNum n => n
  | _ => NaN
  end.

Definition messageTooLong (p : parsers) (limit : jsnum) : jsstring :=
  lit "El mensaje no puede exceder " ++ numToString p limit
    ++ lit " caracteres".

Definition validateMessage (p : parsers) (MAX_MESSAGE_LENGTH : jsval)
    (message : jsval) : MessageValidation.t :=
  if negb (truthy message) then MessageValidation.mk false [] [messageEmpty]
  else
    match message with
    | VStr s =>
        if (length (trim s) <? 1)%nat then
          MessageValidation.mk false [] [messageEmpty]
        else
          let limit := maxLength p MAX_MESSAGE_LENGTH in
          if num_lt limit (num_of_Z (Z.of_nat (length s))) then
            MessageValidation.mk false [] [messageTooLong p limit]
          else
            let sanitized := sanitizeString message in
            if (length sanitized =? 0)%nat then
              MessageValidation.mk false sanitized [messageOnlyInvalid]
            else MessageValidation.mk true sanitized []
    | _ => MessageValidation.mk false [] [messageNotString]
    end.

(** What one character becomes under the six replacements. *)
Definition escapeChar (c : N) : jsstring :=
  if (c =? amp)%N then lit "&amp;"
  else if (c =? lt_)%N then lit "&lt;"
  else if (c =? gt_)%N then lit "&gt;"
  else if (c =? quot)%N then lit "&quot;"
  else if (c =? apos)%N then lit "&#x27;"
  else if (c =? slash)%N then lit "&#x2F;"
  else [c].

(** Less-than, greater-than, double quote, apostrophe, slash: the
    characters that must not reach an HTML context unescaped. *)
Definition isMarkup (c : N) : bool :=
  ((c =? lt_) || (c =? gt_) || (c =? quot) || (c =? apos) || (c =? slash))%N.

(** [s.replace(/\s+/g, ' ')]: [inRun] tells that the previous character
    belonged to the run of white space being replaced. *)
Fixpoint collapseWhiteSpace (inRun : bool) (s : jsstring) : jsstring :=
  match s with
  | [] => []
  | c :: rest =>
      if isWhiteSpace c then
        if inRun then collapseWhiteSpace true rest
        else 32%N :: collapseWhiteSpace true rest
      else c :: collapseWhiteSpace false rest
  end.

(** [cleanForLogging(text)]; [toString] is [String(text)] for a value that
    is not a string. *)
Definition cleanForLogging (toString : jsval -> jsstring) (text : jsval)
    : jsstring :=
  match text with
  | VStr s => take 200 (trim (collapseWhiteSpace false (stripControl s)))
  | _ => toString text
  end.

(** [validateOptions(options)] on the values of a request; [options] is
    [None] when the request value is falsy or not an object.  The model
    is only tested and compared.  A [temperature] or [maxTokens] that
    cannot be converted to a string makes [parseFloat] or [parseInt] throw;
    on values that convert, the function is [Sanitize.validateOptions]. *)
Definition validateOptions (p : parsers) (options : option Request.options)
    : ChatService.outcome Options.t :=
  match options with
  | None => ChatService.Returns Options.empty
  | Some o =>
      let model := validModel (Request.seen (Request.model o)) in
      match Request.temperature o with
      | Request.Unprintable => ChatService.Throws Request.conversionFault
      | Request.Printable t =>
          let temperature := validTemperature p t in
          match Request.maxTokens o with
          | Request.Unprintable => ChatService.Throws Request.conversionFault
          | Request.Printable k =>
              ChatService.Returns
                (Options.mk model temperature (validMaxTokens p k))
          end
      end
  end.

End Validation.

(** ** src/utils/rateLimiter.js: [createSocketRateLimiter] *)

Module SocketRateLimiter.

(** The options object: each property absent or given. *)
Record options := mkOptions {
  windowMs : option Z;
  max : option Z;
  message : option jsstring
}.

Definition defaultMessage : jsstring := lit "Demasiada actividad en WebSocket".

(** [next()] or [next(new Error(message))]. *)
Inductive decision :=
| Next
| NextError (message : jsstring).

(** One call of the middleware returned by [createSocketRateLimiter(options)],
    at clock reading [now], for the socket identified by [clientId], on the
    closure's map [events]. *)
Definition createSocketRateLimiter (o : options) (now : Z)
    (clientId : jsstring) (events : gmap jsstring RateLimiter.entry)
    : decision * gmap jsstring RateLimiter.entry :=
  let windowMs := default 60000 (windowMs o) in
  let max := default 20 (max o) in
  let message := default defaultMessage (message o) in
  match events !! clientId with
  | None =>
      (Next, <[clientId := RateLimiter.mkEntry 1 (now + windowMs)]> events)
  | Some eventData =>
      if RateLimiter.resetTime eventData <? now then
        (Next, <[clientId := RateLimiter.mkEntry 1 (now + windowMs)]> events)
      else if max <=? RateLimiter.count eventData then
        (NextError message, events)
      else
        (Next,
         <[clientId := RateLimiter.mkEntry (RateLimiter.count eventData + 1)
                         (RateLimiter.resetTime eventData)]> events)
  end.

(** The decisions for a run of connections of one socket, at the given
    clock readings. *)
Fixpoint serve (o : options) (clientId : jsstring) (times : list Z)
    (events : gmap jsstring RateLimiter.entry) : list decision :=
  match times with
  | [] => []
  | now :: rest =>
      let r := createSocketRateLimiter o now clientId events in
      fst r :: serve o clientId rest (snd r)
  end.

End SocketRateLimiter.

(** ** src/config/openaiClient.js *)

Module OpenAIClient.

(** The object [new OpenAI({apiKey, timeout})] gives. *)
Record sdkClient := mkClient {
  apiKey : jsstring;
  timeout : Z
}.

(** The fields of the class. *)
Record t := mk {
  client : option sdkClient;
  initialized : bool;
  initializationError : option ChatService.jsError
}.

(** [constructor()]. *)
Definition new : t := mk None false None.

(** What a call reads from outside: the environment variable, absent or a
    string, and the fault the SDK constructor raises on a configuration, if
    any.  The logger calls are left out. *)
Record env := mkEnv {
  OPENAI_API_KEY : option jsstring;
  sdkFault : sdkClient -> option ChatService.jsError
}.

Definition missingKey : ChatService.jsError :=
  ChatService.Error
    (lit "OPENAI_API_KEY no est" ++ [225%N]
       ++ lit " definida en las variables de entorno").

Definition hasError (st : t) : bool :=
  match initializationError st with Some _ => true | None => false end.

Definition hasClient (st : t) : bool :=
  match client st with Some _ => true | None => false end.

Definition initializeClient (e : env) (st : t)
    : ChatService.outcome (option sdkClient) * t :=
  if initialized st && negb (hasError st) then
    (ChatService.Returns (client st), st)
  else
    match OPENAI_API_KEY e with
    | Some (c :: k) =>
        let built := mkClient (c :: k) 30000 in
        match sdkFault e built with
        | None =>
            (ChatService.Returns (Some built), mk (Some built) true None)
        | Some error =>
            (ChatService.Throws error,
             mk (client st) (initialized st) (Some error))
        end
    | _ =>
        (ChatService.Throws missingKey,
         mk (client st) (initialized st) (Some missingKey))
    end.

Definition getClient (e : env) (st : t)
    : ChatService.outcome (option sdkClient) * t :=
  if negb (initialized st) || hasError st then
    match initializeClient e st with
    | (ChatService.Returns _, st') => (ChatService.Returns (client st'), st')
    | (ChatService.Throws error, st') => (ChatService.Throws error, st')
    end
  else (ChatService.Returns (client st), st).

Definition isAvailable (e : env) (st : t) : bool * t :=
  if negb (initialized st) then
    match initializeClient e st with
    | (ChatService.Returns _, st') =>
        (hasClient st' && negb (hasError st'), st')
    | (ChatService.Throws _, st') => (false, st')
    end
  else (hasClient st && negb (hasError st), st).

(** [getStatus()]. *)
Record status := mkStatus {
  s_initialized : bool;
  s_hasClient : bool;
  s_hasError : bool;
  s_error : option jsstring
}.

Definition getStatus (st : t) : status :=
  mkStatus (initialized st) (hasClient st) (hasError st)
    (match initializationError st with
     | Some error =>
         match ChatService.message error with
         | [] => None
         | text => Some text
         end
     | None => None
     end).

(** The states the singleton can be in: reached from [new] by its
    methods, in any environment. *)
Inductive reachable : t -> Prop :=
| reach_new : reachable new
| reach_initializeClient e st :
    reachable st -> reachable (snd (initializeClient e st))
| reach_getClient e st : reachable st -> reachable (snd (getClient e st))
| reach_isAvailable e st : reachable st -> reachable (snd (isAvailable e st)).

(** The two shapes of a state: nothing built yet, or built and clean. *)
Definition settled (st : t) : Prop :=
  (initialized st = false /\ client st = None)
  \/ (initialized st = true /\ hasClient st = true
      /\ initializationError st = None).

(** What [callOpenAI] sees of a call of [getClient]. *)
Definition clientStateOf (r : ChatService.outcome (option sdkClient))
    : ChatService.clientState :=
  match r with
  | ChatService.Returns (Some _) => ChatService.ClientReady
  | ChatService.Returns None => ChatService.ClientNull
  | ChatService.Throws error => ChatService.ClientInitFails error
  end.

End OpenAIClient.

(** ** src/services/chatService.js: history, clearing, statistics *)

Module ChatServiceQueries.
Import ChatService.

(** An entry of the history handed out: identifier, role, content and
    timestamp of a stored message. *)
Record historyItem := mkItem {
  id : jsstring;
  role : Message.role;
  content : jsstring;
  timestamp : Z
}.

(** The object [getSessionHistory] returns; a property the branch does not
    set is [None]. *)
Record history := mkHistory {
  success : bool;
  message : option jsstring;
  sessionId : option jsstring;
  messages : list historyItem;
  totalMessages : option nat
}.

Definition notFound : jsstring :=
  lit "Sesi" ++ [243%N] ++ lit "n no encontrada".

Definition itemOf (msg : Message.t) : historyItem :=
  mkItem (Message.id msg) (Message.role_ msg) (Message.content msg)
    (Message.timestamp msg).

(** [getSessionHistory(sessionId, limit = 50)]: [limitArg] is [None] when the
    caller leaves the argument out, and else the value passed, [null] or an
    integer.  The store's methods do not throw, so the [catch] block is not
    entered. *)
Definition getSessionHistory (sessionId : jsstring)
    (limitArg : option (option Z)) (st : ChatModel.t) : history :=
  let limit := default (Some 50) limitArg in
  match ChatModel.getSession sessionId st with
  | None => mkHistory false (Some notFound) None [] None
  | Some _ =>
      let messages := ChatModel.getSessionMessages sessionId limit st in
      mkHistory true None (Some sessionId) (List.map itemOf messages)
        (Some (length messages))
  end.

Record cleared := mkCleared {
  c_success : bool;
  c_message : jsstring
}.

Definition clearedText : jsstring :=
  lit "Sesi" ++ [243%N] ++ lit "n limpiada correctamente".

(** [clearSession(sessionId)]. *)
Definition clearSession (sessionId : jsstring) : M cleared :=
  fun e w =>
    let r := ChatModel.deleteSession sessionId (chatModel w) in
    let w' := mkWorld (snd r) (logged w) (clockReads w) (randomDraws w) in
    if fst r then
      match log info (lit "Sesi" ++ [243%N] ++ lit "n limpiada: ")
              [VStr sessionId] e w' with
      | (_, w'') => (Returns (mkCleared true clearedText), w'')
      end
    else (Returns (mkCleared false notFound), w').

(** [getStats()] without the process memory figures. *)
Record stats := mkStats {
  totalSessions : nat;
  totalMessages_ : nat;
  openaiAvailable : bool;
  st_defaultModel : jsval;
  st_maxTokens : jsval;
  st_temperature : jsval
}.

Definition getStats (svc : t) (available : bool) (st : ChatModel.t) : stats :=
  mkStats (fst (ChatModel.getStats st)) (snd (ChatModel.getStats st)) available
    (defaultModel svc) (maxTokens svc) (temperature_ svc).

End ChatServiceQueries.

(** ** src/controllers/chatController.js: [processMessage] *)

Module ChatController.

(** The body of [POST /chat], an object: its [sessionId] and [message]
    ([Printable VUndef] when absent), and its [options], [None] when
    absent, falsy or not an object. *)
Record chatBody := mkBody {
  sessionId : Request.value;
  message : Request.value;
  options : option Request.options
}.

(** What the handler answers: status 400 with an error and its details,
    status 200 with the service's result, or status 500. *)
Inductive response :=
| BadRequest (error : jsstring) (details : list jsstring)
| Ok (result : ChatService.result)
| InternalError (error message : jsstring).

Inductive level := info | warn | error.

(** A logger call of the controller: level, text, and the values
    interpolated or passed after it. *)
Record logLine := mkLine {
  lineLevel : level;
  lineText : jsstring;
  lineArgs : list jsval
}.

(** The state the handler works on: that of the service, and the
    controller's own log lines. *)
Record world := mkWorld {
  service : ChatService.world;
  logged : list logLine
}.

Definition log (l : level) (text : jsstring) (args : list jsval) (w : world)
    : world :=
  mkWorld (service w) (logged w ++ [mkLine l text args]).

(** [errors.join(', ')]. *)
Fixpoint join (errors : list jsstring) : jsstring :=
  match errors with
  | [] => []
  | [x] => x
  | x :: rest => x ++ lit ", " ++ join rest
  end.

Definition invalidSessionId : jsstring :=
  lit "SessionId inv" ++ [225%N] ++ lit "lido".

Definition invalidMessage : jsstring :=
  lit "Mensaje inv" ++ [225%N] ++ lit "lido".

Definition serverError : jsstring := lit "Error interno del servidor".

Definition processingFailed : jsstring :=
  lit "Ocurri" ++ [243%N] ++ lit " un error al procesar tu mensaje".

(** The [catch] block of [processMessage]. *)
Definition processMessageFailed (err : ChatService.jsError) (w : world)
    : response * world :=
  (InternalError serverError processingFailed,
   log error (lit "Error en ChatController.processMessage:")
     [VStr (ChatService.message err)] w).

(** The handler of [POST /chat].  The template literal of its first log
    line converts [sessionId] to a string before anything is validated,
    and [validateOptions] converts two of the options: a value that cannot
    be converted throws, and the [catch] block answers.  [meanwhile] is
    what other requests do to the state of the service between the moment
    the service settles and the moment the handler, which awaits it, goes
    on. *)
Definition processMessage (p : Sanitize.parsers) (MAX_MESSAGE_LENGTH : jsval)
    (svc : ChatService.t) (meanwhile : ChatService.world -> ChatService.world)
    (body : chatBody) (e : ChatService.env) (w : world)
    : response * world :=
  match sessionId body with
  | Request.Unprintable => processMessageFailed Request.conversionFault w
  | Request.Printable sessionId =>
      let w1 :=
        log info (lit "Procesando mensaje para sesi" ++ [243%N] ++ lit "n: ")
          [sessionId] w in
      let sessionValidation := Validation.validateSessionId sessionId in
      if negb (SessionIdValidation.isValid sessionValidation) then
        (BadRequest invalidSessionId
           (SessionIdValidation.errors sessionValidation),
         log warn (invalidSessionId ++ lit ": ")
           [VStr (join (SessionIdValidation.errors sessionValidation))] w1)
      else
        let messageValidation :=
          Validation.validateMessage p MAX_MESSAGE_LENGTH
            (Request.seen (message body)) in
        if negb (MessageValidation.isValid messageValidation) then
          (BadRequest invalidMessage
             (MessageValidation.errors messageValidation),
           log warn (invalidMessage ++ lit ": ")
             [VStr (join (MessageValidation.errors messageValidation))] w1)
        else
          match Validation.validateOptions p (options body) with
          | ChatService.Throws err => processMessageFailed err w1
          | ChatService.Returns validatedOptions =>
              match
                ChatService.processMessage svc
                  (SessionIdValidation.sanitizedSessionId sessionValidation)
                  (MessageValidation.sanitizedMessage messageValidation)
                  validatedOptions e (service w1)
              with
              | (ChatService.Returns result, sw) =>
                  (Ok result,
                   log info
                     (lit "Respuesta generada para sesi" ++ [243%N]
                        ++ lit "n: ")
                     [sessionId] (mkWorld (meanwhile sw) (logged w1)))
              | (ChatService.Throws err, sw) =>
                  processMessageFailed err
                    (mkWorld (meanwhile sw) (logged w1))
              end
          end
  end.

(** *** [getSessionHistory] *)

(** What the history handler answers: status 400 for a bad identifier,
    status 400 for a bad limit, status 200 with the service's history, or
    status 500. *)
Inductive historyResponse :=
| HistoryBadRequest (error : jsstring) (details : list jsstring)
| HistoryBadLimit (error message : jsstring)
| HistoryOk (history : ChatServiceQueries.history)
| HistoryInternalError (error message : jsstring).

Definition invalidLimit : jsstring :=
  lit "L" ++ [237%N] ++ lit "mite inv" ++ [225%N] ++ lit "lido".

Definition limitRange : jsstring :=
  lit "El l" ++ [237%N] ++ lit "mite debe ser un n" ++ [250%N]
    ++ lit "mero entre 1 y 100".

Definition historyFailed : jsstring :=
  lit "Ocurri" ++ [243%N] ++ lit " un error al obtener el historial".

(** The integer [slice] makes of a number: its value cut towards zero. *)
Definition toInteger (n : jsnum) : option Z :=
  match n with
  | Num q => Some (Z.quot (Qnum q) (Z.pos (Qden q)))
  | _ => None
  end.

(** The handler of [GET /chat/history/:sessionId]; [sessionId] is the
    route parameter and [limit] the query parameter, [Printable VUndef]
    when absent.  [parseInt(limit)] throws for a limit that cannot be
    converted to a string, and the [catch] block answers. *)
Definition getSessionHistory (p : Sanitize.parsers) (sessionId : jsval)
    (limit : Request.value) (w : world) : historyResponse * world :=
  let sessionValidation := Validation.validateSessionId sessionId in
  if negb (SessionIdValidation.isValid sessionValidation) then
    (HistoryBadRequest invalidSessionId
       (SessionIdValidation.errors sessionValidation),
     log warn (invalidSessionId ++ lit " para historial: ")
       [VStr (join (SessionIdValidation.errors sessionValidation))] w)
  else
    match limit with
    | Request.Unprintable =>
        (HistoryInternalError serverError historyFailed,
         log error (lit "Error en ChatController.getSessionHistory:")
           [VStr (ChatService.message Request.conversionFault)] w)
    | Request.Printable limit =>
        let limit := if is_undefined limit then VNum (num_of_Z 50) else limit in
        let limitNum := Sanitize.parseInt p limit in
        if isNaN limitNum || num_lt limitNum (num_of_Z 1)
           || num_lt (num_of_Z 100) limitNum
        then (HistoryBadLimit invalidLimit limitRange, w)
        else
          let history :=
            ChatServiceQueries.getSessionHistory
              (SessionIdValidation.sanitizedSessionId sessionValidation)
              (Some (toInteger limitNum))
              (ChatService.chatModel (service w)) in
          (HistoryOk history,
           log info
             (lit "Historial obtenido para sesi" ++ [243%N] ++ lit "n: ")
             [sessionId;
              VNum (num_of_Z
                      (Z.of_nat
                         (length (ChatServiceQueries.messages history))))]
             w)
    end.

End ChatController.

(** ** Parsers for the examples *)

Module DecimalParsers.

Definition digit (c : N) : option N :=
  if ((48 <=? c) && (c <=? 57))%N then Some (c - 48)%N else None.

(** The number written by the longest prefix of decimal digits of [s],
    after the digits already read; [None] when no digit has been read. *)
Fixpoint readDigits (read : option N) (s : jsstring) : option N :=
  match s with
  | [] => read
  | c :: rest =>
      match digit c with
      | Some d => readDigits (Some (10 * default 0%N read + d)%N) rest
      | None => read
      end
  end.

(** [parseInt] on a string: white space, an optional sign, then decimal
    digits; what follows them is ignored. *)
Definition parseDecimal (s : jsstring) : jsnum :=
  let s := trimStart s in
  let (negative, digits) :=
    match s with
    | 45%N :: rest => (true, rest)
    | 43%N :: rest => (false, rest)
    | _ => (false, s)
    end in
  match readDigits None digits with
  | None => NaN
  | Some n => num_of_Z (if negative then - Z.of_N n else Z.of_N n)
  end.

Fixpoint digitsOf (fuel : nat) (n : N) (acc : jsstring) : jsstring :=
  match fuel with
  | O => acc
  | S fuel' =>
      let acc' := (48 + n mod 10)%N :: acc in
      if (n / 10 =? 0)%N then acc' else digitsOf fuel' (n / 10)%N acc'
  end.

(** [String(n)] for an integer [n]. *)
Definition decimalOf (n : jsnum) : jsstring :=
  match n with
  | NaN => lit "NaN"
  | PInf => lit "Infinity"
  | NInf => lit "-Infinity"
  | Num q =>
      let z := Z.quot (Qnum q) (Z.pos (Qden q)) in
      let digits := digitsOf (S (N.to_nat (N.log2 (Z.abs_N z)))) (Z.abs_N z) [] in
      if (z <? 0)%Z then 45%N :: digits else digits
  end.

(** Parsers that agree with those of the language on integers written in
    decimal digits. *)
Definition parsers : Sanitize.parsers :=
  Sanitize.mkParsers parseDecimal parseDecimal decimalOf.

End DecimalParsers.
(** * Properties *)

(** ** The sanitizer *)

Module SanitizeFacts.
Import Sanitize.

Lemma replaceAll_absent c r s :
  forallb (fun x => negb (x =? c)%N) s = true -> replaceAll c r s = s.
Proof.
  unfold replaceAll. induction s as [|x s IH]; simpl; [reflexivity|].
  intros H. apply andb_prop in H as [Hx Hs].
  apply negb_true_iff in Hx. rewrite Hx. simpl. f_equal. auto.
Qed.

Lemma noHtmlSpecial_each s (c : N) :
  isHtmlSpecial c = true -> noHtmlSpecial s = true ->
  forallb (fun x => negb (x =? c)%N) s = true.
Proof.
  intros Hc. unfold noHtmlSpecial. rewrite !forallb_forall.
  intros H x Hx. specialize (H x Hx).
  destruct (N.eqb_spec x c) as [->|]; [|reflexivity].
  rewrite Hc in H. discriminate.
Qed.

Lemma escapeHtml_plain s : noHtmlSpecial s = true -> escapeHtml s = s.
Proof.
  intros H. unfold escapeHtml.
  rewrite (replaceAll_absent amp) by (apply noHtmlSpecial_each; auto).
  rewrite (replaceAll_absent lt_) by (apply noHtmlSpecial_each; auto).
  rewrite (replaceAll_absent gt_) by (apply noHtmlSpecial_each; auto).
  rewrite (replaceAll_absent quot) by (apply noHtmlSpecial_each; auto).
  rewrite (replaceAll_absent apos) by (apply noHtmlSpecial_each; auto).
  rewrite (replaceAll_absent slash) by (apply noHtmlSpecial_each; auto).
  reflexivity.
Qed.

(** *** [trim] *)

Lemma trimStart_forallb (P : N -> bool) s :
  forallb P s = true -> forallb P (trimStart s) = true.
Proof.
  induction s as [|c s IH]; simpl; [auto|].
  intros H. destruct (isWhiteSpace c); [|exact H].
  apply andb_prop in H as [_ Hs]. auto.
Qed.

Lemma trimStart_clean s : startsClean (trimStart s) = true.
Proof.
  induction s as [|c s IH]; simpl; [reflexivity|].
  destruct (isWhiteSpace c) eqn:Hc; [exact IH|]. simpl. now rewrite Hc.
Qed.

Lemma trimStart_id s : startsClean s = true -> trimStart s = s.
Proof.
  destruct s as [|c s]; simpl; [reflexivity|].
  intros H. apply negb_true_iff in H. now rewrite H.
Qed.

(** What [trimStart] keeps is a suffix of its argument. *)
Lemma trimStart_suffix s : exists w, s = w ++ trimStart s.
Proof.
  induction s as [|c s [w IH]]; simpl; [now exists []|].
  destruct (isWhiteSpace c); [|now exists []].
  exists (c :: w). simpl. now f_equal.
Qed.

Lemma forallb_rev (P : N -> bool) s :
  forallb P (rev s) = true <-> forallb P s = true.
Proof.
  rewrite !forallb_forall. split; intros H x Hx; apply H.
  - now apply in_rev in Hx.
  - now apply in_rev.
Qed.

Lemma trimEnd_forallb (P : N -> bool) s :
  forallb P s = true -> forallb P (trimEnd s) = true.
Proof.
  intros H. unfold trimEnd. apply forallb_rev, trimStart_forallb.
  now apply forallb_rev.
Qed.

Lemma trimEnd_clean s : endsClean (trimEnd s) = true.
Proof.
  unfold endsClean, trimEnd. rewrite rev_involutive. apply trimStart_clean.
Qed.

Lemma trimEnd_id s : endsClean s = true -> trimEnd s = s.
Proof.
  unfold endsClean, trimEnd. intros H. rewrite trimStart_id by exact H.
  apply rev_involutive.
Qed.

(** [trimEnd] keeps a prefix, hence the first code unit. *)
Lemma trimEnd_startsClean s :
  startsClean s = true -> startsClean (trimEnd s) = true.
Proof.
  intros H. unfold trimEnd.
  destruct (trimStart_suffix (rev s)) as [w Hw].
  assert (Hs : s = rev (trimStart (rev s)) ++ rev w).
  { rewrite <- rev_app_distr, <- Hw. symmetry. apply rev_involutive. }
  destruct (rev (trimStart (rev s))) as [|c k]; [reflexivity|].
  rewrite Hs in H. exact H.
Qed.

Lemma trim_forallb (P : N -> bool) s :
  forallb P s = true -> forallb P (trim s) = true.
Proof. intros H. now apply trimEnd_forallb, trimStart_forallb. Qed.

Lemma trim_clean s :
  startsClean (trim s) = true /\ endsClean (trim s) = true.
Proof.
  split; [apply trimEnd_startsClean, trimStart_clean | apply trimEnd_clean].
Qed.

Lemma trim_id s :
  startsClean s = true -> endsClean s = true -> trim s = s.
Proof.
  intros Hs He. unfold trim. rewrite trimStart_id by exact Hs.
  now apply trimEnd_id.
Qed.

(** *** [stripControl] *)

Lemma stripControl_forallb (P : N -> bool) s :
  forallb P s = true -> forallb P (stripControl s) = true.
Proof.
  unfold stripControl. rewrite !forallb_forall. intros H x Hx.
  apply List.filter_In in Hx as [Hx _]. auto.
Qed.

Lemma stripControl_rev s : stripControl (rev s) = rev (stripControl s).
Proof.
  unfold stripControl. induction s as [|c s IH]; simpl; [reflexivity|].
  rewrite List.filter_app, IH. simpl.
  destruct (negb (isControl c)); simpl; [reflexivity|].
  now rewrite app_nil_r.
Qed.

Lemma stripControl_idem s : stripControl (stripControl s) = stripControl s.
Proof.
  unfold stripControl. induction s as [|c s IH]; simpl; [reflexivity|].
  destruct (negb (isControl c)) eqn:Hc; simpl; [|exact IH].
  rewrite Hc. now f_equal.
Qed.

(** When the only control characters are white space, removing them
    leaves a clean first code unit in place. *)
Lemma stripControl_startsClean s :
  controlsAreWhiteSpace s = true -> startsClean s = true ->
  startsClean (stripControl s) = true.
Proof.
  destruct s as [|c s]; simpl; [reflexivity|].
  intros H Hc. apply andb_prop in H as [Himp _].
  apply negb_true_iff in Hc. rewrite Hc in Himp.
  destruct (isControl c); [discriminate|]. simpl. now rewrite Hc.
Qed.

(** On text without the six HTML characters the sanitizer trims and
    strips, nothing else. *)
Lemma sanitizeString_plain x :
  noHtmlSpecial x = true ->
  sanitizeString (VStr x) = stripControl (trim x).
Proof.
  intros H. simpl. apply escapeHtml_plain.
  now apply stripControl_forallb, trim_forallb.
Qed.

(** C8 as stated fails: a control character in front of a blank survives
    the trimming, is stripped, and uncovers the blank for the second
    pass.  The input is U+0000, space, a. *)
Lemma sanitize_not_idempotent :
  noHtmlSpecial [0; 32; 97]%N = true /\
  sanitizeString (VStr [0; 32; 97]%N) = [32; 97]%N /\
  sanitizeString (VStr (sanitizeString (VStr [0; 32; 97]%N))) = [97]%N /\
  sanitizeString (VStr (sanitizeString (VStr [0; 32; 97]%N)))
    <> sanitizeString (VStr [0; 32; 97]%N).
Proof. repeat split; try reflexivity. discriminate. Qed.

(** C8, amended: for every string [x] that contains none of the six HTML
    characters and whose control characters are all white space (TAB, LF,
    VT, FF, CR), sanitizing twice gives the same as sanitizing once. *)
Theorem sanitizeString_idempotent x :
  noHtmlSpecial x = true ->
  controlsAreWhiteSpace x = true ->
  sanitizeString (VStr (sanitizeString (VStr x))) = sanitizeString (VStr x).
Proof.
  intros Hs Hc.
  rewrite (sanitizeString_plain x Hs).
  set (t := trim x).
  assert (Hts : noHtmlSpecial t = true) by now apply trim_forallb.
  assert (Htc : controlsAreWhiteSpace t = true) by now apply trim_forallb.
  destruct (trim_clean x) as [Hstart Hend]. fold t in Hstart, Hend.
  rewrite sanitizeString_plain by now apply stripControl_forallb.
  rewrite trim_id.
  - apply stripControl_idem.
  - now apply stripControl_startsClean.
  - unfold endsClean. rewrite <- stripControl_rev.
    apply stripControl_startsClean; [|exact Hend].
    now apply forallb_rev.
Qed.

Lemma sanitizeString_idempotent_witness :
  sanitizeString (VStr (sanitizeString (VStr [32; 104; 9; 105; 10]%N)))
    = sanitizeString (VStr [32; 104; 9; 105; 10]%N).
Proof. apply sanitizeString_idempotent; reflexivity. Defined.

End SanitizeFacts.

(** ** The session store *)

Module ChatModelFacts.
Import ChatModel.

Lemma slice_from_last {A} (n : nat) (l : list A) :
  (0 < n)%nat -> slice_from (- Z.of_nat n) l = drop (length l - n) l.
Proof.
  intros Hn. unfold slice_from.
  destruct (Z.ltb_spec (- Z.of_nat n) 0) as [_|H]; [|lia].
  f_equal. lia.
Qed.

Lemma getSessionMessages_limit st sessionId session (n : nat) :
  sessions st !! sessionId = Some session ->
  (0 < n)%nat ->
  getSessionMessages sessionId (Some (Z.of_nat n)) st
  = drop (length (Session.messages session) - n) (Session.messages session).
Proof.
  intros Hs Hn. unfold getSessionMessages. rewrite Hs.
  destruct (Z.eqb_spec (Z.of_nat n) 0) as [H|_]; [lia|].
  now apply slice_from_last.
Qed.

Lemma getSessionMessages_unknown st sessionId limit :
  sessions st !! sessionId = None ->
  getSessionMessages sessionId limit st = [].
Proof. intros H. unfold getSessionMessages. now rewrite H. Qed.

(** *** [createMessage] *)

Lemma createMessage_fst r sessionId role content metadata st :
  fst (createMessage r sessionId role content metadata st)
  = created r sessionId role content metadata.
Proof. reflexivity. Qed.

Lemma createMessage_messages r sessionId role content metadata st :
  messages (snd (createMessage r sessionId role content metadata st))
  = <[generateId (idNow r) (idRandom r)
      := created r sessionId role content metadata]> (messages st).
Proof.
  unfold createMessage, addMessageToSession. simpl.
  now destruct (sessions st !! sessionId).
Qed.

Lemma createMessage_sessions_known r sessionId role content metadata st s :
  sessions st !! sessionId = Some s ->
  sessions (snd (createMessage r sessionId role content metadata st))
  = <[sessionId :=
        Session.mk (Session.sessionId s) (Session.createdAt s) (activity r)
          (Session.messages s ++ [created r sessionId role content metadata])
          (Session.context s)]> (sessions st).
Proof.
  intros H. unfold createMessage, addMessageToSession. simpl. now rewrite H.
Qed.

Lemma createMessage_sessions_unknown r sessionId role content metadata st :
  sessions st !! sessionId = None ->
  sessions (snd (createMessage r sessionId role content metadata st))
  = sessions st.
Proof.
  intros H. unfold createMessage, addMessageToSession. simpl. now rewrite H.
Qed.

Lemma createMessage_other r sessionId role content metadata st other :
  other <> sessionId ->
  sessions (snd (createMessage r sessionId role content metadata st)) !! other
  = sessions st !! other.
Proof.
  intros Hne. destruct (sessions st !! sessionId) as [s|] eqn:Hs.
  - rewrite (createMessage_sessions_known _ _ _ _ _ _ s Hs).
    now rewrite lookup_insert_ne.
  - now rewrite createMessage_sessions_unknown.
Qed.

(** Appending a batch extends the sequence by the batch, in order. *)
Lemma appendAll_messages sessionId ds : forall st s,
  sessions st !! sessionId = Some s ->
  exists s',
    sessions (appendAll sessionId ds st) !! sessionId = Some s'
    /\ Session.messages s'
       = Session.messages s ++ List.map (draftMessage sessionId) ds.
Proof.
  unfold appendAll.
  induction ds as [|d ds IH]; intros st s Hs; simpl.
  - exists s. now rewrite app_nil_r.
  - pose proof (createMessage_sessions_known (d_readings d) sessionId
                  (d_role d) (d_content d) (d_metadata d) st s Hs) as Hst.
    edestruct IH as [s' [Hs' Hm]].
    { rewrite Hst. apply lookup_insert_eq. }
    exists s'. split; [exact Hs'|].
    rewrite Hm. simpl. now rewrite <- app_assoc.
Qed.

(** C6: after [k] messages are appended to a session, a positive limit
    [n < k] gives exactly the last [n] of them, oldest first; a session
    identifier the store does not know gives the empty sequence. *)
Theorem getSessionMessages_last_n st sessionId :
  (forall s ds (n : nat),
      sessions st !! sessionId = Some s ->
      (0 < n < length ds)%nat ->
      getSessionMessages sessionId (Some (Z.of_nat n))
        (appendAll sessionId ds st)
      = drop (length ds - n) (List.map (draftMessage sessionId) ds))
  /\ (forall limit,
        sessions st !! sessionId = None ->
        getSessionMessages sessionId limit st = []).
Proof.
  split.
  - intros s ds n Hs Hn.
    destruct (appendAll_messages sessionId ds st s Hs) as [s' [Hs' Hm]].
    rewrite (getSessionMessages_limit _ _ s' n Hs') by lia.
    rewrite Hm, length_app, length_map.
    rewrite drop_app_ge by lia. f_equal. lia.
  - intros limit. apply getSessionMessages_unknown.
Qed.

Lemma getSessionMessages_last_n_witness :
  getSessionMessages Samples.s1 (Some 2) Samples.threeMessages
  = List.map (draftMessage Samples.s1)
      [Samples.draftAt 1002 "b" "two"; Samples.draftAt 1003 "c" "three"]
  /\ getSessionMessages (lit "nobody") (Some 2) Samples.threeMessages = [].
Proof.
  split.
  - apply (proj1 (getSessionMessages_last_n Samples.oneSession Samples.s1)
             (Session.mk Samples.s1 1000 1000 [] ∅) Samples.threeDrafts 2%nat).
    + vm_compute. reflexivity.
    + simpl. lia.
  - apply (proj2 (getSessionMessages_last_n Samples.threeMessages
                    (lit "nobody"))).
    vm_compute. reflexivity.
Defined.

(** C10: for an existing session a limit of 0, like no limit at all,
    gives the whole message sequence. *)
Theorem getSessionMessages_limit_zero st sessionId s :
  sessions st !! sessionId = Some s ->
  getSessionMessages sessionId (Some 0) st = Session.messages s
  /\ getSessionMessages sessionId None st = Session.messages s.
Proof. intros H. unfold getSessionMessages. rewrite H. now split. Qed.

Lemma getSessionMessages_limit_zero_witness :
  getSessionMessages Samples.s1 (Some 0) Samples.threeMessages
  = List.map (draftMessage Samples.s1) Samples.threeDrafts
  /\ getSessionMessages Samples.s1 None Samples.threeMessages
     = List.map (draftMessage Samples.s1) Samples.threeDrafts.
Proof.
  apply (getSessionMessages_limit_zero Samples.threeMessages Samples.s1
           (Session.mk Samples.s1 1000 1003
              (List.map (draftMessage Samples.s1) Samples.threeDrafts) ∅)).
  vm_compute. reflexivity.
Defined.

(** *** [createOrUpdateSession] *)

Lemma createOrUpdateSession_stored now sessionId context st :
  sessions (snd (createOrUpdateSession now sessionId context st)) !! sessionId
  = Some (fst (createOrUpdateSession now sessionId context st)).
Proof.
  unfold createOrUpdateSession.
  destruct (sessions st !! sessionId); simpl; apply lookup_insert_eq.
Qed.

Lemma createOrUpdateSession_existing now sessionId context st s :
  sessions st !! sessionId = Some s ->
  fst (createOrUpdateSession now sessionId context st)
  = Session.mk (Session.sessionId s) (Session.createdAt s) now
      (Session.messages s) (Session.context s).
Proof. intros H. unfold createOrUpdateSession. now rewrite H. Qed.

Lemma createOrUpdateSession_lastActivity now sessionId context st :
  Session.lastActivity (fst (createOrUpdateSession now sessionId context st))
  = now.
Proof.
  unfold createOrUpdateSession. now destruct (sessions st !! sessionId).
Qed.

Lemma createOrUpdateSession_messages now sessionId context st :
  messages (snd (createOrUpdateSession now sessionId context st))
  = messages st.
Proof.
  unfold createOrUpdateSession. now destruct (sessions st !! sessionId).
Qed.

Lemma createOrUpdateSession_other now sessionId context st other :
  other <> sessionId ->
  sessions (snd (createOrUpdateSession now sessionId context st)) !! other
  = sessions st !! other.
Proof.
  intros Hne. unfold createOrUpdateSession.
  destruct (sessions st !! sessionId); simpl; now rewrite lookup_insert_ne.
Qed.

(** C7: a second [createOrUpdateSession] with the same identifier returns
    the session the first one left in the store, with the same messages
    (those the session had before the two calls, if it existed), creation
    time and context, whatever context the second call passes;
    when the clock does not run backwards between the two calls,
    [lastActivity] does not decrease.  Both calls return a session. *)
Theorem createOrUpdateSession_twice st sessionId c1 c2 (t1 t2 : Z) :
  t1 <= t2 ->
  let first := createOrUpdateSession t1 sessionId c1 st in
  let second := createOrUpdateSession t2 sessionId c2 (snd first) in
  sessions (snd second) !! sessionId = Some (fst second)
  /\ Session.messages (fst second) = Session.messages (fst first)
  /\ Session.sessionId (fst second) = Session.sessionId (fst first)
  /\ Session.createdAt (fst second) = Session.createdAt (fst first)
  /\ Session.context (fst second) = Session.context (fst first)
  /\ Session.lastActivity (fst first) <= Session.lastActivity (fst second)
  /\ messages (snd second) = messages st
  /\ (forall other, other <> sessionId ->
       sessions (snd second) !! other = sessions st !! other)
  /\ (forall s0, sessions st !! sessionId = Some s0 ->
       Session.messages (fst second) = Session.messages s0).
Proof.
  intros Hclock first second.
  pose proof (createOrUpdateSession_stored t1 sessionId c1 st) as Hfirst.
  fold first in Hfirst.
  pose proof (createOrUpdateSession_existing t2 sessionId c2 (snd first)
                (fst first) Hfirst) as Hsecond.
  fold second in Hsecond.
  split; [apply createOrUpdateSession_stored|].
  rewrite Hsecond. simpl.
  repeat split; try reflexivity.
  - unfold first. now rewrite createOrUpdateSession_lastActivity.
  - unfold second, first. now rewrite !createOrUpdateSession_messages.
  - intros other Hne. unfold second, first.
    now rewrite !createOrUpdateSession_other.
  - intros s0 Hs0. unfold first.
    now rewrite (createOrUpdateSession_existing t1 sessionId c1 st s0 Hs0).
Qed.

Lemma createOrUpdateSession_twice_witness :
  let first := createOrUpdateSession 2000 Samples.s1 ∅ Samples.threeMessages in
  let second := createOrUpdateSession 2005 Samples.s1 ∅ (snd first) in
  2000 <= 2005
  /\ Session.messages (fst second)
     = List.map (draftMessage Samples.s1) Samples.threeDrafts
  /\ Session.lastActivity (fst first) <= Session.lastActivity (fst second).
Proof.
  pose proof (createOrUpdateSession_twice Samples.threeMessages Samples.s1
                ∅ ∅ 2000 2005 ltac:(lia)) as H.
  cbv zeta in H. destruct H as (_ & Hm & _ & _ & _ & Hl & _).
  intros first second. split; [lia|]. split; [|exact Hl].
  unfold second, first. rewrite Hm. vm_compute. reflexivity.
Defined.

(** *** Which session a message is in *)

Lemma deleteSession_sessions sessionId st :
  sessions (snd (deleteSession sessionId st)) = delete sessionId (sessions st).
Proof.
  unfold deleteSession. destruct (sessions st !! sessionId) eqn:H; simpl.
  - reflexivity.
  - symmetry. now apply delete_id.
Qed.

(** The invariant of the store: a sequence holds only messages that name
    its session. *)
Lemma reachable_sequencesNameTheirSession st :
  reachable st -> sequencesNameTheirSession st.
Proof.
  induction 1 as [|now sid context st _ IH|r sid role content metadata st _ IH
                  |sid st _ IH]; intros k s m Hk Hm.
  - simpl in Hk. now rewrite lookup_empty in Hk.
  - destruct (decide (k = sid)) as [->|Hne].
    + rewrite createOrUpdateSession_stored in Hk.
      injection Hk as <-.
      destruct (sessions st !! sid) as [s0|] eqn:Hs0.
      * rewrite (createOrUpdateSession_existing _ _ _ _ s0 Hs0) in Hm.
        simpl in Hm. now apply (IH sid s0 m).
      * unfold createOrUpdateSession in Hm. rewrite Hs0 in Hm.
        simpl in Hm. now apply elem_of_nil in Hm.
    + rewrite createOrUpdateSession_other in Hk by exact Hne.
      now apply (IH k s m).
  - destruct (decide (k = sid)) as [->|Hne].
    + destruct (sessions st !! sid) as [s0|] eqn:Hs0.
      * rewrite (createMessage_sessions_known _ _ _ _ _ _ s0 Hs0) in Hk.
        rewrite lookup_insert_eq in Hk. injection Hk as <-.
        simpl in Hm. apply elem_of_app in Hm as [Hm|Hm].
        -- now apply (IH sid s0 m).
        -- apply list_elem_of_singleton in Hm. now subst m.
      * rewrite createMessage_sessions_unknown in Hk by exact Hs0.
        congruence.
    + rewrite createMessage_other in Hk by exact Hne.
      now apply (IH k s m).
  - rewrite deleteSession_sessions in Hk.
    apply lookup_delete_Some in Hk as [_ Hk].
    now apply (IH k s m).
Qed.

Lemma reachable_appendAll sessionId ds : forall st,
  reachable st -> reachable (appendAll sessionId ds st).
Proof.
  unfold appendAll. induction ds as [|d ds IH]; intros st H; simpl.
  - exact H.
  - apply IH.
    now apply (reach_createMessage (d_readings d) sessionId (d_role d)
                 (d_content d) (d_metadata d) st).
Qed.

(** C5 as stated fails: [createMessage] for a session the store does not
    have puts the message in the message collection and in no sequence. *)
Lemma createMessage_without_session_orphan :
  let st :=
    snd (createMessage (Samples.readingsAt 1000 "abc") (lit "ghost")
           Message.assistant (lit "hello") ∅ new) in
  reachable st /\ ~ everyMessageInItsSession st.
Proof.
  intros st. split.
  - apply reach_createMessage, reach_new.
  - intros H.
    destruct (H (lit "rsabc")
                (Message.mk (lit "rsabc") (lit "ghost") Message.assistant
                   (lit "hello") 1000 ∅)) as [s [Hs _]].
    + vm_compute. reflexivity.
    + vm_compute in Hs. discriminate.
Qed.

(** C5, amended: in every store the class can reach, a message found in a
    session's sequence names that session, so it is in the sequence of no
    other session.  [createMessage] puts the new message in the message
    collection under its identifier; when the session exists the message
    becomes the last element of that session's sequence, whose earlier
    elements stay as they were, and every other session is untouched;
    when no session exists for the identifier the sessions are unchanged
    and the message is in no sequence. *)
Theorem message_in_one_session st :
  reachable st ->
  sequencesNameTheirSession st
  /\ forall r sessionId role content metadata,
       let m := fst (createMessage r sessionId role content metadata st) in
       let st' := snd (createMessage r sessionId role content metadata st) in
       messages st' !! Message.id m = Some m
       /\ Message.sessionId m = sessionId
       /\ (forall s, sessions st !! sessionId = Some s ->
            exists s', sessions st' !! sessionId = Some s'
                       /\ Session.messages s' = Session.messages s ++ [m])
       /\ (forall other, other <> sessionId ->
            sessions st' !! other = sessions st !! other)
       /\ (sessions st !! sessionId = None ->
            sessions st' = sessions st
            /\ forall k s, sessions st' !! k = Some s ->
                           m ∉ Session.messages s).
Proof.
  intros Hreach.
  pose proof (reachable_sequencesNameTheirSession st Hreach) as Hinv.
  split; [exact Hinv|].
  intros r sid role content metadata m st'. subst m st'.
  rewrite createMessage_fst, createMessage_messages.
  split; [apply lookup_insert_eq|]. split; [reflexivity|].
  split; [|split].
  - intros s Hs. rewrite (createMessage_sessions_known _ _ _ _ _ _ s Hs).
    eexists. split; [apply lookup_insert_eq|reflexivity].
  - intros other Hne. now apply createMessage_other.
  - intros Hnone.
    rewrite createMessage_sessions_unknown by exact Hnone.
    split; [reflexivity|].
    intros k s Hk Hin.
    pose proof (Hinv k s _ Hk Hin) as Hname. simpl in Hname.
    congruence.
Qed.

Lemma message_in_one_session_witness :
  let m :=
    fst (createMessage (Samples.readingsAt 1004 "d") Samples.s1
           Message.user (lit "four") ∅ Samples.threeMessages) in
  let st' :=
    snd (createMessage (Samples.readingsAt 1004 "d") Samples.s1
           Message.user (lit "four") ∅ Samples.threeMessages) in
  reachable Samples.threeMessages
  /\ messages st' !! Message.id m = Some m
  /\ getSessionMessages Samples.s1 (Some 1) st' = [m].
Proof.
  assert (Hreach : reachable Samples.threeMessages).
  { apply reachable_appendAll, reach_createOrUpdateSession, reach_new. }
  intros m st'. split; [exact Hreach|].
  destruct (message_in_one_session Samples.threeMessages Hreach) as [_ H].
  specialize (H (Samples.readingsAt 1004 "d") Samples.s1 Message.user
                (lit "four") ∅).
  cbv zeta in H. destruct H as (Hstored & _ & _).
  split; [exact Hstored|].
  vm_compute. reflexivity.
Defined.

End ChatModelFacts.

(** ** The per-session rate limiter *)

Module RateLimiterFacts.
Import RateLimiter.

(** The middleware on a request that carries a non-empty key. *)
Lemma limiter_step (windowMs max now : Z) (key : jsstring)
    (st : gmap jsstring entry) :
  key <> [] ->
  createSessionLimiter windowMs max now (requestFor key) st
  = match st !! key with
    | None => (Next, <[key := mkEntry 1 (now + windowMs)]> st)
    | Some sessionData =>
        if resetTime sessionData <? now then
          (Next, <[key := mkEntry 1 (now + windowMs)]> st)
        else if max <=? count sessionData then
          (TooManyRequests rejectionText
             (ceilSeconds (resetTime sessionData - now)), st)
        else
          (Next,
           <[key := mkEntry (count sessionData + 1) (resetTime sessionData)]> st)
    end.
Proof. destruct key as [|c k]; [congruence|]. reflexivity. Qed.

(** A request without a session identifier is let through and not
    counted. *)
Lemma limiter_no_key (windowMs max now : Z) (st : gmap jsstring entry) :
  createSessionLimiter windowMs max now (mkRequest None None) st = (Next, st).
Proof. reflexivity. Qed.

(** The first request of a window: no entry yet, or an expired one. *)
Lemma limiter_opens_window (windowMs max now : Z) (key : jsstring)
    (st : gmap jsstring entry) :
  key <> [] ->
  (forall e, st !! key = Some e -> resetTime e < now) ->
  createSessionLimiter windowMs max now (requestFor key) st
  = (Next, <[key := mkEntry 1 (now + windowMs)]> st).
Proof.
  intros Hk Hexp. rewrite limiter_step by exact Hk.
  destruct (st !! key) as [e|] eqn:He; [|reflexivity].
  specialize (Hexp e eq_refl).
  destruct (Z.ltb_spec (resetTime e) now); [reflexivity|lia].
Qed.

(** C9: with [max = 2] and a window of 1000 ms, three requests with one
    key inside the window are let through, let through, and rejected with
    the number of seconds left; a request after the window is let through
    again.  For any configuration, a request with a key is rejected
    exactly when the key has an entry whose window has not expired and
    whose counter has reached [max]. *)
Theorem limiter_fixed_window (key : jsstring) (st : gmap jsstring entry) :
  key <> [] ->
  (forall t1 t2 t3 t4,
      (forall e, st !! key = Some e -> resetTime e < t1) ->
      t2 <= t1 + 1000 -> t3 <= t1 + 1000 -> t1 + 1000 < t4 ->
      let call now s := createSessionLimiter 1000 2 now (requestFor key) s in
      let r1 := call t1 st in
      let r2 := call t2 (snd r1) in
      let r3 := call t3 (snd r2) in
      let r4 := call t4 (snd r3) in
      fst r1 = Next
      /\ fst r2 = Next
      /\ fst r3 = TooManyRequests rejectionText (ceilSeconds (t1 + 1000 - t3))
      /\ fst r4 = Next)
  /\ (forall windowMs max now,
        rejected (fst (createSessionLimiter windowMs max now (requestFor key) st))
        = true
        <-> exists e, st !! key = Some e /\ now <= resetTime e /\ max <= count e).
Proof.
  intros Hk. split.
  - intros t1 t2 t3 t4 Hfresh H2 H3 H4 call r1 r2 r3 r4.
    subst r4 r3 r2 r1 call. cbv beta.
    rewrite (limiter_opens_window 1000 2 t1 key st Hk Hfresh). simpl.
    split; [reflexivity|].
    rewrite (limiter_step 1000 2 t2) by exact Hk.
    rewrite lookup_insert_eq. simpl.
    destruct (Z.ltb_spec (t1 + 1000) t2); [lia|]. simpl.
    split; [reflexivity|].
    rewrite (limiter_step 1000 2 t3) by exact Hk.
    rewrite lookup_insert_eq. simpl.
    destruct (Z.ltb_spec (t1 + 1000) t3); [lia|]. simpl.
    split; [reflexivity|].
    rewrite (limiter_step 1000 2 t4) by exact Hk.
    rewrite lookup_insert_eq. simpl.
    destruct (Z.ltb_spec (t1 + 1000) t4); [reflexivity|lia].
  - intros windowMs max now. rewrite limiter_step by exact Hk.
    destruct (st !! key) as [e|] eqn:He.
    + destruct (Z.ltb_spec (resetTime e) now) as [Hexp|Hin]; simpl.
      * split; [discriminate|]. intros (e' & He' & Hle & _).
        injection He' as <-. lia.
      * destruct (Z.leb_spec max (count e)) as [Hmax|Hmax]; simpl.
        -- split; [|reflexivity]. intros _. exists e. auto.
        -- split; [discriminate|]. intros (e' & He' & _ & Hle).
           injection He' as <-. lia.
    + simpl. split; [discriminate|]. intros (e' & He' & _). discriminate.
Qed.

Lemma limiter_fixed_window_witness :
  let call now s :=
    createSessionLimiter 1000 2 now (requestFor (lit "k")) s in
  let r1 := call 5000 ∅ in
  let r2 := call 5300 (snd r1) in
  let r3 := call 5600 (snd r2) in
  let r4 := call 6001 (snd r3) in
  lit "k" <> []
  /\ fst r1 = Next /\ fst r2 = Next
  /\ fst r3 = TooManyRequests rejectionText 1
  /\ fst r4 = Next
  /\ (rejected (fst r3) = true
      <-> exists e, snd r2 !! lit "k" = Some e
                    /\ 5600 <= resetTime e /\ 2 <= count e).
Proof.
  assert (Hk : lit "k" <> []) by discriminate.
  intros call r1 r2 r3 r4. split; [exact Hk|].
  destruct (limiter_fixed_window (lit "k") ∅ Hk) as [Hscenario _].
  specialize (Hscenario 5000 5300 5600 6001).
  cbv zeta in Hscenario.
  destruct Hscenario as (H1 & H2 & H3 & H4); try lia.
  { intros e He. rewrite lookup_empty in He. discriminate. }
  split; [exact H1|]. split; [exact H2|]. split; [exact H3|].
  split; [exact H4|].
  exact (proj2 (limiter_fixed_window (lit "k") (snd r2) Hk) 1000 2 5600).
Defined.

End RateLimiterFacts.

(** ** The chat service *)

Module ChatServiceFacts.
Import ChatService.

Lemma prepareMessages_fold (sessionMessages : list Message.t) :
  forall acc : list chatMessage,
    fold_left
      (fun messages msg =>
         messages ++ [mkChatMessage (Message.role_ msg) (Message.content msg)])
      sessionMessages acc
    = acc ++ List.map
               (fun msg => mkChatMessage (Message.role_ msg) (Message.content msg))
               sessionMessages.
Proof.
  induction sessionMessages as [|m l IH]; intros acc; simpl.
  - now rewrite app_nil_r.
  - rewrite IH. now rewrite <- app_assoc.
Qed.

(** The array sent upstream: the system message, then each stored message
    reduced to its role and content, in order. *)
Lemma prepareMessagesForOpenAI_eq e sessionMessages :
  prepareMessagesForOpenAI e sessionMessages
  = systemMessage e
    :: List.map
         (fun msg => mkChatMessage (Message.role_ msg) (Message.content msg))
         sessionMessages.
Proof. unfold prepareMessagesForOpenAI. now rewrite prepareMessages_fold. Qed.

(** *** [callOpenAI] *)

(** The state in which the upstream answer is read: the call has been
    logged and other requests have run. *)
Lemma callOpenAI_ready svc messages options e w :
  client e = ClientReady ->
  let req := completionRequestOf svc messages options in
  let w' :=
    concurrent e
      (snd (log info (lit "Llamando a OpenAI con modelo: ") [model req] e w)) in
  callOpenAI svc messages options e w
  = match completions e req with
    | Rejected err => (Throws err, w')
    | Resolved content =>
        if negb (truthy content) then (Throws noContent, w')
        else
          match content with
          | VStr s =>
              (Returns (trim s),
               snd (log info (lit "Respuesta de OpenAI recibida exitosamente")
                      [] e w'))
          | _ => (Throws notAString, w')
          end
    end.
Proof.
  intros Hc req w'. subst req w'.
  unfold callOpenAI, bind, ask. rewrite Hc. simpl.
  destruct (completions e (completionRequestOf svc messages options))
    as [err|content]; [reflexivity|].
  destruct (truthy content); simpl; [|reflexivity].
  now destruct content.
Qed.

Lemma callOpenAI_rejected svc messages options e w err :
  client e = ClientReady ->
  completions e (completionRequestOf svc messages options) = Rejected err ->
  exists w', callOpenAI svc messages options e w = (Throws err, w').
Proof.
  intros Hc Hr. rewrite callOpenAI_ready by exact Hc. cbv zeta.
  rewrite Hr. eauto.
Qed.

Lemma callOpenAI_empty svc messages options e w content :
  client e = ClientReady ->
  completions e (completionRequestOf svc messages options) = Resolved content ->
  truthy content = false ->
  exists w', callOpenAI svc messages options e w = (Throws noContent, w').
Proof.
  intros Hc Hr Ht. rewrite callOpenAI_ready by exact Hc. cbv zeta.
  rewrite Hr, Ht. simpl. eauto.
Qed.

(** *** [processMessage] *)

(** Whatever makes [callOpenAI] throw, [processMessage] runs its [catch]
    block in the state the throw left. *)
Lemma processMessage_catches svc (sessionId userMessage : jsstring) options
    e w err w' :
  sessionId <> [] -> userMessage <> [] ->
  callOpenAI svc (sentFrom sessionId e (beforeCall sessionId userMessage e w))
    options e (beforeCall sessionId userMessage e w)
  = (Throws err, w') ->
  processMessage svc sessionId userMessage options e w
  = recover sessionId err e w'.
Proof.
  intros Hs Hu Hcall.
  destruct sessionId as [|c1 k1]; [congruence|].
  destruct userMessage as [|c2 k2]; [congruence|].
  unfold processMessage, tryCatch. cbn [truthy negb orb].
  unfold bind at 1. cbn [createOrUpdateSession].
  unfold bind at 1. cbn [createMessage].
  unfold bind at 1. cbn [log].
  unfold bind at 1. cbn [getSessionMessages].
  unfold bind at 1. cbn [ask].
  unfold bind at 1.
  unfold beforeCall, sentFrom in Hcall.
  cbn [createOrUpdateSession createMessage log snd chatModel] in Hcall.
  cbn [chatModel]. rewrite Hcall.
  reflexivity.
Qed.

(** What the [catch] block returns and leaves behind. *)
Lemma recover_eq sessionId err e w :
  let m := errorMessageAt sessionId err e w in
  exists w',
    recover sessionId err e w
    = (Returns
         (mkResult false apology sessionId (Message.id m)
            (Message.timestamp m) (Some (message err))), w')
    /\ ChatModel.messages (chatModel w') !! Message.id m = Some m
    /\ logged w'
       = logged w ++ [mkLog error (lit "Error en ChatService.processMessage:")
                        [VStr (message err)]]
    /\ (forall s,
          ChatModel.sessions (chatModel w) !! sessionId = Some s ->
          exists s',
            ChatModel.sessions (chatModel w') !! sessionId = Some s'
            /\ Session.messages s' = Session.messages s ++ [m]).
Proof.
  intros m. eexists. split; [reflexivity|].
  cbn [snd chatModel logged log createMessage].
  split; [|split; [reflexivity|]].
  - rewrite ChatModelFacts.createMessage_messages. apply lookup_insert_eq.
  - intros s Hs.
    rewrite (ChatModelFacts.createMessage_sessions_known _ _ _ _ _ _ s Hs).
    eexists. split; [apply lookup_insert_eq|reflexivity].
Qed.


(** [processMessage] on a non-empty session identifier and message, with
    a client at hand: the one request made upstream, and what follows each
    kind of answer. *)
Lemma processMessage_ready svc (sessionId userMessage : jsstring) options
    e w :
  sessionId <> [] -> userMessage <> [] ->
  client e = ClientReady ->
  let w0 := beforeCall sessionId userMessage e w in
  let req := completionRequestOf svc (sentFrom sessionId e w0) options in
  let resumed :=
    concurrent e
      (snd (log info (lit "Llamando a OpenAI con modelo: ") [model req] e w0)) in
  processMessage svc sessionId userMessage options e w
  = match completions e req with
    | Rejected err => recover sessionId err e resumed
    | Resolved content =>
        if negb (truthy content) then recover sessionId noContent e resumed
        else
          match content with
          | VStr s =>
              let w1 :=
                snd (log info (lit "Respuesta de OpenAI recibida exitosamente")
                       [] e resumed) in
              let stored :=
                createMessage sessionId Message.assistant (trim s) ∅ e w1 in
              let botMsg :=
                ChatModel.created (nextReadings e w1) sessionId
                  Message.assistant (trim s) ∅ in
              (Returns
                 (mkResult true (trim s) sessionId (Message.id botMsg)
                    (Message.timestamp botMsg) None),
               snd (log info (lit "Respuesta del bot guardada: ")
                      [VStr sessionId] e (snd stored)))
          | _ => recover sessionId notAString e resumed
          end
    end.
Proof.
  intros Hs Hu Hc w0 req resumed.
  pose proof (callOpenAI_ready svc (sentFrom sessionId e w0) options e w0 Hc)
    as Hcall.
  cbv zeta in Hcall. fold req in Hcall. fold resumed in Hcall.
  destruct (completions e req) as [err|content] eqn:Hanswer.
  - now apply processMessage_catches.
  - destruct (truthy content) eqn:Ht; cbn [negb] in *.
    + destruct content as [| |b|n|s|o];
        try (now apply processMessage_catches).
      destruct sessionId as [|c1 k1]; [congruence|].
      destruct userMessage as [|c2 k2]; [congruence|].
      unfold processMessage, tryCatch. cbn [truthy negb orb].
      unfold bind at 1. cbn [createOrUpdateSession].
      unfold bind at 1. cbn [createMessage].
      unfold bind at 1. cbn [log].
      unfold bind at 1. cbn [getSessionMessages].
      unfold bind at 1. cbn [ask].
      unfold bind at 1.
      subst w0. unfold beforeCall, sentFrom in Hcall.
      cbn [createOrUpdateSession createMessage log snd chatModel] in Hcall.
      cbn [chatModel]. rewrite Hcall.
      reflexivity.
    + now apply processMessage_catches.
Qed.

(** [processMessage] never throws: every fault of its body ends in the
    [catch] block, which returns. *)
Lemma processMessage_returns svc sessionId userMessage options e w :
  exists r w',
    processMessage svc sessionId userMessage options e w = (Returns r, w').
Proof.
  unfold processMessage, tryCatch.
  match goal with
  | |- context [match ?body e w with _ => _ end] =>
      destruct (body e w) as [[r|err] w1]
  end.
  - eauto.
  - destruct (recover_eq sessionId err e w1) as [w' [H _]]. eauto.
Qed.

(** The system message written out: role system, and the configured
    prompt when it is a non-empty string, the default text otherwise. *)
Lemma systemMessage_eq e :
  systemMessage e
  = mkChatMessage Message.system
      match SYSTEM_PROMPT e with
      | VStr (c :: prompt) => c :: prompt
      | _ =>
          lit "Eres un asistente " ++ [250%N]
            ++ lit "til y amigable. Responde de manera clara y concisa."
      end.
Proof.
  unfold systemMessage, or_else.
  destruct (SYSTEM_PROMPT e) as [| |b|n|s|o]; try reflexivity.
  - now destruct b.
  - destruct (truthy (VNum n)); reflexivity.
  - now destruct s.
Qed.

(** The upstream answer reaches [processMessage] through one request
    only: what the upstream would answer to any other request does not
    matter. *)
Lemma processMessage_one_request svc (sessionId userMessage : jsstring)
    options e w (answers : completionRequest -> completion) :
  sessionId <> [] -> userMessage <> [] ->
  client e = ClientReady ->
  let req :=
    completionRequestOf svc
      (sentFrom sessionId e (beforeCall sessionId userMessage e w)) options in
  answers req = completions e req ->
  processMessage svc sessionId userMessage options
    (mkEnv (clock e) (random e) (client e) answers (concurrent e)
       (SYSTEM_PROMPT e)) w
  = processMessage svc sessionId userMessage options e w.
Proof.
  intros Hs Hu Hc req Hanswers.
  rewrite (processMessage_ready svc sessionId userMessage options e w Hs Hu Hc).
  rewrite (processMessage_ready svc sessionId userMessage options
             (mkEnv (clock e) (random e) (client e) answers (concurrent e)
                (SYSTEM_PROMPT e)) w Hs Hu Hc).
  cbv zeta. cbn [completions].
  change (completionRequestOf svc
            (sentFrom sessionId
               (mkEnv (clock e) (random e) (client e) answers (concurrent e)
                  (SYSTEM_PROMPT e))
               (beforeCall sessionId userMessage
                  (mkEnv (clock e) (random e) (client e) answers
                     (concurrent e) (SYSTEM_PROMPT e)) w)) options)
    with req.
  rewrite Hanswers. fold req.
  destruct (completions e req) as [err|content]; [reflexivity|].
  destruct (truthy content); cbn [negb]; [|reflexivity].
  destruct content; reflexivity.
Qed.

(** C4: for a session holding [m] messages and a window of [N >= 1], the
    array assembled for the upstream call has [min m N + 1] entries.  The
    first is the system instruction: role system, with the text of
    [SYSTEM_PROMPT] when that is a non-empty string and else the default
    text.  Then come the last [N] stored messages (all of them when
    [m < N]), oldest first, each reduced to role and content.
    [processMessage] consults the upstream on this array with [N = 10],
    and on nothing else: its outcome is the same whatever the upstream
    would answer to any other request. *)
Theorem context_window e st sessionId s (N : nat) :
  ChatModel.sessions st !! sessionId = Some s ->
  (0 < N)%nat ->
  let m := length (Session.messages s) in
  let instruction :=
    mkChatMessage Message.system
      match SYSTEM_PROMPT e with
      | VStr (c :: prompt) => c :: prompt
      | _ =>
          lit "Eres un asistente " ++ [250%N]
            ++ lit "til y amigable. Responde de manera clara y concisa."
      end in
  let reduced (n : nat) :=
    List.map
      (fun msg => mkChatMessage (Message.role_ msg) (Message.content msg))
      (drop (m - n) (Session.messages s)) in
  let sent :=
    prepareMessagesForOpenAI e
      (ChatModel.getSessionMessages sessionId (Some (Z.of_nat N)) st) in
  sent = instruction :: reduced N
  /\ length sent = (Nat.min m N + 1)%nat
  /\ forall svc (userMessage : jsstring) options w
       (answers : completionRequest -> completion),
       sessionId <> [] -> userMessage <> [] ->
       client e = ClientReady ->
       chatModel (beforeCall sessionId userMessage e w) = st ->
       let request :=
         mkCompletionRequest
           (or_else (Options.model options) (defaultModel svc))
           (instruction :: reduced 10%nat)
           (or_else (Options.temperature options) (temperature_ svc))
           (or_else (Options.maxTokens options) (maxTokens svc))
           false in
       answers request = completions e request ->
       processMessage svc sessionId userMessage options
         (mkEnv (clock e) (random e) (client e) answers (concurrent e)
            (SYSTEM_PROMPT e)) w
       = processMessage svc sessionId userMessage options e w.
Proof.
  intros Hs HN m instruction reduced sent.
  assert (Hsent : forall n : nat,
            (0 < n)%nat ->
            prepareMessagesForOpenAI e
              (ChatModel.getSessionMessages sessionId (Some (Z.of_nat n)) st)
            = instruction :: reduced n).
  { intros n Hn. rewrite prepareMessagesForOpenAI_eq, systemMessage_eq.
    now rewrite (ChatModelFacts.getSessionMessages_limit st sessionId s n Hs Hn). }
  subst sent. rewrite (Hsent N HN).
  split; [reflexivity|]. split.
  - subst reduced m. simpl. rewrite length_map, length_drop. lia.
  - intros svc userMessage options w answers Hsid Hu Hc Hst request Hanswers.
    apply (processMessage_one_request svc sessionId userMessage options e w
             answers Hsid Hu Hc).
    unfold sentFrom. rewrite Hst.
    change (Some 10) with (Some (Z.of_nat 10)).
    rewrite (Hsent 10%nat) by lia.
    exact Hanswers.
Qed.

Lemma context_window_witness :
  let prompted :=
    mkEnv (fun n => 1000 + Z.of_nat n) (fun _ => lit "x") ClientReady
      (fun _ => Rejected Samples.boom) (fun w => w) (VStr (lit "Be brief.")) in
  let window :=
    ChatModel.getSessionMessages Samples.s1 (Some 2) Samples.threeMessages in
  prepareMessagesForOpenAI Samples.failingEnv window
  = [mkChatMessage Message.system
       (lit "Eres un asistente " ++ [250%N]
          ++ lit "til y amigable. Responde de manera clara y concisa.");
     mkChatMessage Message.user (lit "two");
     mkChatMessage Message.user (lit "three")]
  /\ prepareMessagesForOpenAI prompted window
     = [mkChatMessage Message.system (lit "Be brief.");
        mkChatMessage Message.user (lit "two");
        mkChatMessage Message.user (lit "three")]
  /\ length (prepareMessagesForOpenAI prompted window) = 3%nat.
Proof.
  intros prompted window.
  assert (Hs : ChatModel.sessions Samples.threeMessages !! Samples.s1
               = Some (Session.mk Samples.s1 1000 1003
                         (List.map (ChatModel.draftMessage Samples.s1)
                            Samples.threeDrafts) ∅))
    by (vm_compute; reflexivity).
  destruct (context_window Samples.failingEnv _ _ _ 2 Hs) as (Hdefault & _);
    [lia|].
  destruct (context_window prompted _ _ _ 2 Hs) as (Hprompted & Hlen & _);
    [lia|].
  split; [exact Hdefault|]. split; [exact Hprompted|exact Hlen].
Defined.

(** The two upstream failures named by C1 and C3 make [callOpenAI]
    throw. *)
Lemma upstream_failure_throws svc messages options e w err :
  client e = ClientReady ->
  (completions e (completionRequestOf svc messages options) = Rejected err
   \/ (err = noContent
       /\ exists content,
            completions e (completionRequestOf svc messages options)
            = Resolved content
            /\ truthy content = false)) ->
  callOpenAI svc messages options e w
  = (Throws err,
     concurrent e
       (snd (log info (lit "Llamando a OpenAI con modelo: ")
               [model (completionRequestOf svc messages options)] e w))).
Proof.
  intros Hc H. rewrite callOpenAI_ready by exact Hc. cbv zeta.
  destruct H as [Hr|[-> [content [Hr Ht]]]]; rewrite Hr; [reflexivity|].
  now rewrite Ht.
Qed.



(** C3 as stated fails: the result handed to the caller carries the text
    of the upstream fault in its [error] field. *)
Lemma processMessage_exposes_error_text :
  Samples.failingEnv.(completions)
    (completionRequestOf Samples.service
       (sentFrom Samples.s1 Samples.failingEnv
          (beforeCall Samples.s1 (lit "hello") Samples.failingEnv
             Samples.emptyWorld))
       Options.empty)
  = Rejected (Error (lit "boom"))
  /\ exists r,
       fst (processMessage Samples.service Samples.s1 (lit "hello")
              Options.empty Samples.failingEnv Samples.emptyWorld)
       = Returns r
       /\ r_error r = Some (lit "boom").
Proof.
  split; [reflexivity|].
  eexists. split; [vm_compute; reflexivity|]. reflexivity.
Qed.

(** C3, amended: when the upstream call fails, the text of the fault is
    kept in the metadata of the stored message and in the log, and it is
    also returned to the caller, in the [error] field of the result; the
    [message] field of the result is the fixed apology, whatever the
    fault. *)
Theorem processMessage_error_text svc (sessionId userMessage : jsstring)
    options e w err :
  sessionId <> [] -> userMessage <> [] ->
  client e = ClientReady ->
  let w0 := beforeCall sessionId userMessage e w in
  let req := completionRequestOf svc (sentFrom sessionId e w0) options in
  (completions e req = Rejected err
   \/ (err = noContent
       /\ exists content,
            completions e req = Resolved content /\ truthy content = false)) ->
  exists r m w',
    processMessage svc sessionId userMessage options e w = (Returns r, w')
    /\ r_error r = Some (message err)
    /\ r_message r = apology
    /\ messageId r = Message.id m
    /\ ChatModel.messages (chatModel w') !! Message.id m = Some m
    /\ Message.metadata m !! "originalError" = Some (VStr (message err))
    /\ last (logged w')
       = Some (mkLog error (lit "Error en ChatService.processMessage:")
                 [VStr (message err)]).
Proof.
  intros Hs Hu Hc w0 req Hfail.
  pose proof (upstream_failure_throws svc (sentFrom sessionId e w0) options
                e w0 err Hc Hfail) as Hthrow.
  rewrite (processMessage_catches svc sessionId userMessage options e w err
             _ Hs Hu Hthrow).
  match goal with |- context [recover sessionId err e ?x] => set (resumed := x) end.
  destruct (recover_eq sessionId err e resumed) as (w' & Hr & Hm & Hlog & _).
  eexists _, (errorMessageAt sessionId err e resumed), w'.
  split; [exact Hr|]. cbn [r_error r_message messageId].
  repeat (split; [reflexivity|]).
  split; [exact Hm|]. split; [reflexivity|].
  rewrite Hlog. apply last_snoc.
Qed.

Lemma processMessage_error_text_witness :
  exists r w',
    processMessage Samples.service Samples.s1 (lit "hello") Options.empty
      Samples.failingEnv Samples.emptyWorld
    = (Returns r, w')
    /\ r_error r = Some (lit "boom")
    /\ r_message r = apology.
Proof.
  destruct (processMessage_error_text Samples.service Samples.s1
              (lit "hello") Options.empty Samples.failingEnv
              Samples.emptyWorld Samples.boom)
    as (r & m & w' & Hr & He & Ha & _).
  - discriminate.
  - discriminate.
  - reflexivity.
  - left. reflexivity.
  - exists r, w'. split; [exact Hr|]. split; [exact He | exact Ha].
Defined.

(** *** Generation options *)

Lemma positive_truthy t :
  num_lt (num_of_Z 0) t = true -> truthy (VNum t) = true.
Proof.
  destruct t as [| | |q]; simpl; try discriminate; try reflexivity.
  intros H. apply andb_prop in H as [_ H]. apply negb_true_iff in H.
  apply negb_true_iff. destruct (Qeq_bool q 0) eqn:Hq; [|reflexivity].
  apply Qeq_bool_iff in Hq. symmetry in Hq. apply Qeq_bool_iff in Hq.
  unfold inject_Z in H. congruence.
Qed.

(** An accepted model is the one requested, and the one sent. *)
Lemma accepted_model_sent p raw svc messages s :
  Options.model (Sanitize.validateOptions p (Some raw)) = VStr s ->
  Options.model raw = VStr s
  /\ s ∈ Sanitize.allowedModels
  /\ model (completionRequestOf svc messages
              (Sanitize.validateOptions p (Some raw))) = VStr s.
Proof.
  cbn [Sanitize.validateOptions Options.model completionRequestOf model].
  unfold Sanitize.validModel.
  destruct (Options.model raw) as [| |b|n|s0|o]; try discriminate.
  destruct (truthy (VStr s0)) eqn:Ht; [|discriminate]. cbn [andb].
  destruct (bool_decide (s0 ∈ Sanitize.allowedModels)) eqn:Hin;
    [|discriminate].
  intros [= <-]. apply bool_decide_eq_true in Hin.
  split; [reflexivity|]. split; [exact Hin|].
  unfold or_else. now rewrite Ht.
Qed.

(** An accepted token limit is the parsed request value, lies in
    (0, 4000], and is the one sent. *)
Lemma accepted_maxTokens_sent p raw svc messages t :
  Options.maxTokens (Sanitize.validateOptions p (Some raw)) = VNum t ->
  t = Sanitize.parseInt p (Options.maxTokens raw)
  /\ num_lt (num_of_Z 0) t = true
  /\ num_le t (num_of_Z 4000) = true
  /\ max_tokens (completionRequestOf svc messages
                   (Sanitize.validateOptions p (Some raw))) = VNum t.
Proof.
  cbn [Sanitize.validateOptions Options.maxTokens completionRequestOf
       max_tokens].
  unfold Sanitize.validMaxTokens.
  destruct (is_undefined (Options.maxTokens raw)); [discriminate|].
  destruct (negb (isNaN (Sanitize.parseInt p (Options.maxTokens raw))));
    [|discriminate]. cbn [andb].
  destruct (num_lt (num_of_Z 0) (Sanitize.parseInt p (Options.maxTokens raw)))
    eqn:Hpos; [|discriminate]. cbn [andb].
  destruct (num_le (Sanitize.parseInt p (Options.maxTokens raw))
              (num_of_Z 4000)) eqn:Hmax; [|discriminate].
  intros [= <-]. repeat split; try assumption.
  unfold or_else. now rewrite positive_truthy.
Qed.

(** An accepted temperature is the parsed request value and lies in
    [0, 2]; it is the one sent when it is not zero. *)
Lemma accepted_temperature_sent p raw svc messages t :
  Options.temperature (Sanitize.validateOptions p (Some raw)) = VNum t ->
  t = Sanitize.parseFloat p (Options.temperature raw)
  /\ num_le (num_of_Z 0) t = true
  /\ num_le t (num_of_Z 2) = true
  /\ (truthy (VNum t) = true ->
      temperature (completionRequestOf svc messages
                     (Sanitize.validateOptions p (Some raw))) = VNum t).
Proof.
  cbn [Sanitize.validateOptions Options.temperature completionRequestOf
       temperature].
  unfold Sanitize.validTemperature.
  destruct (is_undefined (Options.temperature raw)); [discriminate|].
  destruct (negb (isNaN (Sanitize.parseFloat p (Options.temperature raw))));
    [|discriminate]. cbn [andb].
  destruct (num_le (num_of_Z 0)
              (Sanitize.parseFloat p (Options.temperature raw)))
    eqn:Hlow; [|discriminate]. cbn [andb].
  destruct (num_le (Sanitize.parseFloat p (Options.temperature raw))
              (num_of_Z 2)) eqn:Hhigh; [|discriminate].
  intros [= <-]. repeat split; try assumption.
  intros Ht. unfold or_else. now rewrite Ht.
Qed.

(** A field that fails validation is left out; the request is not
    refused, and the service default is sent for that field. *)
Lemma rejected_option_dropped p raw svc messages :
  let o := Sanitize.validateOptions p (Some raw) in
  (Options.model o = VUndef ->
   model (completionRequestOf svc messages o) = defaultModel svc)
  /\ (Options.temperature o = VUndef ->
      temperature (completionRequestOf svc messages o) = temperature_ svc)
  /\ (Options.maxTokens o = VUndef ->
      max_tokens (completionRequestOf svc messages o) = maxTokens svc).
Proof.
  intros o. unfold completionRequestOf. cbn [model temperature max_tokens].
  repeat split; intros ->; reflexivity.
Qed.

(** C2 fails on the code at temperature 0: [validateOptions] accepts the
    value, and [callOpenAI] then sends the service default in its place,
    because [options.temperature || this.temperature] takes 0 for an
    absent value.  With the service constructed without environment
    variables the upstream call is made with temperature 0.7. *)
Theorem temperature_zero_replaced_by_default p svc messages :
  let raw := Options.mk VUndef (VNum (Num 0)) VUndef in
  let o := Sanitize.validateOptions p (Some raw) in
  Options.temperature o = VNum (Num 0)
  /\ temperature (completionRequestOf svc messages o) = temperature_ svc
  /\ temperature (completionRequestOf Samples.service messages o)
     = VNum (Num (7 # 10))
  /\ exists w',
       processMessage Samples.service Samples.s1 (lit "hello") o
         Samples.reportingEnv Samples.emptyWorld
       = (Returns
            (mkResult true (lit "temperature 0.7") Samples.s1
               (lit "rwx") 1005 None), w').
Proof.
  intros raw o. repeat split.
  eexists. vm_compute. reflexivity.
Qed.

End ChatServiceFacts.

(** ** The validators *)

Module ValidationFacts.
Import Sanitize Validation.

Lemma replaceAll_single c r x :
  replaceAll c r [x] = if (x =? c)%N then r else [x].
Proof. unfold replaceAll. simpl. apply app_nil_r. Qed.

Lemma escapeHtml_one x : escapeHtml [x] = escapeChar x.
Proof.
  unfold escapeHtml, escapeChar.
  rewrite (replaceAll_single amp).
  destruct (N.eqb_spec x amp) as [->|H1]; [reflexivity|].
  rewrite (replaceAll_single lt_).
  destruct (N.eqb_spec x lt_) as [->|H2]; [reflexivity|].
  rewrite (replaceAll_single gt_).
  destruct (N.eqb_spec x gt_) as [->|H3]; [reflexivity|].
  rewrite (replaceAll_single quot).
  destruct (N.eqb_spec x quot) as [->|H4]; [reflexivity|].
  rewrite (replaceAll_single apos).
  destruct (N.eqb_spec x apos) as [->|H5]; [reflexivity|].
  rewrite (replaceAll_single slash).
  destruct (N.eqb_spec x slash) as [->|H6]; reflexivity.
Qed.

Lemma escapeHtml_app a b : escapeHtml (a ++ b) = escapeHtml a ++ escapeHtml b.
Proof.
  unfold escapeHtml, replaceAll. now rewrite !List.flat_map_app.
Qed.

Lemma escapeHtml_flat_map s : escapeHtml s = List.flat_map escapeChar s.
Proof.
  induction s as [|x s IH]; [reflexivity|].
  change (x :: s) with ([x] ++ s).
  rewrite escapeHtml_app, escapeHtml_one, IH. reflexivity.
Qed.

(** X1: the six replacements applied one after the other amount to a single
    pass that replaces each character by its entity: no entity written by an
    earlier replacement is touched by a later one.  Escaping therefore
    distributes over concatenation. *)
Theorem escapeHtml_single_pass s :
  escapeHtml s = List.flat_map escapeChar s
  /\ forall t, escapeHtml (s ++ t) = escapeHtml s ++ escapeHtml t.
Proof.
  split; [apply escapeHtml_flat_map|]. intros t. apply escapeHtml_app.
Qed.

Lemma forallb_flat_map {A B} (P : B -> bool) (f : A -> list B) l :
  forallb P (List.flat_map f l) = forallb (fun x => forallb P (f x)) l.
Proof.
  induction l as [|x l IH]; simpl; [reflexivity|].
  now rewrite forallb_app, IH.
Qed.

Lemma escapeChar_cases c :
  (isHtmlSpecial c = false /\ escapeChar c = [c])
  \/ (isHtmlSpecial c = true
      /\ In (escapeChar c)
           [lit "&amp;"; lit "&lt;"; lit "&gt;"; lit "&quot;"; lit "&#x27;";
            lit "&#x2F;"]).
Proof.
  unfold escapeChar, isHtmlSpecial.
  destruct (c =? amp)%N; [right; split; [reflexivity|simpl; tauto]|].
  destruct (c =? lt_)%N; [right; split; [reflexivity|simpl; tauto]|].
  destruct (c =? gt_)%N; [right; split; [reflexivity|simpl; tauto]|].
  destruct (c =? quot)%N; [right; split; [reflexivity|simpl; tauto]|].
  destruct (c =? apos)%N; [right; split; [reflexivity|simpl; tauto]|].
  destruct (c =? slash)%N; [right; split; [reflexivity|simpl; tauto]|].
  left. split; reflexivity.
Qed.

Lemma isMarkup_special c : isMarkup c = true -> isHtmlSpecial c = true.
Proof.
  unfold isMarkup, isHtmlSpecial.
  destruct (c =? amp)%N, (c =? lt_)%N, (c =? gt_)%N, (c =? quot)%N,
    (c =? apos)%N, (c =? slash)%N; simpl; auto.
Qed.

(** X2: whatever the input, the output of [sanitizeString] holds no control
    character and none of the characters less-than, greater-than, double
    quote, apostrophe and slash. *)
Theorem sanitizeString_safe (input : jsval) :
  forallb (fun c => negb (isControl c) && negb (isMarkup c))
    (sanitizeString input) = true.
Proof.
  destruct input as [| |b|n|s|o]; try reflexivity.
  simpl. rewrite escapeHtml_flat_map, forallb_flat_map.
  apply forallb_forall. intros c Hc.
  apply List.filter_In in Hc as [_ Hctl].
  destruct (escapeChar_cases c) as [[Hs ->]|[_ Hin]].
  - simpl. rewrite Hctl. simpl.
    destruct (isMarkup c) eqn:Hm; [|reflexivity].
    apply isMarkup_special in Hm. congruence.
  - simpl in Hin.
    destruct Hin as [<-|[<-|[<-|[<-|[<-|[<-|[]]]]]]]; reflexivity.
Qed.

Lemma escapeChar_length c :
  (1 <= length (escapeChar c) <= 6)%nat.
Proof.
  destruct (escapeChar_cases c) as [[_ ->]|[_ Hin]]; [simpl; lia|].
  simpl in Hin.
  destruct Hin as [<-|[<-|[<-|[<-|[<-|[<-|[]]]]]]]; simpl; lia.
Qed.

Lemma escapeHtml_length s :
  (length s <= length (escapeHtml s) <= 6 * length s)%nat.
Proof.
  rewrite escapeHtml_flat_map.
  induction s as [|c s IH]; simpl; [lia|].
  rewrite length_app. pose proof (escapeChar_length c). lia.
Qed.

Lemma trimStart_length s : (length (trimStart s) <= length s)%nat.
Proof.
  destruct (SanitizeFacts.trimStart_suffix s) as [w Hw].
  rewrite Hw at 2. rewrite length_app. lia.
Qed.

Lemma trim_length s : (length (trim s) <= length s)%nat.
Proof.
  unfold trim, trimEnd. rewrite length_rev.
  etransitivity; [apply trimStart_length|].
  rewrite length_rev. apply trimStart_length.
Qed.

Lemma stripControl_length s : (length (stripControl s) <= length s)%nat.
Proof. apply List.filter_length_le. Qed.

Lemma sanitizeString_nil_iff s :
  sanitizeString (VStr s) = [] <-> stripControl (trim s) = [].
Proof.
  simpl. pose proof (escapeHtml_length (stripControl (trim s))) as H.
  split.
  - intros He. rewrite He in H. simpl in H.
    destruct (stripControl (trim s)); [reflexivity|simpl in H; lia].
  - intros ->. reflexivity.
Qed.

(** X3: sanitizing a string of [n] code units gives at most [6 * n] code
    units, and at least as many as are left after trimming and removing
    control characters; the result is empty exactly when nothing is left
    after trimming and removing control characters. *)
Theorem sanitizeString_length s :
  (length (stripControl (trim s)) <= length (sanitizeString (VStr s))
   <= 6 * length s)%nat
  /\ (sanitizeString (VStr s) = [] <-> stripControl (trim s) = []).
Proof.
  split; [|apply sanitizeString_nil_iff].
  simpl. pose proof (escapeHtml_length (stripControl (trim s))) as H.
  pose proof (stripControl_length (trim s)).
  pose proof (trim_length s).
  lia.
Qed.

(** *** [validateSessionId] *)

Lemma isIdChar_plain c :
  isIdChar c = true ->
  isWhiteSpace c = false /\ isControl c = false /\ isHtmlSpecial c = false.
Proof.
  unfold isIdChar, isWhiteSpace, isControl, isHtmlSpecial, amp, lt_, gt_,
    quot, apos, slash.
  intros H.
  rewrite ?orb_true_iff, ?andb_true_iff, ?N.leb_le, ?N.eqb_eq in H.
  repeat split; apply not_true_is_false; intros C;
    rewrite ?orb_true_iff, ?andb_true_iff, ?N.leb_le, ?N.eqb_eq in C; lia.
Qed.

Lemma validateSessionId_inv (v : jsval) :
  SessionIdValidation.isValid (validateSessionId v) = true ->
  exists s,
    v = VStr s /\ (1 <= length s <= 100)%nat /\ forallb isIdChar s = true
    /\ validateSessionId v = SessionIdValidation.mk true s [].
Proof.
  unfold validateSessionId.
  destruct v as [| |b|n|s|o];
    try (cbn [truthy negb];
         repeat match goal with
                | |- context [if ?c then _ else _] => destruct c
                end; intros C; discriminate C).
  destruct s as [|c k]; [intros C; discriminate C|]. cbn [truthy negb].
  destruct (Nat.ltb_spec (length (c :: k)) 1) as [Hshort|_];
    [simpl in Hshort; lia|]. cbn [orb].
  destruct (Nat.ltb_spec 100 (length (c :: k))) as [|Hlen];
    [intros C; discriminate C|].
  destruct (sessionIdRegex (c :: k)) eqn:Hre; [|intros C; discriminate C].
  intros _. exists (c :: k). cbn [negb]. repeat split; auto.
  simpl. lia.
Qed.

(** X4: [validateSessionId] accepts exactly the strings of 1 to 100
    characters taken from letters, digits, underscore and hyphen; it returns
    an accepted identifier unchanged and without errors, and a rejection
    carries exactly one reason and an empty identifier. *)
Theorem validateSessionId_accepts (v : jsval) :
  (SessionIdValidation.isValid (validateSessionId v) = true
   <-> exists s, v = VStr s /\ (1 <= length s <= 100)%nat
                 /\ forallb isIdChar s = true)
  /\ (forall s, v = VStr s ->
      SessionIdValidation.isValid (validateSessionId v) = true ->
      validateSessionId v = SessionIdValidation.mk true s [])
  /\ (SessionIdValidation.isValid (validateSessionId v) = false ->
      SessionIdValidation.sanitizedSessionId (validateSessionId v) = []
      /\ length (SessionIdValidation.errors (validateSessionId v)) = 1%nat).
Proof.
  unfold validateSessionId.
  destruct v as [| |b|n|s|o]; simpl.
  1-4, 6:
    (repeat match goal with |- context [if ?c then _ else _] => destruct c end;
     simpl;
     (split; [split; [intros C; discriminate C
                     |intros (s' & Hs' & _); discriminate Hs']|]);
     (split; [intros s' Hs'; discriminate Hs'|]); auto).
  destruct s as [|c k]; simpl.
  { split; [split; [intros C; discriminate C|]
           |split; [intros s' _ C; discriminate C|auto]].
    intros (s' & [= <-] & Hlen & _). simpl in Hlen. lia. }
  destruct (Nat.ltb_spec 100 (S (length k))) as [Hlong|Hlen]; simpl.
  { split; [split; [intros C; discriminate C|]
           |split; [intros s' _ C; discriminate C|auto]].
    intros (s' & [= <-] & Hl & _). simpl in Hl. lia. }
  destruct (isIdChar c && forallb isIdChar k) eqn:Hre; simpl.
  - split; [split; [|reflexivity]|split; [|intros C; discriminate C]].
    + intros _. exists (c :: k). simpl. repeat split; [lia|lia|exact Hre].
    + intros s' [= <-] _. reflexivity.
  - split; [split; [intros C; discriminate C|]
           |split; [intros s' _ C; discriminate C|auto]].
    intros (s' & [= <-] & _ & Hall). simpl in Hall. congruence.
Qed.

Lemma validateSessionId_accepts_witness :
  validateSessionId (VStr (lit "user_42-a"))
  = SessionIdValidation.mk true (lit "user_42-a") []
  /\ SessionIdValidation.isValid (validateSessionId (VStr (lit "a b"))) = false
  /\ length (SessionIdValidation.errors (validateSessionId (VStr (lit "a b"))))
     = 1%nat.
Proof.
  split.
  - apply (proj1 (proj2 (validateSessionId_accepts (VStr (lit "user_42-a"))))
             (lit "user_42-a") eq_refl).
    reflexivity.
  - split; [reflexivity|].
    apply (proj2 (proj2 (validateSessionId_accepts (VStr (lit "a b"))))).
    reflexivity.
Defined.

Lemma forallb_idChar_plain s :
  forallb isIdChar s = true ->
  forallb (fun c => negb (isWhiteSpace c)) s = true
  /\ forallb (fun c => negb (isControl c)) s = true
  /\ noHtmlSpecial s = true.
Proof.
  unfold noHtmlSpecial. rewrite !forallb_forall. intros H.
  repeat split; intros c Hc; destruct (isIdChar_plain c (H c Hc)) as (A & B & C);
    now rewrite ?A, ?B, ?C.
Qed.

Lemma stripControl_none s :
  forallb (fun c => negb (isControl c)) s = true -> stripControl s = s.
Proof.
  unfold stripControl. induction s as [|c s IH]; simpl; [reflexivity|].
  intros H. apply andb_prop in H as [Hc Hs]. rewrite Hc. f_equal. auto.
Qed.

Lemma trim_none s :
  forallb (fun c => negb (isWhiteSpace c)) s = true -> trim s = s.
Proof.
  intros H. apply SanitizeFacts.trim_id.
  - destruct s as [|c s]; [reflexivity|]. simpl in *.
    now apply andb_prop in H as [Hc _].
  - unfold endsClean. apply SanitizeFacts.forallb_rev in H.
    destruct (rev s) as [|c k]; [reflexivity|]. simpl in *.
    now apply andb_prop in H as [Hc _].
Qed.

(** X5: a session identifier that [validateSessionId] accepts is not empty
    and is left as it is by [sanitizeString]: validating and sanitizing an
    identifier never gives two different keys for one session. *)
Theorem accepted_sessionId_plain (s : jsstring) :
  SessionIdValidation.isValid (validateSessionId (VStr s)) = true ->
  s <> [] /\ truthy (VStr s) = true /\ sanitizeString (VStr s) = s.
Proof.
  intros H.
  apply validateSessionId_inv in H as (s' & [= <-] & Hlen & Hall & _).
  destruct (forallb_idChar_plain s Hall) as (Hws & Hctl & Hsp).
  split; [destruct s; [simpl in Hlen; lia|discriminate]|].
  split; [destruct s; [simpl in Hlen; lia|reflexivity]|].
  simpl. rewrite trim_none by exact Hws.
  rewrite stripControl_none by exact Hctl.
  now apply SanitizeFacts.escapeHtml_plain.
Qed.

Lemma accepted_sessionId_plain_witness :
  sanitizeString (VStr (lit "user_42-a")) = lit "user_42-a".
Proof.
  apply (accepted_sessionId_plain (lit "user_42-a")). reflexivity.
Defined.

(** *** [validateMessage] *)

Lemma num_lt_of_Z a b : num_lt (num_of_Z a) (num_of_Z b) = (a <? b).
Proof.
  unfold num_lt, num_of_Z, Qle_bool, Qeq_bool, inject_Z. simpl.
  rewrite !Z.mul_1_r.
  destruct (Z.ltb_spec a b) as [Hlt|Hge].
  - rewrite (proj2 (Z.leb_le a b)) by lia. simpl.
    destruct (Z.eqb_spec a b) as [He|_]; [lia|reflexivity].
  - destruct (Z.leb_spec a b) as [Hle|Hgt]; [|reflexivity]. simpl.
    assert (a = b) as -> by lia.
    now rewrite Z.eqb_refl.
Qed.

Lemma maxLength_default p : maxLength p VUndef = num_of_Z 4000.
Proof. reflexivity. Qed.

(** X6: [validateMessage] accepts exactly the strings that are not longer
    than the configured maximum and keep at least one character after
    trimming and removal of control characters.  The accepted message comes
    back sanitized and not empty; a rejection carries exactly one reason and
    an empty text.  With no maximum configured the bound is 4000 code
    units of the raw message. *)
Theorem validateMessage_accepts p (MAX_MESSAGE_LENGTH message : jsval) :
  let r := validateMessage p MAX_MESSAGE_LENGTH message in
  (MessageValidation.isValid r = true
   <-> exists s,
         message = VStr s
         /\ num_lt (maxLength p MAX_MESSAGE_LENGTH)
              (num_of_Z (Z.of_nat (length s))) = false
         /\ stripControl (trim s) <> [])
  /\ (MessageValidation.isValid r = true ->
      MessageValidation.sanitizedMessage r = sanitizeString message
      /\ MessageValidation.sanitizedMessage r <> []
      /\ MessageValidation.errors r = [])
  /\ (MessageValidation.isValid r = false ->
      MessageValidation.sanitizedMessage r = []
      /\ length (MessageValidation.errors r) = 1%nat)
  /\ (MAX_MESSAGE_LENGTH = VUndef ->
      forall s, message = VStr s ->
        (MessageValidation.isValid r = true
         <-> (length s <= 4000)%nat /\ stripControl (trim s) <> [])).
Proof.
  intros r.
  assert (Hiff :
    MessageValidation.isValid r = true
    <-> exists s,
          message = VStr s
          /\ num_lt (maxLength p MAX_MESSAGE_LENGTH)
               (num_of_Z (Z.of_nat (length s))) = false
          /\ stripControl (trim s) <> []).
  { subst r. unfold validateMessage.
    destruct message as [| |b|n|s|o].
    1-4, 6:
      (cbn [truthy negb];
       repeat match goal with
              | |- context [if ?c then _ else _] => destruct c
              end; cbn [MessageValidation.isValid];
       (split; [intros C; discriminate C
               |intros (s' & Hs' & _); discriminate Hs'])).
    pose proof (sanitizeString_nil_iff s) as Hempty.
    destruct s as [|c k].
    { simpl. split; [intros C; discriminate C|].
      intros (s' & [= <-] & _ & Hne). exfalso. now apply Hne. }
    cbn [truthy negb].
    destruct (Nat.ltb_spec (length (trim (c :: k))) 1) as [Hblank|Hsome].
    { simpl. split; [intros C; discriminate C|].
      intros (s' & [= <-] & _ & Hne). exfalso. apply Hne.
      destruct (trim (c :: k)); [reflexivity|simpl in Hblank; lia]. }
    destruct (num_lt (maxLength p MAX_MESSAGE_LENGTH)
                (num_of_Z (Z.of_nat (length (c :: k))))) eqn:Hlong.
    { simpl. split; [intros C; discriminate C|].
      intros (s' & [= <-] & Hl & _). congruence. }
    destruct (Nat.eqb_spec (length (sanitizeString (VStr (c :: k)))) 0)
      as [Hz|Hnz]; cbn [MessageValidation.isValid].
    - split; [intros C; discriminate C|].
      intros (s' & [= <-] & _ & Hne). exfalso. apply Hne, Hempty.
      now apply length_zero_iff_nil.
    - split; [|reflexivity]. intros _. exists (c :: k).
      split; [reflexivity|]. split; [exact Hlong|].
      intros Hnil. apply Hnz. apply Hempty in Hnil. now rewrite Hnil. }
  split; [exact Hiff|].
  split; [|split].
  - intros Hv. apply Hiff in Hv as (s & -> & Hlen & Hne).
    subst r. unfold validateMessage.
    pose proof (sanitizeString_nil_iff s) as Hempty.
    assert (Hs : sanitizeString (VStr s) <> [])
      by (intros H; now apply Hne, Hempty).
    assert (Htrim : trim s <> [])
      by (intros H; apply Hne; now rewrite H).
    assert (Hraw : s <> []) by (intros ->; now apply Htrim).
    destruct s as [|c k]; [congruence|]. cbn [truthy negb].
    destruct (Nat.ltb_spec (length (trim (c :: k))) 1) as [Hblank|_].
    { destruct (trim (c :: k)); [congruence|simpl in Hblank; lia]. }
    rewrite Hlen.
    destruct (Nat.eqb_spec (length (sanitizeString (VStr (c :: k)))) 0)
      as [Hz|_].
    { apply length_zero_iff_nil in Hz. congruence. }
    simpl. repeat split. exact Hs.
  - subst r. unfold validateMessage.
    destruct message as [| |b|n|s|o]; cbn [truthy negb];
      repeat match goal with
             | |- context [if ?c then _ else _] => destruct c eqn:?
             end;
      cbn [MessageValidation.isValid MessageValidation.sanitizedMessage
           MessageValidation.errors];
      try (intros C; discriminate C); auto.
    intros _. split; [|reflexivity].
    match goal with
    | H : (length _ =? 0)%nat = true |- _ =>
        apply Nat.eqb_eq, length_zero_iff_nil in H; exact H
    end.
  - intros -> s ->. rewrite Hiff. rewrite maxLength_default.
    split.
    + intros (s' & [= <-] & Hl & Hne). split; [|exact Hne].
      rewrite num_lt_of_Z in Hl. apply Z.ltb_ge in Hl. lia.
    + intros [Hl Hne]. exists s. split; [reflexivity|]. split; [|exact Hne].
      rewrite num_lt_of_Z. apply Z.ltb_ge. lia.
Qed.

Lemma validateMessage_accepts_witness :
  let r := validateMessage Samples.noParsing VUndef (VStr (lit " <b>hi</b> ")) in
  MessageValidation.isValid r = true
  /\ MessageValidation.sanitizedMessage r = lit "&lt;b&gt;hi&lt;&#x2F;b&gt;"
  /\ MessageValidation.isValid
       (validateMessage Samples.noParsing VUndef (VStr [0; 1]%N)) = false.
Proof.
  intros r.
  destruct (validateMessage_accepts Samples.noParsing VUndef
              (VStr (lit " <b>hi</b> "))) as (_ & Hacc & _ & Hdef).
  assert (Hv : MessageValidation.isValid r = true).
  { apply (Hdef eq_refl (lit " <b>hi</b> ") eq_refl).
    split; [simpl; lia|discriminate]. }
  split; [exact Hv|].
  split; [apply (proj1 (Hacc Hv))|reflexivity].
Defined.

(** *** [cleanForLogging] *)

Lemma collapseWhiteSpace_chars inRun s :
  forallb (fun c => negb (isControl c)) s = true ->
  forallb
    (fun c => negb (isControl c) && (negb (isWhiteSpace c) || (c =? 32)%N))
    (collapseWhiteSpace inRun s) = true.
Proof.
  revert inRun. induction s as [|c s IH]; intros inRun H; [reflexivity|].
  simpl in H. apply andb_prop in H as [Hc Hs]. simpl.
  destruct (isWhiteSpace c) eqn:Hw.
  - destruct inRun; simpl; auto.
  - simpl. rewrite Hc, Hw. simpl. auto.
Qed.

Lemma forallb_take (P : N -> bool) n s :
  forallb P s = true -> forallb P (take n s) = true.
Proof.
  revert s. induction n as [|n IH]; intros [|c s]; simpl; auto.
  intros H. apply andb_prop in H as [Hc Hs]. rewrite Hc. simpl. auto.
Qed.

Lemma stripControl_clean s :
  forallb (fun c => negb (isControl c)) (stripControl s) = true.
Proof.
  unfold stripControl. apply forallb_forall. intros c Hc.
  now apply List.filter_In in Hc as [_ Hc].
Qed.

(** X7: the text [cleanForLogging] makes of a string has at most 200 code
    units, no control character, no white space other than the plain space,
    and does not begin with a space. *)
Theorem cleanForLogging_bounded toString (s : jsstring) :
  let out := cleanForLogging toString (VStr s) in
  (length out <= 200)%nat
  /\ forallb
       (fun c => negb (isControl c) && (negb (isWhiteSpace c) || (c =? 32)%N))
       out = true
  /\ startsClean out = true.
Proof.
  intros out. subst out. unfold cleanForLogging.
  set (t := trim (collapseWhiteSpace false (stripControl s))).
  split; [rewrite length_take; lia|]. split.
  - apply forallb_take. unfold t. apply SanitizeFacts.trim_forallb.
    apply collapseWhiteSpace_chars, stripControl_clean.
  - pose proof (proj1 (SanitizeFacts.trim_clean
                         (collapseWhiteSpace false (stripControl s)))) as H.
    fold t in H. destruct t as [|c k]; [reflexivity|exact H].
Qed.

End ValidationFacts.

(** ** More on the session store *)

Module StoreFacts.
Import ChatModel.

Lemma lookup_delete_all (l : list Message.t) :
  forall (M : gmap jsstring Message.t) k,
    fold_left (fun acc message => delete (Message.id message) acc) l M !! k
    = if bool_decide (k ∈ List.map Message.id l) then None else M !! k.
Proof.
  induction l as [|m l IH]; intros M k.
  - cbn [fold_left List.map]. case_bool_decide as Hin; [|reflexivity].
    now apply elem_of_nil in Hin.
  - cbn [fold_left List.map]. rewrite IH.
    case_bool_decide as Hl; case_bool_decide as Hml; try reflexivity.
    + exfalso. apply Hml. apply elem_of_cons. now right.
    + apply elem_of_cons in Hml as [->|?]; [|contradiction].
      apply lookup_delete_eq.
    + apply lookup_delete_ne. intros <-. apply Hml, elem_of_cons. now left.
Qed.

(** X8: [deleteSession] on an identifier without session returns false and
    changes nothing.  On an existing session it returns true, the session is
    gone, the other sessions are as before, no message of the deleted
    sequence is left in the message collection under its identifier, and
    the entries of the collection under other identifiers are as
    before. *)
Theorem deleteSession_effect (st : t) (sessionId : jsstring) :
  (sessions st !! sessionId = None ->
   deleteSession sessionId st = (false, st))
  /\ (forall s,
        sessions st !! sessionId = Some s ->
        let st' := snd (deleteSession sessionId st) in
        fst (deleteSession sessionId st) = true
        /\ getSession sessionId st' = None
        /\ (forall other, other <> sessionId ->
            sessions st' !! other = sessions st !! other)
        /\ (forall m, m ∈ Session.messages s ->
            messages st' !! Message.id m = None)
        /\ (forall k, (forall m, m ∈ Session.messages s -> Message.id m <> k) ->
            messages st' !! k = messages st !! k)).
Proof.
  split.
  - intros H. unfold deleteSession. now rewrite H.
  - intros s Hs st'. subst st'. unfold deleteSession, getSession.
    rewrite Hs. simpl.
    split; [reflexivity|]. split; [apply lookup_delete_eq|].
    split; [intros other Hne; now apply lookup_delete_ne|].
    split.
    + intros m Hm. rewrite lookup_delete_all.
      rewrite bool_decide_eq_true_2; [reflexivity|].
      apply list_elem_of_fmap. exists m. auto.
    + intros k Hk. rewrite lookup_delete_all.
      rewrite bool_decide_eq_false_2; [reflexivity|].
      intros Hin. apply list_elem_of_fmap in Hin as (m & -> & Hm).
      now apply (Hk m).
Qed.

Lemma deleteSession_effect_witness :
  let st' := snd (deleteSession Samples.s1 Samples.threeMessages) in
  deleteSession (lit "nobody") Samples.threeMessages
  = (false, Samples.threeMessages)
  /\ fst (deleteSession Samples.s1 Samples.threeMessages) = true
  /\ getSession Samples.s1 st' = None
  /\ messages st' !! generateId 1002 (lit "b") = None.
Proof.
  intros st'.
  destruct (deleteSession_effect Samples.threeMessages (lit "nobody"))
    as [Hno _].
  destruct (deleteSession_effect Samples.threeMessages Samples.s1) as [_ Hyes].
  specialize (Hyes (Session.mk Samples.s1 1000 1003
                      (List.map (draftMessage Samples.s1) Samples.threeDrafts)
                      ∅)).
  cbv zeta in Hyes.
  destruct Hyes as (Ht & Hg & _ & Hm & _); [vm_compute; reflexivity|].
  split; [apply Hno; vm_compute; reflexivity|].
  split; [exact Ht|]. split; [exact Hg|].
  apply (Hm (draftMessage Samples.s1 (Samples.draftAt 1002 "b" "two"))).
  simpl. apply elem_of_cons. right. apply elem_of_cons. left. reflexivity.
Defined.

(** X9: once a session is deleted its history reads as empty for every
    limit, deleting it again returns false, and creating it again gives a
    session with no messages whose creation time is that of the new call. *)
Theorem deleteSession_then (st : t) (sessionId : jsstring) :
  let st' := snd (deleteSession sessionId st) in
  (forall limit, getSessionMessages sessionId limit st' = [])
  /\ deleteSession sessionId st' = (false, st')
  /\ (forall now context,
        fst (createOrUpdateSession now sessionId context st')
        = Session.mk sessionId now now [] context).
Proof.
  intros st'.
  assert (Hgone : sessions st' !! sessionId = None).
  { subst st'. rewrite ChatModelFacts.deleteSession_sessions.
    apply lookup_delete_eq. }
  split; [|split].
  - intros limit. now apply ChatModelFacts.getSessionMessages_unknown.
  - unfold deleteSession. now rewrite Hgone.
  - intros now context. unfold createOrUpdateSession. now rewrite Hgone.
Qed.

(** X10: for an existing session holding [m] messages, a positive limit
    [l] gives the last [min m l] messages, all of them when [l >= m]; a
    negative limit is passed to [slice] as a positive start and gives the
    sequence without its first [-l] messages. *)
Theorem getSessionMessages_any_limit (st : t) (sessionId : jsstring) s :
  sessions st !! sessionId = Some s ->
  let msgs := Session.messages s in
  (forall l, 0 < l ->
     getSessionMessages sessionId (Some l) st
     = drop (length msgs - Z.to_nat l) msgs
     /\ length (getSessionMessages sessionId (Some l) st)
        = Nat.min (length msgs) (Z.to_nat l)
     /\ (Z.of_nat (length msgs) <= l ->
         getSessionMessages sessionId (Some l) st = msgs))
  /\ (forall l, l < 0 ->
        getSessionMessages sessionId (Some l) st = drop (Z.to_nat (- l)) msgs).
Proof.
  intros Hs msgs. split.
  - intros l Hl.
    assert (Heq : getSessionMessages sessionId (Some l) st
                  = drop (length msgs - Z.to_nat l) msgs).
    { replace l with (Z.of_nat (Z.to_nat l)) at 1 by lia.
      rewrite (ChatModelFacts.getSessionMessages_limit st sessionId s
                 (Z.to_nat l) Hs) by lia.
      reflexivity. }
    rewrite Heq. split; [reflexivity|]. split.
    + rewrite length_drop. lia.
    + intros Hall. replace (length msgs - Z.to_nat l)%nat with 0%nat by lia.
      reflexivity.
  - intros l Hl. unfold getSessionMessages. rewrite Hs.
    destruct (Z.eqb_spec l 0) as [?|_]; [lia|].
    unfold slice_from. fold msgs.
    destruct (Z.ltb_spec (- l) 0) as [?|_]; [lia|].
    destruct (Z.le_ge_cases (- l) (Z.of_nat (length msgs))) as [Hin|Hout].
    + rewrite Z.min_l by exact Hin. reflexivity.
    + rewrite Z.min_r by lia. rewrite Nat2Z.id.
      rewrite !drop_ge by lia. reflexivity.
Qed.

Lemma getSessionMessages_any_limit_witness :
  getSessionMessages Samples.s1 (Some 5) Samples.threeMessages
  = List.map (draftMessage Samples.s1) Samples.threeDrafts
  /\ getSessionMessages Samples.s1 (Some (-1)) Samples.threeMessages
     = List.map (draftMessage Samples.s1)
         [Samples.draftAt 1002 "b" "two"; Samples.draftAt 1003 "c" "three"].
Proof.
  destruct (getSessionMessages_any_limit Samples.threeMessages Samples.s1
              (Session.mk Samples.s1 1000 1003
                 (List.map (draftMessage Samples.s1) Samples.threeDrafts) ∅))
    as [Hpos Hneg]; [vm_compute; reflexivity|].
  split.
  - apply (Hpos 5); simpl; lia.
  - apply (Hneg (-1)). lia.
Defined.

Lemma deleteSession_messages_sub sessionId st k m :
  messages (snd (deleteSession sessionId st)) !! k = Some m ->
  messages st !! k = Some m.
Proof.
  unfold deleteSession. destruct (sessions st !! sessionId) as [s|]; simpl;
    [|auto].
  rewrite lookup_delete_all. now destruct (bool_decide _).
Qed.

(** X11: in every store the class can reach, a message is filed in the
    message collection under its own identifier, and a session is filed
    under its own session identifier. *)
Theorem reachable_keys (st : t) :
  reachable st ->
  (forall k m, messages st !! k = Some m -> Message.id m = k)
  /\ (forall k s, sessions st !! k = Some s -> Session.sessionId s = k).
Proof.
  induction 1 as [|now sid context st _ [IHm IHs]
                  |r sid role content metadata st _ [IHm IHs]
                  |sid st _ [IHm IHs]].
  - split; intros k x Hx; simpl in Hx; now rewrite lookup_empty in Hx.
  - split.
    + intros k m. rewrite ChatModelFacts.createOrUpdateSession_messages.
      apply IHm.
    + intros k s Hk. destruct (decide (k = sid)) as [->|Hne].
      * rewrite ChatModelFacts.createOrUpdateSession_stored in Hk.
        injection Hk as <-. unfold createOrUpdateSession.
        destruct (sessions st !! sid) as [s0|] eqn:Hs0; simpl; [|reflexivity].
        now apply IHs.
      * rewrite ChatModelFacts.createOrUpdateSession_other in Hk by exact Hne.
        now apply IHs.
  - split.
    + intros k m. rewrite ChatModelFacts.createMessage_messages.
      destruct (decide (k = generateId (idNow r) (idRandom r))) as [->|Hne].
      * rewrite lookup_insert_eq. now intros [= <-].
      * rewrite lookup_insert_ne by congruence. apply IHm.
    + intros k s Hk. destruct (decide (k = sid)) as [->|Hne].
      * destruct (sessions st !! sid) as [s0|] eqn:Hs0.
        -- rewrite (ChatModelFacts.createMessage_sessions_known _ _ _ _ _ _ s0
                      Hs0) in Hk.
           rewrite lookup_insert_eq in Hk. injection Hk as <-. simpl.
           now apply IHs.
        -- rewrite ChatModelFacts.createMessage_sessions_unknown in Hk
             by exact Hs0.
           congruence.
      * rewrite ChatModelFacts.createMessage_other in Hk by exact Hne.
        now apply IHs.
  - split.
    + intros k m Hk. apply deleteSession_messages_sub in Hk. now apply IHm.
    + intros k s. rewrite ChatModelFacts.deleteSession_sessions.
      intros Hk. apply lookup_delete_Some in Hk as [_ Hk]. now apply IHs.
Qed.

Lemma reachable_keys_witness :
  ChatModel.reachable Samples.threeMessages
  /\ Message.id (draftMessage Samples.s1 (Samples.draftAt 1002 "b" "two"))
     = generateId 1002 (lit "b").
Proof.
  assert (Hr : reachable Samples.threeMessages)
    by apply ChatModelFacts.reachable_appendAll, reach_createOrUpdateSession,
         reach_new.
  split; [exact Hr|].
  apply (proj1 (reachable_keys Samples.threeMessages Hr)).
  vm_compute. reflexivity.
Defined.

(** X12: the counters of [getStats].  [createOrUpdateSession] adds one
    session when the identifier is new and none otherwise, and never
    changes the number of messages.  [createMessage] never changes the
    number of sessions; it adds one message when the generated identifier is
    not yet in the collection, and when it is there already the earlier
    message is replaced and the count stays. *)
Theorem getStats_counts (st : t) :
  (forall now sessionId context,
     getStats (snd (createOrUpdateSession now sessionId context st))
     = (match sessions st !! sessionId with
        | Some _ => fst (getStats st)
        | None => S (fst (getStats st))
        end, snd (getStats st)))
  /\ (forall r sessionId role content metadata,
        getStats (snd (createMessage r sessionId role content metadata st))
        = (fst (getStats st),
           match messages st !! generateId (idNow r) (idRandom r) with
           | Some _ => snd (getStats st)
           | None => S (snd (getStats st))
           end)).
Proof.
  unfold getStats. split.
  - intros now sid context. cbn [fst snd].
    rewrite ChatModelFacts.createOrUpdateSession_messages. f_equal.
    unfold createOrUpdateSession.
    destruct (sessions st !! sid) as [s|] eqn:Hs; simpl.
    + rewrite map_size_insert_Some by (eexists; eassumption). reflexivity.
    + rewrite map_size_insert_None by assumption. reflexivity.
  - intros r sid role content metadata. cbn [fst snd].
    rewrite ChatModelFacts.createMessage_messages. f_equal.
    + destruct (sessions st !! sid) as [s|] eqn:Hs.
      * rewrite (ChatModelFacts.createMessage_sessions_known _ _ _ _ _ _ s Hs).
        rewrite map_size_insert_Some by (eexists; eassumption). reflexivity.
      * rewrite ChatModelFacts.createMessage_sessions_unknown by assumption.
        reflexivity.
    + destruct (messages st !! generateId (idNow r) (idRandom r)) as [m|] eqn:Hm.
      * rewrite map_size_insert_Some by (eexists; eassumption). reflexivity.
      * rewrite map_size_insert_None by assumption. reflexivity.
Qed.

(** X13: a message created for an existing session is what a read with
    limit 1 returns next, the full history is the earlier one followed by
    it, and the session's [lastActivity] becomes the clock reading of the
    append while [createdAt] and [context] stay; for an identifier without
    session the history still reads as empty. *)
Theorem createMessage_then_read (st : t) r (sessionId : jsstring) role content
    metadata :
  let m := fst (createMessage r sessionId role content metadata st) in
  let st' := snd (createMessage r sessionId role content metadata st) in
  (forall s,
     sessions st !! sessionId = Some s ->
     getSessionMessages sessionId (Some 1) st' = [m]
     /\ getSessionMessages sessionId None st' = Session.messages s ++ [m]
     /\ exists s',
          getSession sessionId st' = Some s'
          /\ Session.lastActivity s' = activity r
          /\ Session.createdAt s' = Session.createdAt s
          /\ Session.context s' = Session.context s)
  /\ (sessions st !! sessionId = None ->
      forall limit, getSessionMessages sessionId limit st' = []).
Proof.
  intros m st'. subst m st'. split.
  - intros s Hs.
    set (s' :=
      Session.mk (Session.sessionId s) (Session.createdAt s) (activity r)
        (Session.messages s ++ [created r sessionId role content metadata])
        (Session.context s)).
    assert (Hlook :
      sessions (snd (createMessage r sessionId role content metadata st))
        !! sessionId = Some s').
    { rewrite (ChatModelFacts.createMessage_sessions_known r sessionId role
                 content metadata st s Hs).
      apply lookup_insert_eq. }
    rewrite ChatModelFacts.createMessage_fst.
    split; [|split].
    + change (Some 1) with (Some (Z.of_nat 1)).
      rewrite (ChatModelFacts.getSessionMessages_limit _ sessionId s' 1 Hlook)
        by lia.
      cbn [Session.messages s']. rewrite length_app. cbn [length].
      replace (length (Session.messages s) + 1 - 1)%nat
        with (length (Session.messages s)) by lia.
      apply drop_app_length.
    + unfold getSessionMessages. rewrite Hlook. reflexivity.
    + exists s'. repeat split. exact Hlook.
  - intros Hs limit. apply ChatModelFacts.getSessionMessages_unknown.
    now rewrite ChatModelFacts.createMessage_sessions_unknown.
Qed.

Lemma createMessage_then_read_witness :
  let call :=
    createMessage (Samples.readingsAt 1004 "d") Samples.s1 Message.user
      (lit "four") ∅ Samples.threeMessages in
  getSessionMessages Samples.s1 (Some 1) (snd call) = [fst call]
  /\ getSessionMessages (lit "nobody") (Some 1)
       (snd (createMessage (Samples.readingsAt 1004 "d") (lit "nobody")
               Message.user (lit "four") ∅ Samples.threeMessages)) = [].
Proof.
  intros call. split.
  - apply (proj1 (createMessage_then_read Samples.threeMessages
                    (Samples.readingsAt 1004 "d") Samples.s1 Message.user
                    (lit "four") ∅)
             (Session.mk Samples.s1 1000 1003
                (List.map (draftMessage Samples.s1) Samples.threeDrafts) ∅)).
    vm_compute. reflexivity.
  - apply (proj2 (createMessage_then_read Samples.threeMessages
                    (Samples.readingsAt 1004 "d") (lit "nobody") Message.user
                    (lit "four") ∅)).
    vm_compute. reflexivity.
Defined.

End StoreFacts.

(** ** More on the rate limiters *)

Module LimiterFacts.
Import RateLimiter.

(** X14: the session limiter keeps one counter per key.  A request for one
    key leaves the entry of every other key as it was, its outcome depends
    on the entry of its own key only, and a rejected request changes
    nothing, so it is not counted. *)
Theorem limiter_per_key (windowMs max now : Z) (key : jsstring)
    (st : gmap jsstring entry) :
  key <> [] ->
  (forall other, other <> key ->
     snd (createSessionLimiter windowMs max now (requestFor key) st) !! other
     = st !! other)
  /\ (forall st' : gmap jsstring entry,
        st' !! key = st !! key ->
        fst (createSessionLimiter windowMs max now (requestFor key) st')
        = fst (createSessionLimiter windowMs max now (requestFor key) st))
  /\ (rejected (fst (createSessionLimiter windowMs max now (requestFor key) st))
      = true ->
      snd (createSessionLimiter windowMs max now (requestFor key) st) = st).
Proof.
  intros Hk. split; [|split].
  - intros other Hne. rewrite RateLimiterFacts.limiter_step by exact Hk.
    destruct (st !! key) as [e|]; [|simpl; now rewrite lookup_insert_ne].
    destruct (resetTime e <? now); [simpl; now rewrite lookup_insert_ne|].
    destruct (max <=? count e); simpl; [reflexivity|].
    now rewrite lookup_insert_ne.
  - intros st' Heq. rewrite !RateLimiterFacts.limiter_step by exact Hk.
    rewrite Heq. destruct (st !! key) as [e|]; [|reflexivity].
    destruct (resetTime e <? now); [reflexivity|].
    now destruct (max <=? count e).
  - rewrite RateLimiterFacts.limiter_step by exact Hk.
    destruct (st !! key) as [e|]; [|intros C; discriminate C].
    destruct (resetTime e <? now); [intros C; discriminate C|].
    destruct (max <=? count e); [reflexivity|intros C; discriminate C].
Qed.

Lemma limiter_per_key_witness :
  let st : gmap jsstring entry := <[lit "a" := mkEntry 2 9000]> ∅ in
  snd (createSessionLimiter 1000 2 5000 (requestFor (lit "b")) st) !! lit "a"
  = Some (mkEntry 2 9000)
  /\ snd (createSessionLimiter 1000 2 5000 (requestFor (lit "a")) st) = st.
Proof.
  intros st.
  assert (Ha : lit "a" <> []) by discriminate.
  assert (Hb : lit "b" <> []) by discriminate.
  split.
  - rewrite (proj1 (limiter_per_key 1000 2 5000 (lit "b") st Hb) (lit "a"))
      by discriminate.
    reflexivity.
  - apply (proj2 (proj2 (limiter_per_key 1000 2 5000 (lit "a") st Ha))).
    reflexivity.
Defined.

Lemma ceilSeconds_bounds x :
  1000 * (ceilSeconds x - 1) < x <= 1000 * ceilSeconds x.
Proof.
  unfold ceilSeconds.
  pose proof (Z.div_mod (- x) 1000 ltac:(lia)) as Hd.
  pose proof (Z.mod_pos_bound (- x) 1000 ltac:(lia)) as Hm.
  lia.
Qed.

(** X15: the hint of a rejection.  When a request is rejected at time
    [now], the number of seconds it is told to wait is not negative and is
    the time left in the window rounded up to a whole second; the same key
    is let through at any later time beyond that wait, but a retry made
    exactly when the window ends is rejected again, because the window is
    taken as expired only after its end. *)
Theorem limiter_retry_after (windowMs max now : Z) (key : jsstring)
    (st : gmap jsstring entry) text hint :
  key <> [] ->
  createSessionLimiter windowMs max now (requestFor key) st
  = (TooManyRequests text hint, st) ->
  exists e,
    st !! key = Some e
    /\ 0 <= hint
    /\ 1000 * (hint - 1) < resetTime e - now <= 1000 * hint
    /\ (forall later, now + 1000 * hint < later ->
        fst (createSessionLimiter windowMs max later (requestFor key) st) = Next)
    /\ fst (createSessionLimiter windowMs max (resetTime e) (requestFor key) st)
       = TooManyRequests rejectionText 0.
Proof.
  intros Hk. rewrite RateLimiterFacts.limiter_step by exact Hk.
  destruct (st !! key) as [e|] eqn:He; [|intros C; discriminate C].
  destruct (Z.ltb_spec (resetTime e) now) as [Hexp|Hin];
    [intros C; discriminate C|].
  destruct (Z.leb_spec max (count e)) as [Hmax|Hless];
    [|intros C; discriminate C].
  intros [= <- <-]. exists e.
  pose proof (ceilSeconds_bounds (resetTime e - now)) as Hb.
  split; [reflexivity|]. split; [lia|]. split; [exact Hb|]. split.
  - intros later Hl. rewrite RateLimiterFacts.limiter_step by exact Hk.
    rewrite He. destruct (Z.ltb_spec (resetTime e) later); [reflexivity|lia].
  - rewrite RateLimiterFacts.limiter_step by exact Hk. rewrite He.
    rewrite Z.ltb_irrefl.
    destruct (Z.leb_spec max (count e)); [|lia].
    simpl. now rewrite Z.sub_diag.
Qed.

Lemma limiter_retry_after_witness :
  let st : gmap jsstring entry := <[lit "a" := mkEntry 2 9000]> ∅ in
  exists e,
    st !! lit "a" = Some e
    /\ fst (createSessionLimiter 1000 2 9501 (requestFor (lit "a")) st) = Next
    /\ fst (createSessionLimiter 1000 2 9000 (requestFor (lit "a")) st)
       = TooManyRequests rejectionText 0.
Proof.
  intros st.
  destruct (limiter_retry_after 1000 2 8500 (lit "a") st rejectionText 1)
    as (e & He & _ & _ & Hlater & Hedge).
  - discriminate.
  - reflexivity.
  - exists e. split; [exact He|]. split; [apply Hlater; lia|].
    assert (e = mkEntry 2 9000) as -> by (vm_compute in He; congruence).
    exact Hedge.
Defined.

(** *** The socket limiter *)

Lemma serve_in_window (o : SocketRateLimiter.options) (clientId : jsstring)
    (ts : list Z) :
  forall (events : gmap jsstring entry) c R,
    events !! clientId = Some (mkEntry c R) ->
    Forall (fun t => t <= R) ts ->
    SocketRateLimiter.serve o clientId ts events
    = List.map
        (fun i =>
           if default 20 (SocketRateLimiter.max o) <=? c + Z.of_nat i
           then SocketRateLimiter.NextError
                  (default SocketRateLimiter.defaultMessage
                     (SocketRateLimiter.message o))
           else SocketRateLimiter.Next)
        (seq 0 (length ts)).
Proof.
  induction ts as [|t ts IH]; intros events c R He Hts; [reflexivity|].
  apply Forall_cons in Hts as [Ht Hts].
  cbn [SocketRateLimiter.serve length seq List.map].
  unfold SocketRateLimiter.createSocketRateLimiter. rewrite He.
  cbn [resetTime count].
  destruct (Z.ltb_spec R t) as [?|_]; [lia|].
  rewrite Z.add_0_r.
  destruct (Z.leb_spec (default 20 (SocketRateLimiter.max o)) c) as [Hfull|Hroom];
    cbn [fst snd]; f_equal.
  - rewrite (IH events c R He Hts).
    rewrite <- seq_shift, List.map_map. apply List.map_ext. intros i.
    destruct (Z.leb_spec (default 20 (SocketRateLimiter.max o))
                (c + Z.of_nat i)); [|lia].
    destruct (Z.leb_spec (default 20 (SocketRateLimiter.max o))
                (c + Z.of_nat (S i))); [reflexivity|lia].
  - rewrite (IH _ (c + 1) R (lookup_insert_eq _ _ _) Hts).
    rewrite <- seq_shift, List.map_map. apply List.map_ext. intros i.
    replace (c + 1 + Z.of_nat i) with (c + Z.of_nat (S i)) by lia.
    reflexivity.
Qed.

(** X16: the quota of the socket limiter.  When a connection opens a
    window (no entry for the socket, or an expired one), it is let through,
    and of the connections that follow inside the window the one in
    position [i] (from 0) is refused exactly when [max <= 1 + i]: a window
    lets through its first [max] connections, and always the first one. *)
Theorem socket_window_quota (o : SocketRateLimiter.options)
    (clientId : jsstring)
    (events : gmap jsstring entry) (t1 : Z) (ts : list Z) :
  (forall e, events !! clientId = Some e -> resetTime e < t1) ->
  Forall (fun t => t <= t1 + default 60000 (SocketRateLimiter.windowMs o)) ts ->
  SocketRateLimiter.serve o clientId (t1 :: ts) events
  = SocketRateLimiter.Next
    :: List.map
         (fun i =>
            if default 20 (SocketRateLimiter.max o) <=? 1 + Z.of_nat i
            then SocketRateLimiter.NextError
                   (default SocketRateLimiter.defaultMessage
                      (SocketRateLimiter.message o))
            else SocketRateLimiter.Next)
         (seq 0 (length ts)).
Proof.
  intros Hopen Hts. cbn [SocketRateLimiter.serve].
  assert (Hfirst :
    SocketRateLimiter.createSocketRateLimiter o t1 clientId events
    = (SocketRateLimiter.Next,
       <[clientId :=
           mkEntry 1 (t1 + default 60000 (SocketRateLimiter.windowMs o))]>
         events)).
  { unfold SocketRateLimiter.createSocketRateLimiter.
    destruct (events !! clientId) as [e|] eqn:He; [|reflexivity].
    specialize (Hopen e eq_refl).
    destruct (Z.ltb_spec (resetTime e) t1); [reflexivity|lia]. }
  rewrite Hfirst. cbn [fst snd]. f_equal.
  apply (serve_in_window o clientId ts _ 1 _ (lookup_insert_eq _ _ _) Hts).
Qed.

Lemma socket_window_quota_witness :
  let o := SocketRateLimiter.mkOptions (Some 1000) (Some 2) None in
  SocketRateLimiter.serve o (lit "sock") [5000; 5300; 5600; 6000] ∅
  = [SocketRateLimiter.Next; SocketRateLimiter.Next;
     SocketRateLimiter.NextError SocketRateLimiter.defaultMessage;
     SocketRateLimiter.NextError SocketRateLimiter.defaultMessage].
Proof.
  intros o.
  apply (socket_window_quota o (lit "sock") ∅ 5000 [5300; 5600; 6000]).
  - intros e He. rewrite lookup_empty in He. discriminate He.
  - repeat constructor; simpl; lia.
Defined.

End LimiterFacts.

(** ** The upstream client *)

Module OpenAIClientFacts.
Import OpenAIClient.

Lemma initializeClient_settled e st :
  settled st -> settled (snd (initializeClient e st)).
Proof.
  intros H. unfold initializeClient, hasError, hasClient in *.
  destruct H as [[Hi Hc]|(Hi & Hc & He)].
  - rewrite Hi. cbn [andb].
    destruct (OPENAI_API_KEY e) as [[|c k]|]; cbn [snd];
      try (left; split; [reflexivity|exact Hc]).
    destruct (sdkFault e (mkClient (c :: k) 30000)); cbn [snd].
    + left. split; [reflexivity|exact Hc].
    + right. repeat split.
  - rewrite Hi, He. cbn [andb negb snd]. right. rewrite He. auto.
Qed.

Lemma reachable_settled st : reachable st -> settled st.
Proof.
  induction 1 as [|e st _ IH|e st _ IH|e st _ IH].
  - left. split; reflexivity.
  - now apply initializeClient_settled.
  - unfold getClient.
    destruct (negb (initialized st) || hasError st); [|exact IH].
    pose proof (initializeClient_settled e st IH) as H.
    now destruct (initializeClient e st) as [[r|err] st'].
  - unfold isAvailable.
    destruct (negb (initialized st)); [|exact IH].
    pose proof (initializeClient_settled e st IH) as H.
    now destruct (initializeClient e st) as [[r|err] st'].
Qed.

Lemma getClient_settled e st :
  settled st ->
  match fst (getClient e st) with
  | ChatService.Returns (Some c) =>
      snd (getClient e st) = mk (Some c) true None
      /\ ((initialized st = true /\ client st = Some c)
          \/ (initialized st = false
              /\ exists k, OPENAI_API_KEY e = Some k /\ k <> []
                           /\ c = mkClient k 30000 /\ sdkFault e c = None))
  | ChatService.Returns None => False
  | ChatService.Throws error =>
      initialized st = false
      /\ snd (getClient e st) = mk None false (Some error)
      /\ ((error = missingKey
           /\ (OPENAI_API_KEY e = None \/ OPENAI_API_KEY e = Some []))
          \/ exists k, OPENAI_API_KEY e = Some k /\ k <> []
                       /\ sdkFault e (mkClient k 30000) = Some error)
  end.
Proof.
  intros [[Hi Hc]|(Hi & Hc & He)]; unfold getClient, initializeClient, hasError,
    hasClient in *.
  - rewrite Hi. cbn [negb orb andb].
    destruct st as [c0 i0 e0]. cbn [client initialized] in *. subst.
    destruct (OPENAI_API_KEY e) as [[|c k]|] eqn:Hk; cbn [fst snd].
    + repeat split. left. auto.
    + destruct (sdkFault e (mkClient (c :: k) 30000)) as [err|] eqn:Hf;
        cbn [fst snd client].
      * repeat split. right. exists (c :: k). repeat split; auto; discriminate.
      * split; [reflexivity|]. right. split; [reflexivity|].
        exists (c :: k). repeat split; auto; discriminate.
    + repeat split. left. auto.
  - destruct st as [c0 i0 e0]. cbn [client initialized initializationError] in *.
    subst. cbn [negb orb fst snd client].
    destruct c0 as [c|]; [|discriminate Hc].
    split; [reflexivity|]. left. auto.
Qed.

(** X17: in every state the singleton can reach, either nothing is built
    and the client field is empty, or the client is built, the flag is set
    and no error is recorded; and [getClient] never hands out [null]: it
    returns a client or throws.  The test for a missing client in
    [callOpenAI] therefore never fires. *)
Theorem getClient_never_null (st : t) :
  reachable st ->
  settled st
  /\ forall e, clientStateOf (fst (getClient e st)) <> ChatService.ClientNull.
Proof.
  intros Hr. pose proof (reachable_settled st Hr) as Hs.
  split; [exact Hs|]. intros e.
  pose proof (getClient_settled e st Hs) as H.
  destruct (fst (getClient e st)) as [[c|]|err]; simpl;
    [discriminate|contradiction|discriminate].
Qed.

Lemma getClient_never_null_witness :
  let st := snd (isAvailable (mkEnv None (fun _ => None)) new) in
  settled st
  /\ clientStateOf (fst (getClient (mkEnv None (fun _ => None)) st))
     <> ChatService.ClientNull.
Proof.
  intros st.
  destruct (getClient_never_null st) as [Hs Hn].
  - apply reach_isAvailable, reach_new.
  - split; [exact Hs|apply Hn].
Defined.

(** X18: what [getClient] does in a reachable state.  It returns the client
    already built, or builds one with the key of the environment and a
    30000 ms timeout when the key is a non-empty string and the SDK
    accepts it; it throws the missing-key error when the key is absent or
    empty, and the SDK's fault otherwise, recording the error and leaving
    the client unbuilt.  [isAvailable] answers true exactly when [getClient]
    returns a client, and leaves the same state. *)
Theorem getClient_outcome (e : env) (st : t) :
  reachable st ->
  match fst (getClient e st) with
  | ChatService.Returns (Some c) =>
      snd (getClient e st) = mk (Some c) true None
      /\ ((initialized st = true /\ client st = Some c)
          \/ (initialized st = false
              /\ exists k, OPENAI_API_KEY e = Some k /\ k <> []
                           /\ c = mkClient k 30000 /\ sdkFault e c = None))
  | ChatService.Returns None => False
  | ChatService.Throws error =>
      initialized st = false
      /\ snd (getClient e st) = mk None false (Some error)
      /\ ((error = missingKey
           /\ (OPENAI_API_KEY e = None \/ OPENAI_API_KEY e = Some []))
          \/ exists k, OPENAI_API_KEY e = Some k /\ k <> []
                       /\ sdkFault e (mkClient k 30000) = Some error)
  end
  /\ isAvailable e st
     = (match fst (getClient e st) with
        | ChatService.Returns (Some _) => true
        | _ => false
        end, snd (getClient e st)).
Proof.
  intros Hr. pose proof (reachable_settled st Hr) as Hs.
  split; [now apply getClient_settled|].
  destruct Hs as [[Hi Hc]|(Hi & Hc & He)];
    unfold isAvailable, getClient, initializeClient, hasError, hasClient in *;
    destruct st as [c0 i0 e0]; cbn [client initialized initializationError] in *;
    subst; cbn [negb orb andb].
  - destruct (OPENAI_API_KEY e) as [[|c k]|]; cbn [fst snd]; try reflexivity.
    destruct (sdkFault e (mkClient (c :: k) 30000)); reflexivity.
  - destruct c0 as [c|]; [reflexivity|discriminate Hc].
Qed.

Lemma getClient_outcome_witness :
  let e := mkEnv (Some (lit "sk-test")) (fun _ => None) in
  fst (getClient e new) = ChatService.Returns (Some (mkClient (lit "sk-test") 30000))
  /\ isAvailable e new = (true, mk (Some (mkClient (lit "sk-test") 30000)) true None)
  /\ fst (getClient (mkEnv None (fun _ => None)) new)
     = ChatService.Throws missingKey.
Proof.
  intros e.
  pose proof (getClient_outcome e new reach_new) as [_ Ha].
  split; [reflexivity|]. split; [exact Ha|reflexivity].
Defined.

(** X19: a client once built is kept: from then on [getClient] returns
    that same client and [isAvailable] answers true without looking at the
    environment, and the state no longer changes.  A failed initialisation
    is not kept: the next [getClient] in an environment with a usable key
    builds the client and clears the recorded error. *)
Theorem client_kept_and_retried (e : env) (st : t) :
  reachable st ->
  (forall c,
     fst (getClient e st) = ChatService.Returns (Some c) ->
     forall e',
       getClient e' (snd (getClient e st))
       = (ChatService.Returns (Some c), snd (getClient e st))
       /\ isAvailable e' (snd (getClient e st))
          = (true, snd (getClient e st)))
  /\ (forall error,
        fst (getClient e st) = ChatService.Throws error ->
        forall e' k,
          OPENAI_API_KEY e' = Some k -> k <> [] ->
          sdkFault e' (mkClient k 30000) = None ->
          getClient e' (snd (getClient e st))
          = (ChatService.Returns (Some (mkClient k 30000)),
             mk (Some (mkClient k 30000)) true None)).
Proof.
  intros Hr. pose proof (getClient_settled e st (reachable_settled st Hr)) as H.
  split.
  - intros c Hc e'. rewrite Hc in H. destruct H as [-> _].
    split; reflexivity.
  - intros error He e' k Hk Hne Hf. rewrite He in H.
    destruct H as (_ & -> & _).
    unfold getClient, initializeClient, hasError. cbn [initialized negb orb andb].
    rewrite Hk. destruct k as [|c k]; [congruence|].
    rewrite Hf. reflexivity.
Qed.

Lemma client_kept_and_retried_witness :
  let bad := mkEnv None (fun _ => None) in
  let good := mkEnv (Some (lit "sk-test")) (fun _ => None) in
  fst (getClient good (snd (getClient bad new)))
  = ChatService.Returns (Some (mkClient (lit "sk-test") 30000))
  /\ fst (getClient bad (snd (getClient good new)))
     = ChatService.Returns (Some (mkClient (lit "sk-test") 30000)).
Proof.
  intros bad good.
  destruct (client_kept_and_retried bad new reach_new) as [_ Hretry].
  destruct (client_kept_and_retried good new reach_new) as [Hkept _].
  split.
  - rewrite (Hretry missingKey eq_refl good (lit "sk-test") eq_refl
               ltac:(discriminate) eq_refl).
    reflexivity.
  - rewrite (proj1 (Hkept (mkClient (lit "sk-test") 30000) eq_refl bad)).
    reflexivity.
Defined.

End OpenAIClientFacts.

(** ** History and clearing *)

Module QueryFacts.
Import ChatService ChatServiceQueries.

(** X20: [getSessionHistory] answers for an unknown session with
    [success] false, the not-found text and no messages.  For an existing
    session holding [m] messages and a positive limit [l] it returns the
    last [min m l] messages, oldest first, each reduced to identifier,
    role, content and timestamp, with [totalMessages] the number returned
    (not the number stored); when the limit is left out it is 50. *)
Theorem getSessionHistory_result (st : ChatModel.t) (sessionId : jsstring) :
  (ChatModel.sessions st !! sessionId = None ->
   forall limitArg,
     getSessionHistory sessionId limitArg st
     = mkHistory false (Some notFound) None [] None)
  /\ (forall s l,
        ChatModel.sessions st !! sessionId = Some s ->
        0 < l ->
        let m := length (Session.messages s) in
        getSessionHistory sessionId (Some (Some l)) st
        = mkHistory true None (Some sessionId)
            (List.map
               (fun msg =>
                  mkItem (Message.id msg) (Message.role_ msg)
                    (Message.content msg) (Message.timestamp msg))
               (drop (m - Z.to_nat l) (Session.messages s)))
            (Some (Nat.min m (Z.to_nat l))))
  /\ (forall s,
        ChatModel.sessions st !! sessionId = Some s ->
        getSessionHistory sessionId None st
        = getSessionHistory sessionId (Some (Some 50)) st).
Proof.
  split; [|split].
  - intros Hs limitArg. unfold getSessionHistory, ChatModel.getSession.
    now rewrite Hs.
  - intros s l Hs Hl m. unfold getSessionHistory, ChatModel.getSession, itemOf.
    rewrite Hs. cbn [from_option Datatypes.id].
    assert (Hget : ChatModel.getSessionMessages sessionId (Some l) st
                   = drop (m - Z.to_nat l) (Session.messages s)).
    { replace l with (Z.of_nat (Z.to_nat l)) at 1 by lia.
      apply ChatModelFacts.getSessionMessages_limit; [exact Hs|lia]. }
    rewrite Hget, length_drop.
    f_equal. f_equal. subst m. lia.
  - intros s Hs. reflexivity.
Qed.

Lemma getSessionHistory_result_witness :
  getSessionHistory (lit "nobody") None Samples.threeMessages
  = mkHistory false (Some notFound) None [] None
  /\ totalMessages
       (getSessionHistory Samples.s1 (Some (Some 2)) Samples.threeMessages)
     = Some 2%nat.
Proof.
  destruct (getSessionHistory_result Samples.threeMessages (lit "nobody"))
    as [Hno _].
  destruct (getSessionHistory_result Samples.threeMessages Samples.s1)
    as (_ & Hyes & _).
  split.
  - apply Hno. vm_compute. reflexivity.
  - rewrite (Hyes (Session.mk Samples.s1 1000 1003
                     (List.map (ChatModel.draftMessage Samples.s1)
                        Samples.threeDrafts) ∅) 2);
      [reflexivity|vm_compute; reflexivity|lia].
Defined.

(** X21: [clearSession] answers [success] exactly when the session existed.
    After a successful clearing the history of the session reads as not
    found, clearing it again fails, and the other sessions are as before;
    a failed clearing changes nothing. *)
Theorem clearSession_result (sessionId : jsstring) e (w : world) :
  (ChatModel.sessions (chatModel w) !! sessionId = None ->
   clearSession sessionId e w = (Returns (mkCleared false notFound), w))
  /\ (forall s,
        ChatModel.sessions (chatModel w) !! sessionId = Some s ->
        exists w',
          clearSession sessionId e w = (Returns (mkCleared true clearedText), w')
          /\ (forall limitArg,
                getSessionHistory sessionId limitArg (chatModel w')
                = mkHistory false (Some notFound) None [] None)
          /\ clearSession sessionId e w'
             = (Returns (mkCleared false notFound), w')
          /\ (forall other, other <> sessionId ->
                ChatModel.sessions (chatModel w') !! other
                = ChatModel.sessions (chatModel w) !! other)).
Proof.
  assert (Hfail : forall w0,
    ChatModel.sessions (chatModel w0) !! sessionId = None ->
    clearSession sessionId e w0 = (Returns (mkCleared false notFound), w0)).
  { intros w0 H. unfold clearSession, ChatModel.deleteSession. rewrite H.
    cbn [fst snd]. now destruct w0. }
  split; [apply Hfail|].
  intros s Hs.
  unfold clearSession at 1. unfold ChatModel.deleteSession at 1 2.
  rewrite Hs. cbn [fst snd log].
  eexists. split; [reflexivity|].
  cbn [chatModel ChatModel.sessions].
  split; [|split].
  - intros limitArg. unfold getSessionHistory, ChatModel.getSession.
    cbn [ChatModel.sessions]. now rewrite lookup_delete_eq.
  - apply Hfail. cbn [chatModel ChatModel.sessions]. apply lookup_delete_eq.
  - intros other Hne. now apply lookup_delete_ne.
Qed.

Lemma clearSession_result_witness :
  let w := mkWorld Samples.threeMessages [] 0 0 in
  fst (clearSession Samples.s1 Samples.failingEnv w)
  = Returns (mkCleared true clearedText)
  /\ clearSession (lit "nobody") Samples.failingEnv w
     = (Returns (mkCleared false notFound), w).
Proof.
  intros w.
  destruct (clearSession_result Samples.s1 Samples.failingEnv w) as [_ Hyes].
  destruct (Hyes (Session.mk Samples.s1 1000 1003
                    (List.map (ChatModel.draftMessage Samples.s1)
                       Samples.threeDrafts) ∅))
    as (w' & Hr & _); [vm_compute; reflexivity|].
  split; [now rewrite Hr|].
  apply (proj1 (clearSession_result (lit "nobody") Samples.failingEnv w)).
  vm_compute. reflexivity.
Defined.

End QueryFacts.

(** ** More on [processMessage] *)

Module ServiceFacts.
Import ChatService.

Lemma processMessage_invalid svc (sessionId userMessage : jsstring) options
    e w :
  sessionId = [] \/ userMessage = [] ->
  processMessage svc sessionId userMessage options e w
  = recover sessionId missingArguments e w.
Proof.
  intros [->| ->]; unfold processMessage, tryCatch.
  - reflexivity.
  - destruct sessionId; reflexivity.
Qed.

Lemma callOpenAI_no_client svc messages options e w :
  client e <> ClientReady ->
  exists err,
    callOpenAI svc messages options e w = (Throws err, concurrent e w)
    /\ (client e = ClientNull -> err = noClient)
    /\ (forall err', client e = ClientInitFails err' -> err = err').
Proof.
  intros H. unfold callOpenAI, bind, ask.
  destruct (client e) as [| |err'] eqn:Hc; [congruence| |].
  - exists noClient. repeat split; congruence.
  - exists err'. repeat split; congruence.
Qed.

(** The [catch] block, with the state it leaves written out. *)
Lemma recover_world sessionId err e w :
  recover sessionId err e w
  = (Returns
       (mkResult false apology sessionId
          (Message.id (errorMessageAt sessionId err e w))
          (Message.timestamp (errorMessageAt sessionId err e w))
          (Some (message err))),
     mkWorld
       (snd (ChatModel.createMessage (nextReadings e w) sessionId
               Message.assistant apology (errorMetadata err) (chatModel w)))
       (logged w ++ [mkLog error (lit "Error en ChatService.processMessage:")
                       [VStr (message err)]])
       match ChatModel.sessions (chatModel w) !! sessionId with
       | Some _ => S (S (S (clockReads w)))
       | None => S (S (clockReads w))
       end
       (S (randomDraws w))).
Proof. reflexivity. Qed.

(** X22: when [processMessage] is given an empty session identifier or an
    empty message, it makes no upstream call and stores nothing of the
    user's text: it returns the failure result whose [error] says that both
    are required, no session is created or changed except that the apology
    is appended to the session of that identifier if it exists, and the
    apology is put in the message collection even when no such session
    exists. *)
Theorem processMessage_missing_arguments svc (sessionId userMessage : jsstring)
    options e w :
  sessionId = [] \/ userMessage = [] ->
  let m := errorMessageAt sessionId missingArguments e w in
  exists w',
    processMessage svc sessionId userMessage options e w
    = (Returns
         (mkResult false apology sessionId (Message.id m) (Message.timestamp m)
            (Some (lit "sessionId y userMessage son requeridos"))), w')
    /\ ChatModel.messages (chatModel w') !! Message.id m = Some m
    /\ (forall other, other <> sessionId ->
          ChatModel.sessions (chatModel w') !! other
          = ChatModel.sessions (chatModel w) !! other)
    /\ (ChatModel.sessions (chatModel w) !! sessionId = None ->
          ChatModel.sessions (chatModel w') = ChatModel.sessions (chatModel w))
    /\ (forall s,
          ChatModel.sessions (chatModel w) !! sessionId = Some s ->
          exists s',
            ChatModel.sessions (chatModel w') !! sessionId = Some s'
            /\ Session.messages s' = Session.messages s ++ [m]).
Proof.
  intros Hbad m.
  rewrite (processMessage_invalid svc sessionId userMessage options e w Hbad).
  rewrite recover_world. eexists. split; [reflexivity|].
  cbn [chatModel].
  split; [|split; [|split]].
  - rewrite ChatModelFacts.createMessage_messages. apply lookup_insert_eq.
  - intros other Hne. now apply ChatModelFacts.createMessage_other.
  - intros Hnone. now apply ChatModelFacts.createMessage_sessions_unknown.
  - intros s Hs.
    rewrite (ChatModelFacts.createMessage_sessions_known _ _ _ _ _ _ s Hs).
    eexists. split; [apply lookup_insert_eq|reflexivity].
Qed.

Lemma processMessage_missing_arguments_witness :
  exists r w',
    processMessage Samples.service Samples.s1 [] Options.empty
      Samples.failingEnv Samples.emptyWorld
    = (Returns r, w')
    /\ success r = false
    /\ ChatModel.sessions (chatModel w') = ∅.
Proof.
  destruct (processMessage_missing_arguments Samples.service Samples.s1 []
              Options.empty Samples.failingEnv Samples.emptyWorld)
    as (w' & Hr & _ & _ & Hnone & _); [now right|].
  eexists _, w'. split; [exact Hr|]. split; [reflexivity|].
  now apply Hnone.
Defined.

(** *** The successful exchange *)

(** The store in which the upstream call is made: the session exists and
    its sequence is the earlier one followed by the user's message. *)
Lemma beforeCall_session (sessionId userMessage : jsstring) e w :
  let userMsg :=
    ChatModel.created (nextReadings e (snd (createOrUpdateSession sessionId e w)))
      sessionId Message.user userMessage ∅ in
  exists s,
    ChatModel.sessions (chatModel (beforeCall sessionId userMessage e w))
      !! sessionId = Some s
    /\ Session.messages s
       = ChatModel.getSessionMessages sessionId None (chatModel w) ++ [userMsg].
Proof.
  intros userMsg. unfold beforeCall.
  cbn [log snd chatModel createMessage createOrUpdateSession].
  pose proof (ChatModelFacts.createOrUpdateSession_stored
                (clock e (clockReads w)) sessionId ∅ (chatModel w)) as Hst.
  rewrite (ChatModelFacts.createMessage_sessions_known _ _ _ _ _ _ _ Hst).
  eexists. split; [apply lookup_insert_eq|].
  cbn [Session.messages]. f_equal.
  unfold ChatModel.createOrUpdateSession, ChatModel.getSessionMessages.
  now destruct (ChatModel.sessions (chatModel w) !! sessionId).
Qed.

Lemma sent_ends_with_user (e : env) (st : ChatModel.t) (sessionId : jsstring)
    s (ms : list Message.t) (u : Message.t) :
  ChatModel.sessions st !! sessionId = Some s ->
  Session.messages s = ms ++ [u] ->
  last (prepareMessagesForOpenAI e
          (ChatModel.getSessionMessages sessionId (Some 10) st))
  = Some (mkChatMessage (Message.role_ u) (Message.content u)).
Proof.
  intros Hs Hm.
  rewrite ChatServiceFacts.prepareMessagesForOpenAI_eq.
  change (Some 10) with (Some (Z.of_nat 10)).
  rewrite (ChatModelFacts.getSessionMessages_limit st sessionId s 10 Hs) by lia.
  rewrite Hm, length_app. cbn [length].
  rewrite drop_app_le by lia.
  rewrite List.map_app. cbn [List.map].
  rewrite app_comm_cons. apply last_snoc.
Qed.

(** X23: a successful exchange, when no other request touches the store
    meanwhile.  With a non-empty identifier and message, a client at hand
    and an upstream answer that is a non-empty string, [processMessage]
    returns [success] true with the trimmed answer; the array sent upstream
    ends with the user's message; and afterwards the session holds its
    earlier messages followed by the user message and the assistant
    message carrying the trimmed answer, the latter being the message
    named by the result. *)
Theorem processMessage_success svc (sessionId userMessage : jsstring) options
    e w (answer : jsstring) :
  sessionId <> [] -> userMessage <> [] ->
  client e = ClientReady ->
  (forall w0, concurrent e w0 = w0) ->
  let w0 := beforeCall sessionId userMessage e w in
  completions e (completionRequestOf svc (sentFrom sessionId e w0) options)
  = Resolved (VStr answer) ->
  answer <> [] ->
  exists userMsg botMsg s' w',
    processMessage svc sessionId userMessage options e w
    = (Returns
         (mkResult true (trim answer) sessionId (Message.id botMsg)
            (Message.timestamp botMsg) None), w')
    /\ last (sentFrom sessionId e w0)
       = Some (mkChatMessage Message.user userMessage)
    /\ Message.role_ userMsg = Message.user
    /\ Message.content userMsg = userMessage
    /\ Message.role_ botMsg = Message.assistant
    /\ Message.content botMsg = trim answer
    /\ Message.metadata botMsg = ∅
    /\ ChatModel.messages (chatModel w') !! Message.id botMsg = Some botMsg
    /\ ChatModel.sessions (chatModel w') !! sessionId = Some s'
    /\ Session.messages s'
       = ChatModel.getSessionMessages sessionId None (chatModel w)
         ++ [userMsg; botMsg].
Proof.
  intros Hs Hu Hc Hquiet w0 Hanswer Hne.
  destruct (beforeCall_session sessionId userMessage e w) as (s2 & Hs2 & Hm2).
  fold w0 in Hs2.
  rewrite (ChatServiceFacts.processMessage_ready svc sessionId userMessage
             options e w Hs Hu Hc).
  cbv zeta. fold w0. rewrite Hanswer.
  assert (Ht : truthy (VStr answer) = true)
    by (destruct answer; [congruence|reflexivity]).
  rewrite Ht. cbn [negb]. rewrite Hquiet.
  exists (ChatModel.created
            (nextReadings e (snd (createOrUpdateSession sessionId e w)))
            sessionId Message.user userMessage ∅).
  eexists _, _, _. split; [reflexivity|].
  split; [exact (sent_ends_with_user e (chatModel w0) sessionId s2 _ _ Hs2 Hm2)|].
  do 5 (split; [reflexivity|]).
  cbn [log snd chatModel createMessage].
  split; [|split].
  - rewrite ChatModelFacts.createMessage_messages. apply lookup_insert_eq.
  - rewrite (ChatModelFacts.createMessage_sessions_known _ _ _ _ _ _ s2 Hs2).
    apply lookup_insert_eq.
  - cbn [Session.messages]. rewrite Hm2, <- app_assoc. reflexivity.
Qed.

Lemma processMessage_success_witness :
  exists r w',
    processMessage Samples.service Samples.s1 (lit "hello") Options.empty
      (Samples.envWith (Resolved (VStr (lit " hi there "))))
      Samples.emptyWorld
    = (Returns r, w')
    /\ success r = true
    /\ r_message r = lit "hi there"
    /\ List.map Message.content
         (ChatModel.getSessionMessages Samples.s1 None (chatModel w'))
       = [lit "hello"; lit "hi there"].
Proof.
  destruct (processMessage_success Samples.service Samples.s1 (lit "hello")
              Options.empty
              (Samples.envWith (Resolved (VStr (lit " hi there "))))
              Samples.emptyWorld (lit " hi there "))
    as (u & b & s' & w' & Hr & _ & _ & Hu & _ & Hb & _ & _ & Hs' & Hm');
    try discriminate; try reflexivity.
  eexists _, w'. split; [exact Hr|]. split; [reflexivity|].
  split; [reflexivity|].
  unfold ChatModel.getSessionMessages at 1. rewrite Hs', Hm'.
  change (ChatModel.getSessionMessages Samples.s1 None
            (chatModel Samples.emptyWorld)) with (@nil Message.t).
  cbn [List.map app]. now rewrite Hu, Hb.
Defined.

(** *** What every call leaves behind *)

Lemma recover_shape sessionId err e w :
  exists r m w',
    recover sessionId err e w = (Returns r, w')
    /\ sessionId = ChatService.sessionId r
    /\ messageId r = Message.id m
    /\ timestamp r = Message.timestamp m
    /\ ChatModel.messages (chatModel w') !! Message.id m = Some m
    /\ Message.role_ m = Message.assistant
    /\ Message.content m = r_message r
    /\ Message.sessionId m = sessionId
    /\ (success r = true <-> r_error r = None)
    /\ (success r = false ->
        r_message r = apology
        /\ Message.metadata m !! "error" = Some (VBool true)).
Proof.
  rewrite recover_world.
  exists (mkResult false apology sessionId
            (Message.id (errorMessageAt sessionId err e w))
            (Message.timestamp (errorMessageAt sessionId err e w))
            (Some (message err))),
    (errorMessageAt sessionId err e w).
  eexists. split; [reflexivity|].
  cbn [ChatService.sessionId messageId timestamp r_message success r_error
       chatModel].
  do 3 (split; [reflexivity|]).
  split; [rewrite ChatModelFacts.createMessage_messages; apply lookup_insert_eq|].
  do 3 (split; [reflexivity|]).
  split; [split; intros C; discriminate C|].
  intros _. split; reflexivity.
Qed.

(** X24: [processMessage] always returns, whatever its arguments, the
    client and the upstream answer, and every call stores one assistant
    message for the session identifier given: the message the result names
    by [messageId] and [timestamp], whose content is the [message] of the
    result.  The result has [error] exactly when [success] is false, and
    then its [message] is the apology and the stored message is marked as
    an error. *)
Theorem processMessage_always_answers svc (sessionId userMessage : jsstring)
    options e w :
  exists r m w',
    processMessage svc sessionId userMessage options e w = (Returns r, w')
    /\ sessionId = ChatService.sessionId r
    /\ messageId r = Message.id m
    /\ timestamp r = Message.timestamp m
    /\ ChatModel.messages (chatModel w') !! Message.id m = Some m
    /\ Message.role_ m = Message.assistant
    /\ Message.content m = r_message r
    /\ Message.sessionId m = sessionId
    /\ (success r = true <-> r_error r = None)
    /\ (success r = false ->
        r_message r = apology
        /\ Message.metadata m !! "error" = Some (VBool true)).
Proof.
  destruct (decide (sessionId = [])) as [Hs|Hs].
  { rewrite processMessage_invalid by now left. apply recover_shape. }
  destruct (decide (userMessage = [])) as [Hu|Hu].
  { rewrite processMessage_invalid by now right. apply recover_shape. }
  assert (Hdec : client e = ClientReady \/ client e <> ClientReady)
    by (destruct (client e); [left; reflexivity|right; discriminate
                             |right; discriminate]).
  destruct Hdec as [Hc|Hc].
  2: { destruct (callOpenAI_no_client svc
                   (sentFrom sessionId e (beforeCall sessionId userMessage e w))
                   options e (beforeCall sessionId userMessage e w) Hc)
         as (err & Hcall & _).
       rewrite (ChatServiceFacts.processMessage_catches svc sessionId
                  userMessage options e w err _ Hs Hu Hcall).
       apply recover_shape. }
  rewrite (ChatServiceFacts.processMessage_ready svc sessionId userMessage
             options e w Hs Hu Hc).
  cbv zeta.
  destruct (completions e _) as [err|content]; [apply recover_shape|].
  destruct (truthy content); cbn [negb]; [|apply recover_shape].
  destruct content as [| |b|n|s|o]; try apply recover_shape.
  eexists _, _, _. split; [reflexivity|].
  cbn [ChatService.sessionId messageId timestamp r_message success r_error
       chatModel log snd createMessage].
  do 3 (split; [reflexivity|]).
  split; [rewrite ChatModelFacts.createMessage_messages; apply lookup_insert_eq|].
  do 3 (split; [reflexivity|]).
  split; [split; reflexivity|].
  intros C. discriminate C.
Qed.

(** *** Edge cases of the upstream answer *)

Lemma trim_blank s : forallb isWhiteSpace s = true -> trim s = [].
Proof.
  intros H. unfold trim.
  assert (Hstart : trimStart s = []).
  { induction s as [|c s IH]; [reflexivity|]. simpl in *.
    apply andb_prop in H as [Hc Hs]. rewrite Hc. auto. }
  now rewrite Hstart.
Qed.

(** X25: an upstream answer made of white space only is not taken for a
    missing answer: the emptiness test comes before the trimming, so
    [processMessage] returns [success] true with an empty [message] and
    stores an assistant message with empty content. *)
Theorem processMessage_blank_answer svc (sessionId userMessage : jsstring)
    options e w (answer : jsstring) :
  sessionId <> [] -> userMessage <> [] ->
  client e = ClientReady ->
  let w0 := beforeCall sessionId userMessage e w in
  completions e (completionRequestOf svc (sentFrom sessionId e w0) options)
  = Resolved (VStr answer) ->
  answer <> [] ->
  forallb isWhiteSpace answer = true ->
  exists m w',
    processMessage svc sessionId userMessage options e w
    = (Returns
         (mkResult true [] sessionId (Message.id m) (Message.timestamp m) None),
       w')
    /\ ChatModel.messages (chatModel w') !! Message.id m = Some m
    /\ Message.role_ m = Message.assistant
    /\ Message.content m = [].
Proof.
  intros Hs Hu Hc w0 Hanswer Hne Hblank.
  rewrite (ChatServiceFacts.processMessage_ready svc sessionId userMessage
             options e w Hs Hu Hc).
  cbv zeta. fold w0. rewrite Hanswer.
  assert (Ht : truthy (VStr answer) = true)
    by (destruct answer; [congruence|reflexivity]).
  rewrite Ht. cbn [negb]. rewrite (trim_blank answer Hblank).
  eexists _, _. split; [reflexivity|].
  cbn [log snd chatModel createMessage].
  split; [rewrite ChatModelFacts.createMessage_messages; apply lookup_insert_eq|].
  split; reflexivity.
Qed.

Lemma processMessage_blank_answer_witness :
  exists r w',
    processMessage Samples.service Samples.s1 (lit "hello") Options.empty
      (Samples.envWith (Resolved (VStr (lit "   ")))) Samples.emptyWorld
    = (Returns r, w')
    /\ success r = true /\ r_message r = [].
Proof.
  destruct (processMessage_blank_answer Samples.service Samples.s1
              (lit "hello") Options.empty
              (Samples.envWith (Resolved (VStr (lit "   "))))
              Samples.emptyWorld (lit "   "))
    as (m & w' & Hr & _); try discriminate; try reflexivity.
  eexists _, w'. split; [exact Hr|]. split; reflexivity.
Defined.

Lemma or_else_truthy a b : truthy b = true -> truthy (or_else a b) = true.
Proof. intros H. unfold or_else. now destruct (truthy a) eqn:Ha. Qed.

(** X26: whatever the environment variables and the options of the
    request, a service built by the constructor sends upstream a model, a
    temperature and a token limit that are all truthy: never an absent
    value, never NaN, and never 0. *)
Theorem request_values_usable p (OPENAI_MODEL OPENAI_MAX_TOKENS
    OPENAI_TEMPERATURE : jsval) (messages : list chatMessage)
    (options : Options.t) :
  let svc := new p OPENAI_MODEL OPENAI_MAX_TOKENS OPENAI_TEMPERATURE in
  let req := completionRequestOf svc messages options in
  truthy (model req) = true
  /\ truthy (temperature req) = true
  /\ truthy (max_tokens req) = true.
Proof.
  intros svc req. subst req svc. unfold completionRequestOf, new.
  cbn [model temperature max_tokens defaultModel temperature_ maxTokens].
  repeat split; apply or_else_truthy; apply or_else_truthy; reflexivity.
Qed.

(** Without a client the outcome does not depend on the upstream at all. *)
Lemma processMessage_no_request svc (sessionId userMessage : jsstring) options
    e w (answers : completionRequest -> completion) :
  client e <> ClientReady ->
  processMessage svc sessionId userMessage options
    (mkEnv (clock e) (random e) (client e) answers (concurrent e)
       (SYSTEM_PROMPT e)) w
  = processMessage svc sessionId userMessage options e w.
Proof.
  intros Hc.
  destruct (decide (sessionId = [])) as [Hs|Hs].
  { rewrite !processMessage_invalid by now left. reflexivity. }
  destruct (decide (userMessage = [])) as [Hu|Hu].
  { rewrite !processMessage_invalid by now right. reflexivity. }
  set (e' := mkEnv (clock e) (random e) (client e) answers (concurrent e)
               (SYSTEM_PROMPT e)).
  destruct (callOpenAI_no_client svc
              (sentFrom sessionId e (beforeCall sessionId userMessage e w))
              options e (beforeCall sessionId userMessage e w) Hc)
    as (err & Hcall & Hnull & Hinit).
  destruct (callOpenAI_no_client svc
              (sentFrom sessionId e' (beforeCall sessionId userMessage e' w))
              options e' (beforeCall sessionId userMessage e' w) Hc)
    as (err' & Hcall' & Hnull' & Hinit').
  rewrite (ChatServiceFacts.processMessage_catches svc sessionId userMessage
             options e w err _ Hs Hu Hcall).
  rewrite (ChatServiceFacts.processMessage_catches svc sessionId userMessage
             options e' w err' _ Hs Hu Hcall').
  assert (Herr : err' = err).
  { subst e'. cbn [client] in Hnull', Hinit'.
    destruct (client e) as [| |x] eqn:Hx; [congruence| |].
    - now rewrite Hnull, Hnull'.
    - now rewrite (Hinit x eq_refl), (Hinit' x eq_refl). }
  rewrite Herr. reflexivity.
Qed.

(** X27: when no client can be had ([getClient] throws or gives none),
    [processMessage] makes no upstream call: its outcome is the same
    whatever the upstream would answer.  The user's message is stored
    before the call.  The awaited call still lets other requests run
    before the [catch] block does: the apology is appended to the session
    as they left it, and is put in the collection even if they deleted
    the session.  When no other request touches the store meanwhile, the
    session ends up holding its earlier messages, the user's message and
    the apology.  The result carries the text of the client fault. *)
Theorem processMessage_without_client svc (sessionId userMessage : jsstring)
    options e w :
  sessionId <> [] -> userMessage <> [] ->
  client e <> ClientReady ->
  let w0 := beforeCall sessionId userMessage e w in
  let resumed := concurrent e w0 in
  let earlier := ChatModel.getSessionMessages sessionId None (chatModel w) in
  exists err userMsg m w',
    processMessage svc sessionId userMessage options e w
    = (Returns
         (mkResult false apology sessionId (Message.id m) (Message.timestamp m)
            (Some (message err))), w')
    /\ (client e = ClientNull ->
        message err = lit "Cliente OpenAI no disponible")
    /\ (forall err', client e = ClientInitFails err' -> err = err')
    /\ (forall answers,
          processMessage svc sessionId userMessage options
            (mkEnv (clock e) (random e) (client e) answers (concurrent e)
               (SYSTEM_PROMPT e)) w
          = processMessage svc sessionId userMessage options e w)
    /\ Message.role_ userMsg = Message.user
    /\ Message.content userMsg = userMessage
    /\ (exists s0,
          ChatModel.sessions (chatModel w0) !! sessionId = Some s0
          /\ Session.messages s0 = earlier ++ [userMsg])
    /\ Message.role_ m = Message.assistant
    /\ Message.content m
       = lit "Lo siento, ocurri" ++ [243%N]
           ++ lit " un error al procesar tu mensaje. Por favor, int"
           ++ [233%N] ++ lit "ntalo de nuevo."
    /\ ChatModel.messages (chatModel w') !! Message.id m = Some m
    /\ (forall s,
          ChatModel.sessions (chatModel resumed) !! sessionId = Some s ->
          exists s',
            ChatModel.sessions (chatModel w') !! sessionId = Some s'
            /\ Session.messages s' = Session.messages s ++ [m])
    /\ (ChatModel.sessions (chatModel resumed) !! sessionId = None ->
        ChatModel.sessions (chatModel w')
        = ChatModel.sessions (chatModel resumed))
    /\ ((forall x, concurrent e x = x) ->
        exists s',
          ChatModel.sessions (chatModel w') !! sessionId = Some s'
          /\ Session.messages s' = earlier ++ [userMsg; m]).
Proof.
  intros Hs Hu Hc w0 resumed earlier.
  destruct (callOpenAI_no_client svc (sentFrom sessionId e w0) options e w0 Hc)
    as (err & Hcall & Hnull & Hinit).
  destruct (beforeCall_session sessionId userMessage e w) as (s2 & Hs2 & Hm2).
  fold w0 in Hs2.
  pose proof (ChatServiceFacts.processMessage_catches svc sessionId
                userMessage options e w err resumed Hs Hu Hcall) as Hcatch.
  rewrite recover_world in Hcatch.
  exists err.
  exists (ChatModel.created
            (nextReadings e (snd (createOrUpdateSession sessionId e w)))
            sessionId Message.user userMessage ∅).
  eexists _, _. split; [exact Hcatch|].
  split; [intros Hn; now rewrite (Hnull Hn)|]. split; [exact Hinit|].
  split; [intros answers; now apply processMessage_no_request|].
  do 2 (split; [reflexivity|]).
  split; [exists s2; split; [exact Hs2|exact Hm2]|].
  do 2 (split; [reflexivity|]).
  cbn [chatModel].
  split; [rewrite ChatModelFacts.createMessage_messages; apply lookup_insert_eq|].
  split; [|split].
  - intros s Hres.
    rewrite (ChatModelFacts.createMessage_sessions_known _ _ _ _ _ _ s Hres).
    eexists. split; [apply lookup_insert_eq|reflexivity].
  - intros Hnone. now apply ChatModelFacts.createMessage_sessions_unknown.
  - intros Hquiet.
    assert (Hres : ChatModel.sessions (chatModel resumed) !! sessionId
                   = Some s2)
      by (subst resumed; now rewrite Hquiet).
    rewrite (ChatModelFacts.createMessage_sessions_known _ _ _ _ _ _ s2 Hres).
    eexists. split; [apply lookup_insert_eq|].
    cbn [Session.messages]. rewrite Hm2, <- app_assoc.
    subst resumed. rewrite Hquiet. reflexivity.
Qed.

Lemma processMessage_without_client_witness :
  let e :=
    mkEnv (fun n => 1000 + Z.of_nat n) (fun _ => lit "x") ClientNull
      (fun _ => Resolved (VStr (lit "unused"))) (fun w => w) VUndef in
  exists r w',
    processMessage Samples.service Samples.s1 (lit "hello") Options.empty e
      Samples.emptyWorld
    = (Returns r, w')
    /\ r_error r = Some (lit "Cliente OpenAI no disponible")
    /\ List.map Message.content
         (ChatModel.getSessionMessages Samples.s1 None (chatModel w'))
       = [lit "hello"; apology].
Proof.
  intros e.
  destruct (processMessage_without_client Samples.service Samples.s1
              (lit "hello") Options.empty e Samples.emptyWorld)
    as (err & u & m & w' & Hr & Hnull & _ & _ & _ & Hu & _ & _ & Hm & _ & _
        & _ & Hquiet);
    try discriminate.
  destruct (Hquiet (fun x => eq_refl)) as (s' & Hs' & Hseq).
  rewrite (Hnull eq_refl) in Hr.
  eexists _, w'. split; [exact Hr|]. split; [reflexivity|].
  unfold ChatModel.getSessionMessages at 1. rewrite Hs', Hseq.
  change (ChatModel.getSessionMessages Samples.s1 None
            (chatModel Samples.emptyWorld)) with (@nil Message.t).
  cbn [List.map app]. now rewrite Hu, Hm.
Defined.

End ServiceFacts.

(** ** The REST handlers *)

Module ControllerFacts.
Import ChatController.

Lemma validateMessage_inv p (MAX_MESSAGE_LENGTH message : jsval) :
  MessageValidation.isValid
    (Validation.validateMessage p MAX_MESSAGE_LENGTH message) = true ->
  MessageValidation.sanitizedMessage
    (Validation.validateMessage p MAX_MESSAGE_LENGTH message)
  = Sanitize.sanitizeString message
  /\ Sanitize.sanitizeString message <> [].
Proof.
  unfold Validation.validateMessage.
  destruct message as [| |b|n|s|o];
    try (cbn [truthy negb];
         repeat match goal with
                | |- context [if ?c then _ else _] => destruct c
                end; intros C; discriminate C).
  destruct (negb (truthy (VStr s))); [intros C; discriminate C|].
  destruct (length (trim s) <? 1)%nat; [intros C; discriminate C|].
  destruct (num_lt _ _); [intros C; discriminate C|].
  destruct (Nat.eqb_spec (length (Sanitize.sanitizeString (VStr s))) 0)
    as [|Hnz]; [intros C; discriminate C|].
  intros _. split; [reflexivity|].
  intros Hnil. apply Hnz. now rewrite Hnil.
Qed.

(** Only strings pass the two validators: a value that cannot be
    converted to a string is rejected by both, without being converted. *)
Lemma validateSessionId_printable (x : Request.value) :
  SessionIdValidation.isValid (Validation.validateSessionId (Request.seen x))
  = true ->
  exists s, x = Request.Printable (VStr s).
Proof.
  destruct x as [v|]; [|intros C; discriminate C].
  cbn [Request.seen]. intros H.
  destruct (ValidationFacts.validateSessionId_inv _ H) as (s & -> & _).
  now exists s.
Qed.

Lemma validateMessage_printable p (MAX_MESSAGE_LENGTH : jsval)
    (x : Request.value) :
  MessageValidation.isValid
    (Validation.validateMessage p MAX_MESSAGE_LENGTH (Request.seen x)) = true ->
  exists s, x = Request.Printable (VStr s).
Proof.
  destruct x as [v|]; [|intros C; discriminate C].
  cbn [Request.seen]. unfold Validation.validateMessage.
  destruct v as [| |b|n|s|o];
    try (cbn [truthy negb];
         repeat match goal with
                | |- context [if ?c then _ else _] => destruct c
                end; intros C; discriminate C).
  intros _. now exists s.
Qed.

(** [validateOptions] on request values: it throws exactly when the
    temperature or the token limit cannot be converted, and on values
    that convert it is the function of [Sanitize]. *)
Lemma validateOptions_printable p (o : Options.t) :
  Validation.validateOptions p (Some (Request.printable o))
  = ChatService.Returns (Sanitize.validateOptions p (Some o)).
Proof. reflexivity. Qed.

Lemma validateOptions_outcome p (options : option Request.options) :
  (exists o,
     options = Some o
     /\ (Request.temperature o = Request.Unprintable
         \/ Request.maxTokens o = Request.Unprintable))
  /\ Validation.validateOptions p options
     = ChatService.Throws Request.conversionFault
  \/ (forall o,
        options = Some o ->
        Request.temperature o <> Request.Unprintable
        /\ Request.maxTokens o <> Request.Unprintable)
     /\ exists validated,
          Validation.validateOptions p options = ChatService.Returns validated.
Proof.
  destruct options as [[m t k]|]; cbn [Validation.validateOptions
    Request.temperature Request.maxTokens Request.model].
  2: { right. split; [intros o C; discriminate C|eauto]. }
  destruct t as [t|].
  2: { left. split; [|reflexivity]. eexists. split; [reflexivity|].
       now left. }
  destruct k as [k|].
  2: { left. split; [|reflexivity]. eexists. split; [reflexivity|].
       now right. }
  right. split; [|eauto].
  intros o Ho. injection Ho as <-. split; discriminate.
Qed.

(** X28: the handler of [POST /chat].  It answers 500 exactly when a
    value it converts to a string cannot be converted: the session
    identifier, interpolated into the first log line before any
    validation, or, once identifier and message are accepted, the
    temperature or the token limit of the options; nothing is stored
    then.  It answers 400 when the identifier or the message fails
    validation, and then too the service, its store and the upstream are
    not touched.  Otherwise it answers 200 with the result of the
    service, called with the identifier as received, the sanitized message
    and the validated options, also when the service reports a failure;
    the last entry of the array sent upstream is then the sanitized text,
    not the text received, and the state is the one the service left, as
    changed by the requests that ran before the handler went on. *)
Theorem controller_processMessage p (MAX_MESSAGE_LENGTH : jsval) svc
    (meanwhile : ChatService.world -> ChatService.world)
    (body : chatBody) e (w : world) :
  let out := processMessage p MAX_MESSAGE_LENGTH svc meanwhile body e w in
  let sv := Validation.validateSessionId (Request.seen (sessionId body)) in
  let mv :=
    Validation.validateMessage p MAX_MESSAGE_LENGTH
      (Request.seen (message body)) in
  let unconvertible :=
    sessionId body = Request.Unprintable
    \/ (SessionIdValidation.isValid sv = true
        /\ MessageValidation.isValid mv = true
        /\ exists o,
             options body = Some o
             /\ (Request.temperature o = Request.Unprintable
                 \/ Request.maxTokens o = Request.Unprintable)) in
  ((exists a b, fst out = InternalError a b) <-> unconvertible)
  /\ (unconvertible ->
      fst out
      = InternalError (lit "Error interno del servidor")
          (lit "Ocurri" ++ [243%N] ++ lit " un error al procesar tu mensaje")
      /\ service (snd out) = service w)
  /\ (sessionId body <> Request.Unprintable ->
      SessionIdValidation.isValid sv = false ->
      fst out
      = BadRequest (lit "SessionId inv" ++ [225%N] ++ lit "lido")
          (SessionIdValidation.errors sv)
      /\ service (snd out) = service w)
  /\ (SessionIdValidation.isValid sv = true ->
      MessageValidation.isValid mv = false ->
      fst out
      = BadRequest (lit "Mensaje inv" ++ [225%N] ++ lit "lido")
          (MessageValidation.errors mv)
      /\ service (snd out) = service w)
  /\ (SessionIdValidation.isValid sv = true ->
      MessageValidation.isValid mv = true ->
      forall validated,
        Validation.validateOptions p (options body)
        = ChatService.Returns validated ->
        exists s text r sw,
          sessionId body = Request.Printable (VStr s) /\ s <> []
          /\ message body = Request.Printable (VStr text)
          /\ Sanitize.sanitizeString (VStr text) <> []
          /\ ChatService.processMessage svc s
               (Sanitize.sanitizeString (VStr text)) validated e (service w)
             = (ChatService.Returns r, sw)
          /\ fst out = Ok r
          /\ service (snd out) = meanwhile sw
          /\ last (ChatService.sentFrom s e
                     (ChatService.beforeCall s
                        (Sanitize.sanitizeString (VStr text)) e (service w)))
             = Some (ChatService.mkChatMessage Message.user
                       (Sanitize.sanitizeString (VStr text)))).
Proof.
  intros out sv mv unconvertible. subst out. unfold processMessage.
  destruct (sessionId body) as [sid|] eqn:Hsid.
  2: { assert (Hun : unconvertible) by now left.
       cbn [processMessageFailed fst snd service log].
       split; [split; [intros _; exact Hun|intros _; eauto]|].
       split; [intros _; split; reflexivity|].
       split; [intros C; now contradiction C|].
       split; intros C; discriminate C. }
  cbn [Request.seen] in sv. fold sv. fold mv. cbn [service log].
  destruct (SessionIdValidation.isValid sv) eqn:Hsv; cbn [negb].
  2: { assert (Hun : ~ unconvertible).
       { intros [C|(C & _)]; discriminate C. }
       cbn [fst snd service].
       split; [split; [intros (a & b & C); discriminate C
                      |intros C; now contradiction Hun]|].
       split; [intros C; now contradiction Hun|].
       split; [intros _ _; split; reflexivity|].
       split; intros C; discriminate C. }
  destruct (MessageValidation.isValid mv) eqn:Hmv; cbn [negb].
  2: { assert (Hun : ~ unconvertible).
       { intros [C|(_ & C & _)]; discriminate C. }
       cbn [fst snd service].
       split; [split; [intros (a & b & C); discriminate C
                      |intros C; now contradiction Hun]|].
       split; [intros C; now contradiction Hun|].
       split; [intros _ C; discriminate C|].
       split; [intros _ _; split; reflexivity|].
       intros _ C; discriminate C. }
  destruct (validateOptions_outcome p (options body))
    as [(Hbad & Hthrows)|(Hgood & validated & Hreturns)].
  { assert (Hun : unconvertible) by (right; auto).
    rewrite Hthrows. cbn [processMessageFailed fst snd service log].
    split; [split; [intros _; exact Hun|intros _; eauto]|].
    split; [intros _; split; reflexivity|].
    split; [intros _ C; discriminate C|].
    split; [intros _ C; discriminate C|].
    intros _ _ v C. discriminate C. }
  assert (Hun : ~ unconvertible).
  { intros [C|(_ & _ & o & Ho & [C|C])]; [congruence| |].
    - now apply (proj1 (Hgood o Ho)).
    - now apply (proj2 (Hgood o Ho)). }
  destruct (ValidationFacts.validateSessionId_inv _ Hsv)
    as (s & Hbody & Hlen & _ & Hres).
  destruct (validateMessage_printable p _ _ Hmv) as (text & Htext).
  destruct (validateMessage_inv p _ _ Hmv) as [Hsan Hne].
  fold sv in Hres. fold mv in Hsan. rewrite Hres, Hsan, Hreturns.
  rewrite Htext in Hne |- *. cbn [Request.seen] in Hne |- *.
  cbn [SessionIdValidation.sanitizedSessionId].
  destruct (ChatServiceFacts.processMessage_returns svc s
              (Sanitize.sanitizeString (VStr text)) validated e (service w))
    as (r & sw & Hcall).
  rewrite Hcall. cbn [fst snd service].
  split; [split; [intros (a & b & C); discriminate C
                 |intros C; now contradiction Hun]|].
  split; [intros C; now contradiction Hun|].
  split; [intros _ C; discriminate C|].
  split; [intros _ C; discriminate C|].
  intros _ _ v Hv. injection Hv as <-. exists s, text, r, sw.
  assert (Hs : s <> []) by (destruct s; [simpl in Hlen; lia|discriminate]).
  split; [now rewrite Hbody|].
  repeat (split; [first [assumption|reflexivity]|]).
  destruct (ServiceFacts.beforeCall_session s
              (Sanitize.sanitizeString (VStr text)) e (service w))
    as (s2 & Hs2 & Hm2).
  exact (ServiceFacts.sent_ends_with_user e _ s s2 _ _ Hs2 Hm2).
Qed.

Lemma controller_processMessage_witness :
  let w := mkWorld Samples.emptyWorld [] in
  let text (s : string) := Request.Printable (VStr (lit s)) in
  let good := mkBody (text "s1") (text "a/b") None in
  let bad := mkBody (text "a b") (text "hello") None in
  let hostile := mkBody Request.Unprintable (text "hello") None in
  let handle :=
    processMessage DecimalParsers.parsers VUndef Samples.service (fun sw => sw) in
  (exists r, fst (handle good Samples.failingEnv w) = Ok r)
  /\ (exists details,
        fst (handle bad Samples.failingEnv w)
        = BadRequest (lit "SessionId inv" ++ [225%N] ++ lit "lido") details)
  /\ service (snd (handle bad Samples.failingEnv w)) = Samples.emptyWorld
  /\ fst (handle hostile Samples.failingEnv w)
     = InternalError (lit "Error interno del servidor")
         (lit "Ocurri" ++ [243%N] ++ lit " un error al procesar tu mensaje")
  /\ service (snd (handle hostile Samples.failingEnv w)) = Samples.emptyWorld
  /\ last (ChatService.sentFrom Samples.s1 Samples.failingEnv
             (ChatService.beforeCall Samples.s1 (lit "a&#x2F;b")
                Samples.failingEnv Samples.emptyWorld))
     = Some (ChatService.mkChatMessage Message.user (lit "a&#x2F;b")).
Proof.
  intros w text good bad hostile handle.
  destruct (controller_processMessage DecimalParsers.parsers VUndef
              Samples.service (fun sw => sw) good Samples.failingEnv w)
    as (_ & _ & _ & _ & Hok).
  destruct (controller_processMessage DecimalParsers.parsers VUndef
              Samples.service (fun sw => sw) bad Samples.failingEnv w)
    as (_ & _ & Hbad & _).
  destruct (controller_processMessage DecimalParsers.parsers VUndef
              Samples.service (fun sw => sw) hostile Samples.failingEnv w)
    as (_ & Hhostile & _).
  destruct (Hok eq_refl eq_refl Options.empty eq_refl)
    as (s & t & r & sw & Hbody & _ & Htext & _ & _ & Hr & _ & Hsent).
  injection Hbody as <-. injection Htext as <-.
  destruct Hbad as [Hdetails Hstore]; [discriminate|reflexivity|].
  destruct Hhostile as [Hanswer Huntouched]; [now left|].
  split; [exists r; exact Hr|].
  split; [eexists; exact Hdetails|].
  split; [exact Hstore|].
  split; [exact Hanswer|].
  split; [exact Huntouched|exact Hsent].
Defined.

(** *** The history handler *)

Lemma accepted_limit (n : jsnum) :
  isNaN n || num_lt n (num_of_Z 1) || num_lt (num_of_Z 100) n = false ->
  exists l, toInteger n = Some l /\ 1 <= l <= 100.
Proof.
  destruct n as [| | |q]; try (intros C; discriminate C).
  unfold num_lt, num_of_Z, Qle_bool, Qeq_bool, inject_Z, toInteger.
  cbn [isNaN orb Qnum Qden]. rewrite !Z.mul_1_r, !Z.mul_1_l.
  intros H. apply orb_false_elim in H as [Hlow Hhigh].
  exists (Z.quot (Qnum q) (Z.pos (Qden q))). split; [reflexivity|].
  assert (Hge : Z.pos (Qden q) <= Qnum q).
  { destruct (Z.leb_spec (Qnum q) (Z.pos (Qden q))) as [Hle|]; [|lia].
    cbn [andb] in Hlow. apply negb_false_iff, Z.eqb_eq in Hlow. lia. }
  assert (Hle : Qnum q <= 100 * Z.pos (Qden q)).
  { destruct (Z.leb_spec (100 * Z.pos (Qden q)) (Qnum q)) as [Hl|]; [|lia].
    cbn [andb] in Hhigh. apply negb_false_iff, Z.eqb_eq in Hhigh. lia. }
  rewrite Z.quot_div_nonneg by lia. split.
  - apply Z.div_le_lower_bound; lia.
  - apply Z.div_le_upper_bound; lia.
Qed.

(** X29: the history handler answers 400 for a session identifier that
    fails validation.  For an accepted identifier it answers 500 exactly
    when the limit cannot be converted to a string, 400 when the limit
    does not parse to a number from 1 to 100 (50 is taken when the
    parameter is absent), and otherwise 200 with the service's history of
    that many messages at most.  In no case does it change the service or
    its store. *)
Theorem controller_getSessionHistory p (sessionId : jsval)
    (limit : Request.value) (w : world) :
  let out := getSessionHistory p sessionId limit w in
  let sv := Validation.validateSessionId sessionId in
  service (snd out) = service w
  /\ (SessionIdValidation.isValid sv = false ->
      fst out
      = HistoryBadRequest (lit "SessionId inv" ++ [225%N] ++ lit "lido")
          (SessionIdValidation.errors sv))
  /\ ((exists a b, fst out = HistoryInternalError a b)
      <-> SessionIdValidation.isValid sv = true
          /\ limit = Request.Unprintable)
  /\ (SessionIdValidation.isValid sv = true ->
      limit = Request.Unprintable ->
      fst out
      = HistoryInternalError (lit "Error interno del servidor")
          (lit "Ocurri" ++ [243%N] ++ lit " un error al obtener el historial"))
  /\ forall given,
       limit = Request.Printable given ->
       SessionIdValidation.isValid sv = true ->
       let limitNum :=
         Sanitize.parseInt p
           (if is_undefined given then VNum (num_of_Z 50) else given) in
       (isNaN limitNum || num_lt limitNum (num_of_Z 1)
        || num_lt (num_of_Z 100) limitNum = true ->
        fst out
        = HistoryBadLimit
            (lit "L" ++ [237%N] ++ lit "mite inv" ++ [225%N] ++ lit "lido")
            (lit "El l" ++ [237%N] ++ lit "mite debe ser un n" ++ [250%N]
               ++ lit "mero entre 1 y 100"))
       /\ (isNaN limitNum || num_lt limitNum (num_of_Z 1)
           || num_lt (num_of_Z 100) limitNum = false ->
           exists s l h,
             sessionId = VStr s /\ toInteger limitNum = Some l
             /\ 1 <= l <= 100
             /\ h = ChatServiceQueries.getSessionHistory s (Some (Some l))
                      (ChatService.chatModel (service w))
             /\ fst out = HistoryOk h
             /\ (Z.of_nat (length (ChatServiceQueries.messages h)) <= l)).
Proof.
  intros out sv. subst out. unfold getSessionHistory. fold sv.
  destruct (SessionIdValidation.isValid sv) eqn:Hsv; cbn [negb].
  2: { cbn [fst snd service log]. split; [reflexivity|].
       split; [reflexivity|].
       split; [split; [intros (a & b & C); discriminate C
                      |intros (C & _); discriminate C]|].
       split; [intros C; discriminate C|].
       intros given _ C. discriminate C. }
  destruct limit as [given|].
  2: { cbn [fst snd service log]. split; [reflexivity|].
       split; [intros C; discriminate C|].
       split; [split; [intros _; split; reflexivity|intros _; eauto]|].
       split; [reflexivity|].
       intros given C. discriminate C. }
  set (limitNum :=
         Sanitize.parseInt p
           (if is_undefined given then VNum (num_of_Z 50) else given)).
  destruct (isNaN limitNum || num_lt limitNum (num_of_Z 1)
            || num_lt (num_of_Z 100) limitNum) eqn:Hlimit.
  { cbn [fst snd]. split; [reflexivity|].
    split; [intros C; discriminate C|].
    split; [split; [intros (a & b & C); discriminate C
                   |intros (_ & C); discriminate C]|].
    split; [intros _ C; discriminate C|].
    intros given' Hgiven _. injection Hgiven as <-. fold limitNum.
    rewrite Hlimit. split; [reflexivity|intros C; discriminate C]. }
  cbn [fst snd service log]. split; [reflexivity|].
  split; [intros C; discriminate C|].
  split; [split; [intros (a & b & C); discriminate C
                 |intros (_ & C); discriminate C]|].
  split; [intros _ C; discriminate C|].
  intros given' Hgiven _. injection Hgiven as <-. fold limitNum.
  rewrite Hlimit. split; [intros C; discriminate C|]. intros _.
  destruct (ValidationFacts.validateSessionId_inv _ Hsv)
    as (s & -> & _ & _ & Hres).
  destruct (accepted_limit limitNum Hlimit) as (l & Hl & Hrange).
  fold sv in Hres. rewrite Hres, Hl.
  cbn [SessionIdValidation.sanitizedSessionId].
  exists s, l. eexists. repeat (split; [first [reflexivity|lia]|]).
  unfold ChatServiceQueries.getSessionHistory, ChatModel.getSession.
  destruct (ChatModel.sessions (ChatService.chatModel (service w)) !! s)
    as [s0|] eqn:Hs0; cbn [ChatServiceQueries.messages]; [|simpl; lia].
  rewrite length_map. cbn [from_option Datatypes.id].
  replace l with (Z.of_nat (Z.to_nat l)) at 1 by lia.
  rewrite (ChatModelFacts.getSessionMessages_limit _ s s0 (Z.to_nat l) Hs0)
    by lia.
  rewrite length_drop. lia.
Qed.

Lemma controller_getSessionHistory_witness :
  let w := mkWorld (ChatService.mkWorld Samples.threeMessages [] 0 0) [] in
  let handle (limit : Request.value) :=
    fst (getSessionHistory DecimalParsers.parsers (VStr Samples.s1) limit w) in
  let contents (r : historyResponse) :=
    match r with
    | HistoryOk h =>
        Some (List.map ChatServiceQueries.content (ChatServiceQueries.messages h))
    | _ => None
    end in
  contents (handle (Request.Printable (VStr (lit "2"))))
  = Some [lit "two"; lit "three"]
  /\ contents (handle (Request.Printable VUndef))
     = Some [lit "one"; lit "two"; lit "three"]
  /\ handle (Request.Printable (VStr (lit "0")))
     = HistoryBadLimit
         (lit "L" ++ [237%N] ++ lit "mite inv" ++ [225%N] ++ lit "lido")
         (lit "El l" ++ [237%N] ++ lit "mite debe ser un n" ++ [250%N]
            ++ lit "mero entre 1 y 100")
  /\ handle Request.Unprintable
     = HistoryInternalError (lit "Error interno del servidor")
         (lit "Ocurri" ++ [243%N] ++ lit " un error al obtener el historial").
Proof.
  intros w handle contents.
  pose proof (controller_getSessionHistory DecimalParsers.parsers
                (VStr Samples.s1) (Request.Printable (VStr (lit "2"))) w)
    as (_ & _ & _ & _ & Htwo).
  pose proof (controller_getSessionHistory DecimalParsers.parsers
                (VStr Samples.s1) (Request.Printable VUndef) w)
    as (_ & _ & _ & _ & Habsent).
  pose proof (controller_getSessionHistory DecimalParsers.parsers
                (VStr Samples.s1) (Request.Printable (VStr (lit "0"))) w)
    as (_ & _ & _ & _ & Hzero).
  pose proof (controller_getSessionHistory DecimalParsers.parsers
                (VStr Samples.s1) Request.Unprintable w)
    as (_ & _ & _ & Hfault & _).
  destruct (Htwo _ eq_refl eq_refl) as [_ Hok2].
  destruct (Hok2 eq_refl) as (s2 & l2 & h2 & Hs2 & Hl2 & _ & Hh2 & Hout2 & _).
  destruct (Habsent _ eq_refl eq_refl) as [_ Hok3].
  destruct (Hok3 eq_refl) as (s3 & l3 & h3 & Hs3 & Hl3 & _ & Hh3 & Hout3 & _).
  destruct (Hzero _ eq_refl eq_refl) as [Hbad _].
  injection Hs2 as <-. injection Hs3 as <-.
  vm_compute in Hl2. injection Hl2 as <-.
  vm_compute in Hl3. injection Hl3 as <-.
  subst handle h2 h3.
  split; [cbv beta; rewrite Hout2; vm_compute; reflexivity|].
  split; [cbv beta; rewrite Hout3; vm_compute; reflexivity|].
  split; [exact (Hbad eq_refl)|].
  exact (Hfault eq_refl eq_refl).
Defined.

End ControllerFacts.
